(** * ashare-llm-analyst: the signal generator and the indicator assembler

    A shallow embedding of [src/main.py]: [generate_trading_signals],
    [StockAnalyzer.calculate_indicators], [StockAnalyzer.generate_analysis_data]
    and the per-instrument loop of [StockAnalyzer.generate_html_report], with
    [StockAnalyzer.get_stock_name], [StockAnalyzer.fetch_data],
    [StockAnalyzer.run_analysis] and [_get_value_class].

    Cells of a table are IEEE binary64 numbers (numpy's [float64]), modelled by
    Rocq's primitive floats, so comparisons against not-a-number behave as they
    do in Python.  A pandas [DataFrame] is an index together with a finite map
    from column names to arrays.  Python exceptions are values of [exn] carried
    by the [result] type; the mutable list [signals] is threaded as state. *)

From Stdlib Require Import ZArith Floats Uint63.
From stdpp Require Import gmap strings list pretty.

Set Warnings "-inexact-float,-register-all".
Open Scope string_scope.
Open Scope list_scope.

(** ** Python values: exceptions and results *)

Record exn : Type := Exn { exn_class : string; exn_str : string }.

(** [str(e)] as used in the f-strings of the source. *)
Definition str (e : exn) : string := exn_str e.

(** [str(KeyError('K'))] is the [repr] of the key, quotes included. *)
Definition KeyError (key : string) : exn := Exn "KeyError" ("'" +:+ key +:+ "'").
Definition IndexError (msg : string) : exn := Exn "IndexError" msg.
Definition ValueError (msg : string) : exn := Exn "ValueError" msg.
Definition OverflowError (msg : string) : exn := Exn "OverflowError" msg.

Inductive result (A : Type) : Type :=
  | Return (a : A)
  | Raise (e : exn).
Arguments Return {A} a.
Arguments Raise {A} e.

#[export] Instance result_ret : MRet result := @Return.
#[export] Instance result_bind : MBind result :=
  λ A B f r, match r with Return a => f a | Raise e => Raise e end.

(** ** numpy: binary64 scalars and arrays *)

Module np.

Abbreviation array := (list float).

(** Python's [a > b], [a >= b], [a < b], [a <= b] on [float64]: false as soon
    as one side is not-a-number. *)
Definition gt (a b : float) : bool := (b <? a)%float.
Definition ge (a b : float) : bool := (b <=? a)%float.
Definition lt (a b : float) : bool := (a <? b)%float.
Definition le (a b : float) : bool := (a <=? b)%float.

(** The largest finite binary64 value, [np.finfo(np.float64).max]. *)
Definition float_max : float := 0x1.fffffffffffffp1023%float.

(** [np.nan_to_num(x, nan=v)] at one position: not-a-number becomes [v], the
    infinities become the largest finite values, anything else is kept. *)
Definition nan_to_num1 (nan : float) (x : float) : float :=
  if is_nan x then nan
  else if (x =? infinity)%float then float_max
  else if (x =? neg_infinity)%float then (- float_max)%float
  else x.

Definition nan_to_num (a : array) (nan : float) : array := nan_to_num1 nan <$> a.

End np.

(** ** pandas: tables *)

Module pd.

Record DataFrame : Type := mkDataFrame {
  index : list Z;                     (* the row labels: one timestamp per row *)
  columns : gmap string np.array      (* column name -> values *)
}.

(** [len(df)] *)
Definition len (df : DataFrame) : nat := length (index df).

(** [df.empty]: some axis has length zero. *)
Definition empty (df : DataFrame) : bool :=
  bool_decide (len df = 0%nat) || bool_decide (columns df = ∅).

(** [df.copy()]: a fresh table with the same contents; values carry no
    identity here, so later writes to the copy never reach the original. *)
Definition copy (df : DataFrame) : DataFrame := df.

(** [df[c]]: the values of column [c]; a missing column raises [KeyError]. *)
Definition getitem (df : DataFrame) (c : string) : result np.array :=
  match columns df !! c with
  | Some s => Return s
  | None => Raise (KeyError c)
  end.

(** [s.iloc[i]] with Python's negative positions; out of range raises. *)
Definition iloc (s : np.array) (i : Z) : result float :=
  let n := Z.of_nat (length s) in
  let j := if (i <? 0)%Z then (n + i)%Z else i in
  if ((0 <=? j)%Z && (j <? n)%Z)%bool then
    match s !! Z.to_nat j with
    | Some x => Return x
    | None => Raise (IndexError "single positional indexer is out-of-bounds")
    end
  else Raise (IndexError "single positional indexer is out-of-bounds").

(** [df[c] = a] for an array [a].  A table whose index is empty takes the
    length of a non-empty [a]: it is re-indexed to [0 .. len(a)-1] and its
    existing columns are filled with not-a-number.  Otherwise the lengths
    must agree, or [ValueError] is raised and the table is left as it was. *)
Definition setitem (df : DataFrame) (c : string) (a : np.array) : result DataFrame :=
  if bool_decide (len df = 0%nat) && negb (bool_decide (length a = 0%nat)) then
    Return {| index := Z.of_nat <$> seq 0 (length a);
              columns := <[c := a]> ((λ _, replicate (length a) nan) <$> columns df) |}
  else if bool_decide (length a = len df) then
    Return {| index := index df; columns := <[c := a]> (columns df) |}
  else
    Raise (ValueError ("Length of values (" +:+ pretty (length a) +:+
                       ") does not match length of index (" +:+ pretty (len df) +:+ ")")).

(** [df[c].iloc[i]] *)
Definition at_iloc (df : DataFrame) (c : string) (i : Z) : result float :=
  s ← getitem df c; iloc s i.

End pd.

(** ** The signal generator *)

(** The body of [generate_trading_signals] runs with the list [signals] as
    mutable state; an exception leaves the list as it was when it was raised. *)
Definition Sig (A : Type) : Type := list string → result A * list string.

#[export] Instance Sig_ret : MRet Sig := λ A a signals, (Return a, signals).
#[export] Instance Sig_bind : MBind Sig :=
  λ A B f m signals,
    match m signals with
    | (Return a, signals') => f a signals'
    | (Raise e, signals') => (Raise e, signals')
    end.

Notation "c1 ;; c2" := (mbind (λ _ : unit, c2) c1)
  (at level 100, c2 at level 200, right associativity) : stdpp_scope.

(** An expression that cannot touch [signals]. *)
Definition expr {A} (r : result A) : Sig A := λ signals, (r, signals).

(** [signals.append(msg)] *)
Definition append (msg : string) : Sig unit := λ signals, (Return tt, signals ++ [msg]).

(** [try: body / except Exception as e: handler] *)
Definition try_except {A} (body : Sig A) (handler : exn → Sig A) : Sig A :=
  λ signals,
    match body signals with
    | (Raise e, signals') => handler e signals'
    | done => done
    end.

(** [df[c].iloc[i]] inside the [try] body. *)
Definition cell (df : pd.DataFrame) (c : string) (i : Z) : Sig float :=
  expr (pd.at_iloc df c i).

(** A numeric literal. *)
Definition num (x : float) : Sig float := mret x.

(** Comparisons evaluate the left operand, then the right one. *)
Definition cmp (op : float → float → bool) (x y : Sig float) : Sig bool :=
  a ← x; b ← y; mret (op a b).

(** [x and y]: [y] is not evaluated when [x] is false. *)
Definition and_ (x y : Sig bool) : Sig bool :=
  b ← x; if b : bool then y else mret false.

(** [if c1: t1 / elif c2: t2] *)
Definition if_elif (c1 : Sig bool) (t1 : Sig unit) (c2 : Sig bool) (t2 : Sig unit) : Sig unit :=
  b1 ← c1;
  if b1 : bool then t1
  else b2 ← c2; if b2 : bool then t2 else mret tt.

Inductive rule : Type :=
  | MACD_rule | KDJ_rule | RSI_rule | BOLL_rule | DMI_rule | VR_rule | ROC_rule.

#[export] Instance rule_eq_dec : EqDecision rule.
Proof. solve_decision. Defined.

(** The order in which the blocks stand in the [try] body. *)
Definition rule_order : list rule :=
  [MACD_rule; KDJ_rule; RSI_rule; BOLL_rule; DMI_rule; VR_rule; ROC_rule].

Definition macd_golden : string := "MACD金叉形成，可能上涨".
Definition macd_dead : string := "MACD死叉形成，可能下跌".
Definition kdj_oversold : string := "KDJ超卖，可能反弹".
Definition kdj_overbought : string := "KDJ超买，注意回调".
Definition rsi_oversold : string := "RSI超卖，可能反弹".
Definition rsi_overbought : string := "RSI超买，注意回调".
Definition boll_above : string := "股价突破布林上轨，超买状态".
Definition boll_below : string := "股价跌破布林下轨，超卖状态".
Definition dmi_golden : string := "DMI金叉，上升趋势形成".
Definition dmi_dead : string := "DMI死叉，下降趋势形成".
Definition vr_high : string := "VR大于160，市场活跃度高".
Definition vr_low : string := "VR小于40，市场活跃度低".
Definition roc_up : string := "ROC上穿均线，上升动能增强".
Definition roc_down : string := "ROC下穿均线，上升动能减弱".
Definition insufficient_data : string := "数据不足，无法进行技术分析".
Definition no_signal : string := "当前无明显交易信号".
Definition diagnostic (e : exn) : string := "技术分析计算出错: " +:+ str e.

(** One block of the [try] body per rule (lines 26-66 of the source).  The
    chained comparison [a > 0 >= b] is [a > 0 and 0 >= b]. *)
Definition rule_body (r : rule) (df : pd.DataFrame) : Sig unit :=
  match r with
  | MACD_rule =>
      if_elif (and_ (cmp np.gt (cell df "MACD" (-1)) (num 0))
                    (cmp np.ge (num 0) (cell df "MACD" (-2))))
              (append macd_golden)
              (and_ (cmp np.lt (cell df "MACD" (-1)) (num 0))
                    (cmp np.le (num 0) (cell df "MACD" (-2))))
              (append macd_dead)
  | KDJ_rule =>
      if_elif (and_ (cmp np.lt (cell df "K" (-1)) (num 20))
                    (cmp np.lt (cell df "D" (-1)) (num 20)))
              (append kdj_oversold)
              (and_ (cmp np.gt (cell df "K" (-1)) (num 80))
                    (cmp np.gt (cell df "D" (-1)) (num 80)))
              (append kdj_overbought)
  | RSI_rule =>
      if_elif (cmp np.lt (cell df "RSI" (-1)) (num 20))
              (append rsi_oversold)
              (cmp np.gt (cell df "RSI" (-1)) (num 80))
              (append rsi_overbought)
  | BOLL_rule =>
      if_elif (cmp np.gt (cell df "close" (-1)) (cell df "BOLL_UP" (-1)))
              (append boll_above)
              (cmp np.lt (cell df "close" (-1)) (cell df "BOLL_LOW" (-1)))
              (append boll_below)
  | DMI_rule =>
      if_elif (and_ (cmp np.gt (cell df "PDI" (-1)) (cell df "MDI" (-1)))
                    (cmp np.le (cell df "PDI" (-2)) (cell df "MDI" (-2))))
              (append dmi_golden)
              (and_ (cmp np.lt (cell df "PDI" (-1)) (cell df "MDI" (-1)))
                    (cmp np.ge (cell df "PDI" (-2)) (cell df "MDI" (-2))))
              (append dmi_dead)
  | VR_rule =>
      if_elif (cmp np.gt (cell df "VR" (-1)) (num 160))
              (append vr_high)
              (cmp np.lt (cell df "VR" (-1)) (num 40))
              (append vr_low)
  | ROC_rule =>
      if_elif (and_ (cmp np.gt (cell df "ROC" (-1)) (cell df "MAROC" (-1)))
                    (cmp np.le (cell df "ROC" (-2)) (cell df "MAROC" (-2))))
              (append roc_up)
              (and_ (cmp np.lt (cell df "ROC" (-1)) (cell df "MAROC" (-1)))
                    (cmp np.ge (cell df "ROC" (-2)) (cell df "MAROC" (-2))))
              (append roc_down)
  end.

(** The blocks in sequence. *)
Fixpoint run_rules (rs : list rule) (df : pd.DataFrame) : Sig unit :=
  match rs with
  | [] => mret tt
  | r :: rs' => rule_body r df ;; run_rules rs' df
  end.

Definition generate_trading_signals (df : pd.DataFrame) : result (list string) :=
  let signals := [] in
  if (pd.len df <? 2)%nat then Return [insufficient_data]
  else
    match try_except (run_rules rule_order df)
                     (λ e, append (diagnostic e)) signals with
    | (Return _, signals) =>
        Return (match signals with [] => [no_signal] | _ => signals end)
    | (Raise e, _) => Raise e
    end.


(** ** The indicator library

    [MyTT] is imported by [main.py] and is not part of it: the assembler is
    verified against any library with these call signatures.  Each function
    either returns its arrays or raises. *)

Module mt.

Record library : Type := {
  MACD : np.array → result (np.array * np.array * np.array);
  KDJ : np.array → np.array → np.array → result (np.array * np.array * np.array);
  BOLL : np.array → result (np.array * np.array * np.array);
  RSI : np.array → Z → result np.array;
  PSY : np.array → result (np.array * np.array);
  WR : np.array → np.array → np.array → result (np.array * np.array);
  BIAS : np.array → result (np.array * np.array * np.array);
  CCI : np.array → np.array → np.array → result np.array;
  MA : np.array → Z → result np.array;
  ATR : np.array → np.array → np.array → result np.array;
  EMV : np.array → np.array → np.array → result (np.array * np.array);
  DPO : np.array → result (np.array * np.array);
  TRIX : np.array → result (np.array * np.array);
  DMI : np.array → np.array → np.array →
        result (np.array * np.array * np.array * np.array);
  VR : np.array → np.array → result np.array;
  BRAR : np.array → np.array → np.array → np.array → result (np.array * np.array);
  ROC : np.array → result (np.array * np.array);
  MTM : np.array → result (np.array * np.array);
  DMA : np.array → result (np.array * np.array)
}.

End mt.

(** ** Report snapshots: the dictionaries handed to the formatting code *)

Inductive pyval : Type :=
  | PStr (s : string)
  | PList (l : list pyval)
  | PDict (d : list (string * pyval)).

Abbreviation pydict := (list (string * pyval)).

(** [d[k] = v] on an insertion-ordered dictionary. *)
Fixpoint dict_set (d : pydict) (k : string) (v : pyval) : pydict :=
  match d with
  | [] => [(k, v)]
  | (k', v') :: d' => if bool_decide (k' = k) then (k, v) :: d' else (k', v') :: dict_set d' k v
  end.

(** [d.update(other)] *)
Definition dict_update (d other : pydict) : pydict :=
  foldl (λ acc kv, dict_set acc kv.1 kv.2) d other.

(** [d[k]] for reading, [None] standing for a missing key. *)
Definition dict_get (d : pydict) (k : string) : option pyval :=
  (λ ikv, ikv.2.2) <$> list_find (λ kv, kv.1 = k) d.

(** [int(x)] on a float: truncation towards zero; not-a-number and the
    infinities raise. *)
Definition int (x : float) : result Z :=
  match Prim2SF x with
  | S754_nan => Raise (ValueError "cannot convert float NaN to integer")
  | S754_infinity _ => Raise (OverflowError "cannot convert float infinity to integer")
  | S754_zero _ => Return 0%Z
  | S754_finite s m e =>
      let a := if (0 <=? e)%Z then (Z.pos m * 2 ^ e)%Z else (Z.pos m / 2 ^ (- e))%Z in
      Return (if s then (- a)%Z else a)
  end.

(** The optional narrative generator: [request_analysis(df, latest_df)]
    returns a dictionary, or [None], or raises. *)
Record LLMAnalyzer : Type := {
  request_analysis : pd.DataFrame → pd.DataFrame → result (option pydict)
}.

(** ** The analyzer object *)

Record StockAnalyzer : Type := {
  stock_names : list (string * string);          (* name -> code, in insertion order *)
  data : gmap string pd.DataFrame;               (* code -> fetched series *)
  llm : option LLMAnalyzer
}.

(** [self.stock_codes = list(_stock_info.values())] *)
Definition stock_codes (self : StockAnalyzer) : list string := snd <$> stock_names self.

(** [{v: k for k, v in self.stock_names.items()}.get(code, code)] *)
Definition get_stock_name (self : StockAnalyzer) (code : string) : string :=
  let by_code : gmap string string :=
    foldl (λ m kv, <[kv.2 := kv.1]> m) ∅ (stock_names self) in
  default code (by_code !! code).

(** The columns written by lines 215-256, in that order. *)
Definition indicator_columns : list string :=
  ["MACD"; "DIF"; "DEA"; "K"; "D"; "J"; "BOLL_UP"; "BOLL_MID"; "BOLL_LOW"; "RSI";
   "PSY"; "PSYMA"; "WR"; "WR1"; "BIAS1"; "BIAS2"; "BIAS3"; "CCI";
   "MA5"; "MA10"; "MA20"; "MA60"; "ATR"; "EMV"; "MAEMV"; "DPO"; "MADPO";
   "TRIX"; "TRMA"; "PDI"; "MDI"; "ADX"; "ADXR"; "VR"; "AR"; "BR";
   "ROC"; "MAROC"; "MTM"; "MTMMA"; "DIF_DMA"; "DIFMA_DMA"].

Definition ohlcv_columns : list string := ["open"; "high"; "low"; "close"; "volume"].

(** What the analyzer takes from outside [main.py]: the indicator library,
    Python's [format(x, '.2f')] and [format(n, ',')], and the drawing of the
    chart of lines 327-428, which yields the encoded image or [None]. *)
Class Collaborators : Type := {
  MyTT : mt.library;
  format_2f : float → string;
  format_comma : Z → string;
  draw_chart : string → string → pd.DataFrame → option string
}.

Section Analyzer.

Context {ext : Collaborators}.

(** Lines 178-213: read the five price arrays, call every indicator; the
    result pairs each array with the column that lines 215-256 store it in. *)
Definition compute_indicators (df : pd.DataFrame) : result (list (string * np.array)) :=
  close ← pd.getitem df "close";
  open_price ← pd.getitem df "open";
  high ← pd.getitem df "high";
  low ← pd.getitem df "low";
  volume ← pd.getitem df "volume";
  '(dif, dea, macd) ← mt.MACD MyTT close;
  '(k, d, j) ← mt.KDJ MyTT close high low;
  '(upper, mid, lower) ← mt.BOLL MyTT close;
  rsi ← mt.RSI MyTT close 14;
  let rsi := np.nan_to_num rsi 50 in
  '(psy, psyma) ← mt.PSY MyTT close;
  '(wr, wr1) ← mt.WR MyTT close high low;
  '(bias1, bias2, bias3) ← mt.BIAS MyTT close;
  cci ← mt.CCI MyTT close high low;
  ma5 ← mt.MA MyTT close 5;
  ma10 ← mt.MA MyTT close 10;
  ma20 ← mt.MA MyTT close 20;
  ma60 ← mt.MA MyTT close 60;
  atr ← mt.ATR MyTT close high low;
  '(emv, maemv) ← mt.EMV MyTT high low volume;
  '(dpo, madpo) ← mt.DPO MyTT close;
  '(trix, trma) ← mt.TRIX MyTT close;
  '(pdi, mdi, adx, adxr) ← mt.DMI MyTT close high low;
  vr ← mt.VR MyTT close volume;
  '(ar, br) ← mt.BRAR MyTT open_price close high low;
  '(roc, maroc) ← mt.ROC MyTT close;
  '(mtm, mtmma) ← mt.MTM MyTT close;
  '(dif_dma, difma_dma) ← mt.DMA MyTT close;
  mret [("MACD", macd); ("DIF", dif); ("DEA", dea); ("K", k); ("D", d); ("J", j);
        ("BOLL_UP", upper); ("BOLL_MID", mid); ("BOLL_LOW", lower); ("RSI", rsi);
        ("PSY", psy); ("PSYMA", psyma); ("WR", wr); ("WR1", wr1);
        ("BIAS1", bias1); ("BIAS2", bias2); ("BIAS3", bias3); ("CCI", cci);
        ("MA5", ma5); ("MA10", ma10); ("MA20", ma20); ("MA60", ma60);
        ("ATR", atr); ("EMV", emv); ("MAEMV", maemv); ("DPO", dpo); ("MADPO", madpo);
        ("TRIX", trix); ("TRMA", trma); ("PDI", pdi); ("MDI", mdi); ("ADX", adx);
        ("ADXR", adxr); ("VR", vr); ("AR", ar); ("BR", br); ("ROC", roc);
        ("MAROC", maroc); ("MTM", mtm); ("MTMMA", mtmma);
        ("DIF_DMA", dif_dma); ("DIFMA_DMA", difma_dma)].

(** The library calls made by lines 185-213, in order, with their results
    forgotten: what matters below is whether a call raised. *)
Definition called {A} (r : result A) : result unit := r ≫= λ _, mret tt.

Definition indicator_calls (close open_price high low volume : np.array) : list (result unit) :=
  [called (mt.MACD MyTT close); called (mt.KDJ MyTT close high low);
   called (mt.BOLL MyTT close); called (mt.RSI MyTT close 14);
   called (mt.PSY MyTT close); called (mt.WR MyTT close high low);
   called (mt.BIAS MyTT close); called (mt.CCI MyTT close high low);
   called (mt.MA MyTT close 5); called (mt.MA MyTT close 10);
   called (mt.MA MyTT close 20); called (mt.MA MyTT close 60);
   called (mt.ATR MyTT close high low); called (mt.EMV MyTT high low volume);
   called (mt.DPO MyTT close); called (mt.TRIX MyTT close);
   called (mt.DMI MyTT close high low); called (mt.VR MyTT close volume);
   called (mt.BRAR MyTT open_price close high low); called (mt.ROC MyTT close);
   called (mt.MTM MyTT close); called (mt.DMA MyTT close)].

(** Lines 215-256: [df[c] = a] for each pair, in order. *)
Fixpoint assign_columns (df : pd.DataFrame) (cols : list (string * np.array)) : result pd.DataFrame :=
  match cols with
  | [] => Return df
  | (c, a) :: cols' => df' ← pd.setitem df c a; assign_columns df' cols'
  end.

(** The warning printed for fewer than 60 rows changes nothing; [None] is
    Python's [None]. *)
Definition calculate_indicators (self : StockAnalyzer) (code : string) : option pd.DataFrame :=
  match data self !! code with
  | None => None
  | Some stored =>
      let df := pd.copy stored in
      match cols ← compute_indicators df; assign_columns df cols with
      | Return df' => Some df'
      | Raise e => None
      end
  end.

(** [f"{latest_df[c].iloc[-1]:.2f}"] *)
Definition latest_2f (df : pd.DataFrame) (c : string) : result pyval :=
  x ← pd.at_iloc df c (-1); mret (PStr (format_2f x)).

(** One family of the snapshot: label -> formatted last value of a column. *)
Fixpoint family (df : pd.DataFrame) (entries : list (string * string)) : result pydict :=
  match entries with
  | [] => Return []
  | (label, c) :: entries' =>
      v ← latest_2f df c; rest ← family df entries'; mret ((label, v) :: rest)
  end.

Fixpoint families (df : pd.DataFrame) (fs : list (string * list (string * string))) : result pydict :=
  match fs with
  | [] => Return []
  | (name, entries) :: fs' =>
      d ← family df entries; rest ← families df fs'; mret ((name, PDict d) :: rest)
  end.

(** The layout of the snapshot's indicator part (lines 488-527). *)
Definition indicator_families : list (string * list (string * string)) :=
  [("MA指标", [("MA5", "MA5"); ("MA10", "MA10"); ("MA20", "MA20"); ("MA60", "MA60")]);
   ("趋势指标", [("MACD (指数平滑异同移动平均线)", "MACD"); ("DIF (差离值)", "DIF");
                 ("DEA (讯号线)", "DEA"); ("TRIX (三重指数平滑平均线)", "TRIX");
                 ("PDI (上升方向线)", "PDI"); ("MDI (下降方向线)", "MDI");
                 ("ADX (趋向指标)", "ADX")]);
   ("摆动指标", [("RSI (相对强弱指标)", "RSI"); ("KDJ-K (随机指标K值)", "K");
                 ("KDJ-D (随机指标D值)", "D"); ("KDJ-J (随机指标J值)", "J");
                 ("BIAS (乖离率)", "BIAS1"); ("CCI (顺势指标)", "CCI")]);
   ("成交量指标", [("VR (成交量比率)", "VR"); ("AR (人气指标)", "AR");
                   ("BR (意愿指标)", "BR")]);
   ("动量指标", [("ROC (变动率)", "ROC"); ("MTM (动量指标)", "MTM");
                 ("DPO (区间振荡)", "DPO")]);
   ("布林带", [("BOLL上轨", "BOLL_UP"); ("BOLL中轨", "BOLL_MID");
               ("BOLL下轨", "BOLL_LOW")])].

(** Lines 479-529: the snapshot of a successfully analysed instrument. *)
Definition build_analysis_data (code : string) (df latest_df : pd.DataFrame) : result pydict :=
  close1 ← pd.at_iloc df "close" (-1);
  c1 ← pd.at_iloc df "close" (-1);
  c2 ← pd.at_iloc df "close" (-2);
  c2' ← pd.at_iloc df "close" (-2);
  let change := ((c1 - c2) / c2' * 100)%float in
  high1 ← pd.at_iloc df "high" (-1);
  low1 ← pd.at_iloc df "low" (-1);
  volume1 ← pd.at_iloc df "volume" (-1);
  volume_int ← int volume1;
  indicators ← families latest_df indicator_families;
  signals ← generate_trading_signals latest_df;
  mret [("基础数据", PDict [("股票代码", PStr code);
                            ("最新收盘价", PStr (format_2f close1));
                            ("涨跌幅", PStr (format_2f change +:+ "%"));
                            ("最高价", PStr (format_2f high1));
                            ("最低价", PStr (format_2f low1));
                            ("成交量", PStr (format_comma volume_int))]);
        ("技术指标", PDict indicators);
        ("技术分析建议", PList (PStr <$> signals))].

(** Lines 531-544: merge the narrative generator's sections, if any; its
    failure is swallowed. *)
Definition add_ai_analysis (self : StockAnalyzer) (df latest_df : pd.DataFrame)
    (analysis_data : pydict) : pydict :=
  match llm self with
  | Some analyzer =>
      match request_analysis analyzer df latest_df with
      | Return (Some (kv :: api_result)) => dict_update analysis_data (kv :: api_result)
      | Return _ => analysis_data
      | Raise e => analysis_data
      end
  | None => analysis_data
  end.

(** The placeholder snapshots of lines 435-476 and 551-559. *)
Definition failure_snapshot (basic : pydict) (advice : string) : pydict :=
  [("基础数据", PDict basic); ("技术指标", PDict []); ("技术分析建议", PList [PStr advice])].

Definition generate_analysis_data (self : StockAnalyzer) (code : string) : result pydict :=
  match data self !! code with
  | None =>
      let stock_name := get_stock_name self code in
      Return (failure_snapshot
                [("股票代码", PStr code); ("股票名称", PStr stock_name);
                 ("数据状态", PStr "数据获取失败");
                 ("错误信息", PStr "请检查股票代码格式是否正确")]
                "数据获取失败，无法进行技术分析")
  | Some df =>
      if pd.empty df then
        let stock_name := get_stock_name self code in
        Return (failure_snapshot
                  [("股票代码", PStr code); ("股票名称", PStr stock_name);
                   ("数据状态", PStr "数据为空");
                   ("错误信息", PStr "获取到的数据为空，请检查股票代码")]
                  "数据为空，无法进行分析")
      else
        match calculate_indicators self code with
        | None =>
            let stock_name := get_stock_name self code in
            Return (failure_snapshot
                      [("股票代码", PStr code); ("股票名称", PStr stock_name);
                       ("数据状态", PStr "技术指标计算失败")]
                      "技术指标计算失败")
        | Some latest_df =>
            match analysis_data ← build_analysis_data code df latest_df;
                  mret (add_ai_analysis self df latest_df analysis_data) with
            | Return analysis_data => Return analysis_data
            | Raise e =>
                let stock_name := get_stock_name self code in
                Return (failure_snapshot
                          [("股票代码", PStr code); ("股票名称", PStr stock_name);
                           ("数据状态", PStr ("分析出错: " +:+ str e))]
                          ("分析出错: " +:+ str e))
            end
        end
  end.

(** Lines 264-428: no chart without data or without indicators; a failure
    while drawing is caught inside [draw_chart]. *)
Definition plot_analysis (self : StockAnalyzer) (code : string) : option string :=
  match data self !! code with
  | None => None
  | Some _ =>
      let stock_name := get_stock_name self code in
      match calculate_indicators self code with
      | None => None
      | Some df => draw_chart stock_name code df
      end
  end.

End Analyzer.

(** ** Vocabulary of the properties *)

(** pandas keeps every column as long as the index. *)
Definition wf_table (df : pd.DataFrame) : Prop :=
  map_Forall (λ _ (s : np.array), length s = pd.len df) (pd.columns df).

(** An augmented table carries the raw OHLCV columns and every indicator. *)
Definition augmented (df : pd.DataFrame) : Prop :=
  wf_table df ∧
  Forall (λ c, is_Some (pd.columns df !! c)) (ohlcv_columns ++ indicator_columns).

(** The two messages a rule can append. *)
Definition rule_messages (r : rule) : list string :=
  match r with
  | MACD_rule => [macd_golden; macd_dead]
  | KDJ_rule => [kdj_oversold; kdj_overbought]
  | RSI_rule => [rsi_oversold; rsi_overbought]
  | BOLL_rule => [boll_above; boll_below]
  | DMI_rule => [dmi_golden; dmi_dead]
  | VR_rule => [vr_high; vr_low]
  | ROC_rule => [roc_up; roc_down]
  end.

(** What one rule does on its own, started on an empty list. *)
Definition outcome (r : rule) (df : pd.DataFrame) : result unit := (rule_body r df []).1.
Definition appended (r : rule) (df : pd.DataFrame) : list string := (rule_body r df []).2.

Definition fires (r : rule) (df : pd.DataFrame) (msg : string) : Prop :=
  rule_body r df [] = (Return tt, [msg]).
Definition raises (r : rule) (df : pd.DataFrame) (e : exn) : Prop :=
  outcome r df = Raise e.
Definition completes (r : rule) (df : pd.DataFrame) : Prop :=
  outcome r df = Return tt.

(** [r1] stands before [r2] in the [try] body. *)
Definition rule_before (r1 r2 : rule) : Prop :=
  ∃ a b c, rule_order = a ++ r1 :: b ++ r2 :: c.

(** [m1] occurs before [m2] in [out]. *)
Definition in_order (m1 m2 : string) (out : list string) : Prop :=
  ∃ l1 l2 l3, out = l1 ++ m1 :: l2 ++ m2 :: l3.

(** ** Sample tables *)

(** A table of [rows] rows holding [fill] everywhere except in the columns
    listed in [cols]. *)
Definition table_of (rows : nat) (fill : float) (cols : list (string * np.array)) : pd.DataFrame :=
  {| pd.index := Z.of_nat <$> seq 0 rows;
     pd.columns :=
       list_to_map cols ∪
       list_to_map ((λ c, (c, replicate rows fill)) <$> (ohlcv_columns ++ indicator_columns)) |}.

Definition drop_column (c : string) (df : pd.DataFrame) : pd.DataFrame :=
  {| pd.index := pd.index df; pd.columns := delete c (pd.columns df) |}.

(** Nothing to report: every cell is 50. *)
Definition table_flat : pd.DataFrame := table_of 2 50 [].

(** KDJ and RSI both oversold in the last row. *)
Definition table_oversold : pd.DataFrame :=
  table_of 2 50 [("K", [50; 15]%float); ("D", [50; 15]%float); ("RSI", [50; 10]%float)].

(** The histogram goes from -0.1 to 0.2. *)
Definition table_macd_cross : pd.DataFrame :=
  table_of 2 50 [("MACD", [-0.1; 0.2]%float)].

(** The histogram goes from exactly 0 to 0.2. *)
Definition table_macd_from_zero : pd.DataFrame :=
  table_of 2 50 [("MACD", [0; 0.2]%float)].

(** RSI exactly on the lower threshold. *)
Definition table_rsi_20 : pd.DataFrame := table_of 2 50 [("RSI", [50; 20]%float)].

(** RSI is oversold, but the column K is missing. *)
Definition table_without_K : pd.DataFrame :=
  drop_column "K" (table_of 2 50 [("MACD", [-0.1; 0.2]%float); ("RSI", [50; 10]%float)]).

(** A single row. *)
Definition table_one_row : pd.DataFrame := table_of 1 50 [].

#[export] Instance wf_table_dec df : Decision (wf_table df).
Proof. unfold wf_table. apply _. Defined.
#[export] Instance augmented_dec df : Decision (augmented df).
Proof. unfold augmented. apply _. Defined.

(** A value of the closed interval from 0 to 100. *)
Definition in_0_100 (x : float) : bool := np.le 0 x && np.le x 100.

(** ** A sample analyzer

    A stand-in for the indicator library, enough to run the assembler on
    concrete series: every indicator is a rolling mean of its first argument,
    RSI is the percentage of rising closes in the window, and DMI rejects a
    high series that holds not-a-number. *)

Definition float_of_nat (n : nat) : float := of_uint63 (Uint63.of_Z (Z.of_nat n)).

Definition fsum (a : np.array) : float := foldr PrimFloat.add 0%float a.

(** Mean of the last [n] values; not-a-number while fewer than [n] exist. *)
Definition rolling_mean (n : nat) (a : np.array) : np.array :=
  imap (λ i _, if (i + 1 <? n)%nat then nan
               else (fsum (take n (drop (i + 1 - n) a)) / float_of_nat n)%float) a.

(** 1 where the value rose from the previous one, 0 elsewhere. *)
Definition rises (a : np.array) : np.array :=
  imap (λ i x, match i with
               | O => 0%float
               | S j => if np.gt x (default x (a !! j)) then 1%float else 0%float
               end) a.

Definition sample_library : mt.library := {|
  mt.MACD close := Return (rolling_mean 2 close, rolling_mean 3 close, rolling_mean 4 close);
  mt.KDJ close high low := Return (rolling_mean 2 close, rolling_mean 3 close, rolling_mean 4 close);
  mt.BOLL close := Return (rolling_mean 2 close, rolling_mean 3 close, rolling_mean 4 close);
  mt.RSI close n := Return ((λ m, (100 * m)%float) <$> rolling_mean (Z.to_nat n) (rises close));
  mt.PSY close := Return (rolling_mean 2 close, rolling_mean 3 close);
  mt.WR close high low := Return (rolling_mean 2 close, rolling_mean 3 close);
  mt.BIAS close := Return (rolling_mean 2 close, rolling_mean 3 close, rolling_mean 4 close);
  mt.CCI close high low := Return (rolling_mean 2 close);
  mt.MA close n := Return (rolling_mean (Z.to_nat n) close);
  mt.ATR close high low := Return (rolling_mean 2 close);
  mt.EMV high low volume := Return (rolling_mean 2 high, rolling_mean 3 high);
  mt.DPO close := Return (rolling_mean 2 close, rolling_mean 3 close);
  mt.TRIX close := Return (rolling_mean 2 close, rolling_mean 3 close);
  mt.DMI close high low :=
    if existsb is_nan high then Raise (ValueError "high holds not-a-number")
    else Return (rolling_mean 2 close, rolling_mean 3 close,
                 rolling_mean 4 close, rolling_mean 5 close);
  mt.VR close volume := Return (rolling_mean 2 close);
  mt.BRAR open_price close high low := Return (rolling_mean 2 open_price, rolling_mean 3 open_price);
  mt.ROC close := Return (rolling_mean 2 close, rolling_mean 3 close);
  mt.MTM close := Return (rolling_mean 2 close, rolling_mean 3 close);
  mt.DMA close := Return (rolling_mean 2 close, rolling_mean 3 close)
|}.

(** Sixteen trading days. *)
Definition sample_close : np.array :=
  [10; 10.5; 10.25; 10.75; 11; 11.5; 11.25; 11; 11.5; 12; 12.5; 12.25; 12.75; 13; 13.5; 14]%float.

Definition sample_series : pd.DataFrame :=
  {| pd.index := Z.of_nat <$> seq 0 16;
     pd.columns := list_to_map
       [("open", sample_close); ("high", (λ x, (x + 0.5)%float) <$> sample_close);
        ("low", (λ x, (x - 0.5)%float) <$> sample_close); ("close", sample_close);
        ("volume", replicate 16 1000%float)] |}.

(** The same days with one high value missing. *)
Definition sample_series_bad : pd.DataFrame :=
  {| pd.index := pd.index sample_series;
     pd.columns := <["high" := nan :: replicate 15 12%float]> (pd.columns sample_series) |}.

Definition sample_analyzer : StockAnalyzer :=
  {| stock_names := [("上证指数", "sh000001"); ("平安银行", "sz000001")];
     data := {[ "sh000001" := sample_series; "sz000001" := sample_series_bad ]};
     llm := None |}.

(** The sample library with stand-ins for number formatting and for the
    chart, which no property below reads. *)
Definition sample_collaborators : Collaborators :=
  {| MyTT := sample_library;
     format_2f := λ _, "0.00";
     format_comma := pretty;
     draw_chart := λ _ _ _, Some "iVBORw0KGgo=" |}.

(** ** Vocabulary of the proofs *)

(** A computation that leaves [signals] alone and does not depend on it. *)
Definition pure {A} (m : Sig A) : Prop := ∃ r, ∀ signals, m signals = (r, signals).

(** A computation that cannot raise. *)
Definition total {A} (m : Sig A) : Prop := ∀ signals, ∃ a signals', m signals = (Return a, signals').

(** What the rules [rs] append, one after the other. *)
Definition appended_by (df : pd.DataFrame) (rs : list rule) : list string :=
  rs ≫= λ r, appended r df.

(** [signals if signals else [no_signal]] *)
Definition or_no_signal (signals : list string) : list string :=
  match signals with [] => [no_signal] | _ => signals end.

(** ** Readings of the specification that the code does not meet *)

(** C2 as the specification words it: the golden-cross message exactly when the
    histogram goes from strictly negative to positive, the dead-cross message
    exactly when it goes from strictly positive to negative. *)
Definition strict_sign_change (df : pd.DataFrame) : Prop :=
  ∀ h0 h1 out,
    pd.at_iloc df "MACD" (-2) = Return h0 → pd.at_iloc df "MACD" (-1) = Return h1 →
    generate_trading_signals df = Return out →
    (macd_golden ∈ out ↔ np.lt h0 0 = true ∧ np.gt h1 0 = true) ∧
    (macd_dead ∈ out ↔ np.gt h0 0 = true ∧ np.lt h1 0 = true).

(** C4 as the specification words it: after a rule has raised, the rules that
    stand after it are still evaluated, so what they fire is in the output. *)
Definition caught_per_rule (df : pd.DataFrame) : Prop :=
  ∀ r e out,
    raises r df e → generate_trading_signals df = Return out →
    ∀ r' m, rule_before r r' → fires r' df m → m ∈ out.

(** C5 as the specification words it: too short a table makes the function
    fail with an error of the kind [InsufficientDataError]. *)
Definition fails_with_insufficient_data (df : pd.DataFrame) : Prop :=
  (pd.len df < 2)%nat →
  ∃ msg, generate_trading_signals df = Raise (Exn "InsufficientDataError" msg).

(** The table the assembler builds for the first sample instrument. *)
Definition sample_table : pd.DataFrame :=
  default sample_series
    (calculate_indicators (ext := sample_collaborators) sample_analyzer "sh000001").

(** ** Tables for the other rules *)

(** The columns the rules read. *)
Definition signal_columns : list string :=
  ["MACD"; "K"; "D"; "RSI"; "close"; "BOLL_UP"; "BOLL_LOW"; "PDI"; "MDI"; "VR"; "ROC"; "MAROC"].

(** Two tables show the rules the same cells in their last two rows. *)
Definition same_last_rows (df1 df2 : pd.DataFrame) : Prop :=
  Forall (λ c, pd.at_iloc df1 c (-1) = pd.at_iloc df2 c (-1) ∧
               pd.at_iloc df1 c (-2) = pd.at_iloc df2 c (-2)) signal_columns.

(** Close above the upper band, PDI and ROC crossing upwards, VR high. *)
Definition table_busy : pd.DataFrame :=
  table_of 2 50 [("close", [50; 60]%float); ("PDI", [10; 30]%float); ("MDI", [20; 20]%float);
                 ("VR", [50; 200]%float); ("ROC", [1; 5]%float); ("MAROC", [2; 2]%float)].

(** Three rows, the last two as in [table_oversold]. *)
Definition table_oversold_longer : pd.DataFrame :=
  table_of 3 50 [("K", [1; 50; 15]%float); ("D", [2; 50; 15]%float); ("RSI", [3; 50; 10]%float)].

(** The indicator columns that the rules read and that the assembler stores
    as computed; RSI is stored with 50 in the place of not-a-number. *)
Definition unfilled_columns : list string :=
  ["MACD"; "K"; "D"; "BOLL_UP"; "BOLL_LOW"; "PDI"; "MDI"; "VR"; "ROC"; "MAROC"].

(** A short history: no indicator is defined yet, and RSI is filled with 50. *)
Definition table_undefined : pd.DataFrame :=
  table_of 2 nan [("open", [10; 11]%float); ("high", [10; 11]%float); ("low", [10; 11]%float);
                  ("close", [10; 11]%float); ("volume", [10; 11]%float);
                  ("RSI", [50; 50]%float)].

(** Raw prices only. *)
Definition table_raw : pd.DataFrame :=
  {| pd.index := [0; 1]%Z;
     pd.columns := list_to_map [("open", [10; 11]%float); ("high", [10; 11]%float);
                                ("low", [10; 11]%float); ("close", [10; 11]%float);
                                ("volume", [10; 11]%float)] |}.

(** The last cell of column [c] is there and is not-a-number. *)
Definition undefined_at_last (df : pd.DataFrame) (c : string) : bool :=
  match pd.at_iloc df c (-1) with
  | Return x => is_nan x
  | Raise _ => false
  end.

(** ** Fetching the series *)

(** [self.data = d], the other attributes kept. *)
Definition with_data (self : StockAnalyzer) (d : gmap string pd.DataFrame) : StockAnalyzer :=
  {| stock_names := stock_names self; data := d; llm := llm self |}.

(** [df.index[i]] with Python's negative positions. *)
Definition index_getitem (df : pd.DataFrame) (i : Z) : result Z :=
  let n := Z.of_nat (pd.len df) in
  let j := if (i <? 0)%Z then (n + i)%Z else i in
  match (if ((0 <=? j)%Z && (j <? n)%Z)%bool then pd.index df !! Z.to_nat j else None) with
  | Some t => Return t
  | None => Raise (IndexError ("index " +:+ pretty i +:+
                               " is out of bounds for axis 0 with size " +:+ pretty n))
  end.

Section Fetch.

(** [as_api.get_price(code, count=self.count, frequency='1d')]: the data
    source, which answers with a table or [None], or raises.  The record
    [StockAnalyzer] leaves out [count], which only this call reads. *)
Context (get_price : string → result (option pd.DataFrame)).

(** The body of the loop of [fetch_data] (lines 141-163): an empty answer is
    skipped, an exception is reported and swallowed, otherwise the series is
    stored under its code. *)
Definition fetch_one (self : StockAnalyzer) (code : string) : StockAnalyzer :=
  let stock_name := get_stock_name self code in
  match (df ← get_price code;
         match df with
         | None => Return None
         | Some df =>
             if pd.empty df then Return None
             else
               _ ← index_getitem df 0;
               _ ← index_getitem df (-1);
               Return (Some df)
         end) with
  | Return (Some df) => with_data self (<[code := df]> (data self))
  | Return None => self
  | Raise e => self
  end.

(** [for code in self.stock_codes: ...] *)
Definition fetch_data (self : StockAnalyzer) : StockAnalyzer :=
  foldl fetch_one self (stock_codes self).

(** What [fetch_data] keeps of the source's answer for one code. *)
Definition usable (code : string) : option pd.DataFrame :=
  match get_price code with
  | Return (Some df) => if pd.empty df then None else Some df
  | _ => None
  end.

End Fetch.

(** A data source that knows one instrument, answers one with an empty
    table and fails on the others. *)
Definition sample_get_price (code : string) : result (option pd.DataFrame) :=
  if bool_decide (code = "sh000001") then Return (Some sample_series)
  else if bool_decide (code = "sz000001") then Return (Some (pd.mkDataFrame [] ∅))
  else Raise (Exn "ConnectionError" "no route to host").

Definition fresh_analyzer : StockAnalyzer :=
  {| stock_names := [("上证指数", "sh000001"); ("平安银行", "sz000001"); ("跨境通", "sz002640")];
     data := ∅; llm := None |}.

(** The sample series without its volume column. *)
Definition sample_analyzer_no_volume : StockAnalyzer :=
  {| stock_names := [("上证指数", "sh000001")];
     data := {[ "sh000001" := drop_column "volume" sample_series ]};
     llm := None |}.

(** ** Edge cases of the snapshot *)

(** [self.llm = None], the other attributes kept. *)
Definition without_llm (self : StockAnalyzer) : StockAnalyzer :=
  {| stock_names := stock_names self; data := data self; llm := None |}.

(** The snapshot of lines 551-559, for an exception [e] raised while the
    snapshot was built. *)
Definition analysis_error (self : StockAnalyzer) (code : string) (e : exn) : pydict :=
  failure_snapshot [("股票代码", PStr code); ("股票名称", PStr (get_stock_name self code));
                    ("数据状态", PStr ("分析出错: " +:+ str e))]
                   ("分析出错: " +:+ str e).

(** An answer of the narrative generator that leaves the snapshot as it is:
    an exception, [None], or an empty dictionary. *)
Definition silent (answer : result (option pydict)) : bool :=
  match answer with
  | Return (Some (_ :: _)) => false
  | _ => true
  end.

(** The keys of a dictionary of dictionaries, level by level. *)
Definition layout (d : pydict) : list (string * list string) :=
  (λ kv, (kv.1, match kv.2 with PDict d' => d'.*1 | _ => [] end)) <$> d.

Definition snapshot_keys : list string := ["基础数据"; "技术指标"; "技术分析建议"].

(** One trading day only. *)
Definition sample_series_one_row : pd.DataFrame :=
  {| pd.index := [0%Z];
     pd.columns := list_to_map
       [("open", [10%float]); ("high", [10.5%float]); ("low", [9.5%float]);
        ("close", [10%float]); ("volume", [1000%float])] |}.

(** The sample days with the last volume missing. *)
Definition sample_series_nan_volume : pd.DataFrame :=
  {| pd.index := pd.index sample_series;
     pd.columns := <["volume" := replicate 15 1000%float ++ [nan]]> (pd.columns sample_series) |}.

(** A narrative generator that is out of reach. *)
Definition failing_llm : LLMAnalyzer :=
  {| request_analysis := λ _ _, Raise (Exn "ConnectionError" "connection refused") |}.

Definition sample_analyzer_edges : StockAnalyzer :=
  {| stock_names := [("上证指数", "sh000001"); ("平安银行", "sz000001"); ("跨境通", "sz002640")];
     data := {[ "sh000001" := sample_series; "sz000001" := sample_series_one_row;
                "sz002640" := sample_series_nan_volume ]};
     llm := Some failing_llm |}.

Definition sample_table_one_row : pd.DataFrame :=
  default sample_series_one_row
    (calculate_indicators (ext := sample_collaborators) sample_analyzer_edges "sz000001").

Definition sample_table_nan_volume : pd.DataFrame :=
  default sample_series_nan_volume
    (calculate_indicators (ext := sample_collaborators) sample_analyzer_edges "sz002640").

(** ** Colouring of table values *)

(** A value shown in a table of the report. *)
Inductive table_value : Type :=
  | VStr (s : string)
  | VInt (n : Z)
  | VFloat (x : float)
  | VNone.

Definition TypeError (msg : string) : exn := Exn "TypeError" msg.

(** The character [%]; in the UTF-8 bytes of a text it occurs only as itself. *)
Definition percent : Ascii.ascii := Ascii.Ascii true false true false false true false false.

(** [c in s] for a character [c]. *)
Definition contains (c : Ascii.ascii) (s : string) : bool :=
  existsb (Ascii.eqb c) (String.list_ascii_of_string s).

Fixpoint lstrip_chars (c : Ascii.ascii) (l : list Ascii.ascii) : list Ascii.ascii :=
  match l with
  | a :: l' => if Ascii.eqb a c then lstrip_chars c l' else l
  | [] => []
  end.

(** [s.strip(c)]: the leading and the trailing occurrences of [c] removed. *)
Definition strip (c : Ascii.ascii) (s : string) : string :=
  String.string_of_list_ascii
    (rev (lstrip_chars c (rev (lstrip_chars c (String.list_ascii_of_string s))))).

(** [if value > 0: 'positive' / elif value < 0: 'negative' / return 'neutral']:
    neither a string nor [None] compares with a number. *)
Definition sign_class (value : table_value) : result string :=
  match value with
  | VFloat x =>
      Return (if np.gt x 0 then "positive" else if np.lt x 0 then "negative" else "neutral")
  | VInt n =>
      Return (if (0 <? n)%Z then "positive" else if (n <? 0)%Z then "negative" else "neutral")
  | VStr _ => Raise (TypeError "'>' not supported between instances of 'str' and 'int'")
  | VNone => Raise (TypeError "'>' not supported between instances of 'NoneType' and 'int'")
  end.

Section ValueClass.

(** Python's [float(s)] on a string. *)
Context (py_float : string → result float).

(** Lines 84-98.  Only [ValueError] and [TypeError] are caught. *)
Definition _get_value_class (value : table_value) : result string :=
  match (match value with
         | VStr s =>
             if contains percent s then x ← py_float (strip percent s); sign_class (VFloat x)
             else Return "neutral"
         | _ => sign_class value
         end) with
  | Raise e =>
      if bool_decide (exn_class e = "ValueError" ∨ exn_class e = "TypeError")
      then Return "neutral" else Raise e
  | Return class => Return class
  end.

End ValueClass.

(** A stand-in for [float(s)] that knows two texts. *)
Definition sample_py_float (s : string) : result float :=
  if bool_decide (s = "-1.25") then Return (-1.25)%float
  else if bool_decide (s = "0.00") then Return 0%float
  else Raise (ValueError ("could not convert string to float: '" +:+ s +:+ "'")).

(** ** The entries of the report *)

Definition AttributeError (msg : string) : exn := Exn "AttributeError" msg.

(** [d[k]] for reading: a missing key raises. *)
Definition dict_getitem (d : pydict) (k : string) : result pyval :=
  match dict_get d k with
  | Some v => Return v
  | None => Raise (KeyError k)
  end.

(** [v.items()]: only a dictionary has the method. *)
Definition items (v : pyval) : result pydict :=
  match v with
  | PDict d => Return d
  | PStr _ => Raise (AttributeError "'str' object has no attribute 'items'")
  | PList _ => Raise (AttributeError "'list' object has no attribute 'items'")
  end.

(** One row of a table of the report: what [_generate_table_row] puts between
    the tags of its line. *)
Record table_row : Type := {
  row_key : string;
  row_class : string;
  row_value : pyval
}.

(** One entry of [stock_contents]: what the templates of lines 633-757 are
    filled with, in the place of the text they give. *)
Inductive stock_content : Type :=
  | Analysed (code stock_name : string) (basic_data : list table_row)
      (indicator_sections : list (string * list table_row)) (signals : pyval)
      (ai_analysis : pydict) (chart_base64 : option string)
  | FetchFailed (code stock_name : string).

Section Report.

Context {ext : Collaborators}.

(** Python's [float(s)] on a string. *)
Context (py_float : string → result float).

(** Lines 101-104.  A value of a snapshot is a string, a list or a
    dictionary; on a list or a dictionary [value > 0] raises the [TypeError]
    that [_get_value_class] catches. *)
Definition _generate_table_row (key : string) (value : pyval) : result table_row :=
  value_class ← match value with
                | PStr s => _get_value_class py_float (VStr s)
                | PList _ | PDict _ => Return "neutral"
                end;
  mret {| row_key := key; row_class := value_class; row_value := value |}.

(** [_generate_table_row(k, v) for k, v in d.items()], row after row. *)
Fixpoint table_rows (d : pydict) : result (list table_row) :=
  match d with
  | [] => Return []
  | (k, v) :: d' =>
      row ← _generate_table_row k v; rows ← table_rows d'; mret (row :: rows)
  end.

(** Lines 647-661: [for section_name, indicators in ...: indicators.items()]. *)
Fixpoint indicator_sections (sections : pydict) : result (list (string * list table_row)) :=
  match sections with
  | [] => Return []
  | (section_name, indicators) :: sections' =>
      d ← items indicators;
      rows ← table_rows d;
      rest ← indicator_sections sections';
      mret ((section_name, rows) :: rest)
  end.

(** Lines 632-741: the reads that fill the templates, in the order of the
    source.  None of them stands under a handler.  The advice is the value
    that the template iterates over; a string, a list and a dictionary can
    each be iterated.  The template chooses by [chart_base64] between the
    image and a notice. *)
Definition render_stock (code stock_name : string) (analysis_data : pydict)
    (chart_base64 : option string) : result stock_content :=
  basic ← dict_getitem analysis_data "基础数据";
  basic ← items basic;
  basic_data ← table_rows basic;
  indicators ← dict_getitem analysis_data "技术指标";
  indicators ← items indicators;
  sections ← indicator_sections indicators;
  signals ← dict_getitem analysis_data "技术分析建议";
  ai_analysis ← match dict_get analysis_data "AI分析结果" with
                | Some sections =>
                    d ← items sections; mret (filter (λ kv, kv.1 ≠ "分析状态") d)
                | None => Return []
                end;
  mret (Analysed code stock_name basic_data sections signals ai_analysis chart_base64).

(** The loop [for code in self.stock_codes] of [generate_html_report] (lines
    625-758), which fills [stock_contents].  An exception raised for one code
    leaves the loop and the function. *)
Fixpoint stock_contents (self : StockAnalyzer) (codes : list string) : result (list stock_content) :=
  match codes with
  | [] => Return []
  | code :: codes' =>
      content ← (if bool_decide (is_Some (data self !! code)) then
                   analysis_data ← generate_analysis_data self code;
                   let chart_base64 := plot_analysis self code in
                   let stock_name := get_stock_name self code in
                   render_stock code stock_name analysis_data chart_base64
                 else
                   let stock_name := get_stock_name self code in
                   mret (FetchFailed code stock_name));
      rest ← stock_contents self codes';
      mret (content :: rest)
  end.

(** What the loop owes to one code of an analyzer [self]. *)
Definition content_of (self : StockAnalyzer) (code : string) (content : stock_content) : Prop :=
  match data self !! code with
  | Some _ =>
      ∃ analysis_data basic_data sections signals ai_analysis,
        generate_analysis_data self code = Return analysis_data ∧
        render_stock code (get_stock_name self code) analysis_data (plot_analysis self code) =
          Return content ∧
        content = Analysed code (get_stock_name self code) basic_data sections signals
                    ai_analysis (plot_analysis self code) ∧
        dict_get analysis_data "技术分析建议" = Some signals
  | None => content = FetchFailed code (get_stock_name self code)
  end.

(** What the report owes to one code after [fetch_data] has run on an
    analyzer [self] without data: the entry is decided by the source's answer. *)
Definition entry_after_fetch (get_price : string → result (option pd.DataFrame))
    (self : StockAnalyzer) (code : string) (content : stock_content) : Prop :=
  let fetched := fetch_data get_price self in
  match usable get_price code with
  | Some df =>
      data fetched !! code = Some df ∧ content_of fetched code content ∧
      ∃ basic_data sections signals ai_analysis,
        content = Analysed code (get_stock_name self code) basic_data sections signals
                    ai_analysis (plot_analysis fetched code)
  | None => content = FetchFailed code (get_stock_name self code)
  end.

End Report.

(** A snapshot whose entries the templates can read: dictionaries where
    [items] is called, and the advice in its place. *)
Definition renderable (d : pydict) : Prop :=
  (∃ basic, dict_get d "基础数据" = Some (PDict basic)) ∧
  (∃ indicators, dict_get d "技术指标" = Some (PDict indicators) ∧
                 Forall (λ kv, ∃ rows, kv.2 = PDict rows) indicators) ∧
  is_Some (dict_get d "技术分析建议") ∧
  (∀ v, dict_get d "AI分析结果" = Some v → ∃ sections, v = PDict sections).

(** The key and the value of each row. *)
Definition shown (rows : list table_row) : pydict := (λ r, (row_key r, row_value r)) <$> rows.

(** [float(s)] raises nothing but [ValueError]. *)
Definition raises_only_value_error (py_float : string → result float) : Prop :=
  ∀ s e, py_float s = Raise e → exn_class e = "ValueError".

(** An answer of the narrative generator that leaves the three entries of the
    snapshot alone and, if it brings the entry that the report shows, brings
    a dictionary. *)
Definition keeps_layout (api_result : pydict) : Prop :=
  Forall (λ kv, (kv.1 ∉ snapshot_keys) ∧
                (kv.1 = "AI分析结果" → ∃ sections, kv.2 = PDict sections)) api_result.

Definition narrative_keeps_layout (self : StockAnalyzer) : Prop :=
  ∀ analyzer df latest_df api_result,
    llm self = Some analyzer →
    request_analysis analyzer df latest_df = Return (Some api_result) →
    keeps_layout api_result.

(** A narrative generator that brings its own section, and one that writes
    over the basic data. *)
Definition narrating_llm : LLMAnalyzer :=
  {| request_analysis := λ _ _,
       Return (Some [("AI分析结果", PDict [("分析状态", PStr "分析完成");
                                           ("趋势分析", PStr "震荡上行")])]) |}.

Definition overwriting_llm : LLMAnalyzer :=
  {| request_analysis := λ _ _, Return (Some [("基础数据", PStr "y")]) |}.

Definition fresh_analyzer_with (analyzer : LLMAnalyzer) : StockAnalyzer :=
  {| stock_names := stock_names fresh_analyzer; data := ∅; llm := Some analyzer |}.

(** Two instruments with the sample series and the narrative generator that
    writes over the basic data. *)
Definition overwritten_analyzer : StockAnalyzer :=
  {| stock_names := [("上证指数", "sh000001"); ("平安银行", "sz000001")];
     data := {[ "sh000001" := sample_series; "sz000001" := sample_series ]};
     llm := Some overwriting_llm |}.

(** The snapshot built for the sample series, before any narrative is merged. *)
Definition sample_snapshot : pydict :=
  match build_analysis_data (ext := sample_collaborators) "sh000001" sample_series sample_table with
  | Return analysis_data => analysis_data
  | Raise _ => []
  end.

(** ** The entry point *)

Section Run.

(** What [run_analysis] takes from outside: the data source, the rendering of
    the report ([self.generate_html_report()]), the creation of the output
    directory (lines 869-871) and the writing of the file (lines 875-876).
    Each may raise. *)
Context (get_price : string → result (option pd.DataFrame)).
Context (generate_html_report : StockAnalyzer → result string).
Context (make_output_dir : string → result unit).
Context (write_report : string → string → result unit).

(** Lines 842-881: the analyzer after the call, and the returned path or
    [None]; only the creation of the directory is outside every handler. *)
Definition run_analysis (self : StockAnalyzer) (output_path : string) :
    StockAnalyzer * result (option string) :=
  let self := fetch_data get_price self in
  (self,
   if bool_decide (data self = ∅) then Return None
   else
     match generate_html_report self with
     | Raise e => Return None
     | Return html_report =>
         _ ← make_output_dir output_path;
         match write_report output_path html_report with
         | Return _ => Return (Some output_path)
         | Raise e => Return None
         end
     end).

End Run.

(** A data source that is out of reach. *)
Definition unreachable_get_price (code : string) : result (option pd.DataFrame) :=
  Raise (Exn "ConnectionError" "no route to host").

(** * Proofs *)

Set Warnings "-clear-no-such-hyp".

Ltac by_computation := apply (bool_decide_unpack _); vm_compute; exact I.

(** ** The embedding at work on the sample data *)

Example signals_flat : generate_trading_signals table_flat = Return [no_signal].
Proof. reflexivity. Qed.

Example signals_oversold :
  generate_trading_signals table_oversold = Return [kdj_oversold; rsi_oversold].
Proof. reflexivity. Qed.

Example signals_macd_cross : generate_trading_signals table_macd_cross = Return [macd_golden].
Proof. reflexivity. Qed.

Example signals_without_K :
  generate_trading_signals table_without_K =
    Return ["MACD金叉形成，可能上涨"; "技术分析计算出错: 'K'"].
Proof. reflexivity. Qed.

(** Comparisons against not-a-number are false: a table of not-a-number
    fires nothing. *)
Example signals_all_nan : generate_trading_signals (table_of 2 nan []) = Return [no_signal].
Proof. reflexivity. Qed.

Example sample_tables_augmented :
  augmented table_flat ∧ augmented table_oversold ∧ augmented table_macd_cross ∧
  ¬ augmented table_without_K.
Proof. split_and!; by_computation. Qed.

Example sample_ma5 :
  take 6 <$> pd.columns sample_table !! "MA5" =
    Some [nan; nan; nan; nan; 10.5; 0x1.599999999999ap+3]%float.
Proof. vm_compute. reflexivity. Qed.

Example sample_rsi_in_range :
  ∃ rsi, mt.RSI sample_library sample_close 14 = Return rsi ∧
         Forall (λ v, is_nan v = true ∨ in_0_100 v = true) rsi ∧
         take 14 (np.nan_to_num rsi 50) = replicate 13 50%float ++ [0x1.0124924924925p+6%float].
Proof. eexists. split_and!; [reflexivity | by_computation | vm_compute; reflexivity]. Qed.

Example sample_bad_series_fails :
  calculate_indicators (ext := sample_collaborators) sample_analyzer "sz000001" = None.
Proof. vm_compute. reflexivity. Qed.

Create HintDb sig discriminated.

Section Combinators.

Context {A B : Type}.

Lemma pure_expr (r : result A) : pure (expr r).
Proof. by exists r. Qed.

Lemma pure_ret (a : A) : pure (mret a : Sig A).
Proof. by exists (Return a). Qed.

Lemma pure_bind (m : Sig A) (f : A → Sig B) :
  pure m → (∀ a, pure (f a)) → pure (m ≫= f).
Proof.
  intros [r Hm] Hf. destruct r as [a|e].
  - destruct (Hf a) as [r' Hr']. exists r'. intros s.
    unfold mbind, Sig_bind. by rewrite Hm.
  - exists (Raise e). intros s. unfold mbind, Sig_bind. by rewrite Hm.
Qed.

Lemma total_ret (a : A) : total (mret a : Sig A).
Proof. intros s. by exists a, s. Qed.

Lemma total_bind (m : Sig A) (f : A → Sig B) :
  total m → (∀ a, total (f a)) → total (m ≫= f).
Proof.
  intros Hm Hf s. destruct (Hm s) as (a & s' & Ha).
  destruct (Hf a s') as (b & s'' & Hb). exists b, s''.
  unfold mbind, Sig_bind. by rewrite Ha.
Qed.

End Combinators.

Lemma pure_if {A} (b : bool) (x y : Sig A) : pure x → pure y → pure (if b then x else y).
Proof. by destruct b. Qed.

Lemma total_if {A} (b : bool) (x y : Sig A) : total x → total y → total (if b then x else y).
Proof. by destruct b. Qed.

Lemma pure_cell df c i : pure (cell df c i).
Proof. apply pure_expr. Qed.

Lemma pure_num x : pure (num x).
Proof. apply pure_ret. Qed.

Lemma pure_cmp op x y : pure x → pure y → pure (cmp op x y).
Proof.
  intros Hx Hy. unfold cmp. apply pure_bind; [done|]. intros a.
  apply pure_bind; [done|]. intros b. apply pure_ret.
Qed.

Lemma pure_and x y : pure x → pure y → pure (and_ x y).
Proof.
  intros Hx Hy. unfold and_. apply pure_bind; [done|]. intros b.
  apply pure_if; [done | apply pure_ret].
Qed.

#[local] Hint Resolve pure_cell pure_num pure_cmp pure_and : sig.

Lemma total_append msg : total (append msg).
Proof. intros s. by eexists tt, _. Qed.

Lemma total_num x : total (num x).
Proof. apply total_ret. Qed.

Lemma total_cmp op x y : total x → total y → total (cmp op x y).
Proof.
  intros Hx Hy. unfold cmp. apply total_bind; [done|]. intros a.
  apply total_bind; [done|]. intros b. apply total_ret.
Qed.

Lemma total_and x y : total x → total y → total (and_ x y).
Proof.
  intros Hx Hy. unfold and_. apply total_bind; [done|]. intros b.
  apply total_if; [done | apply total_ret].
Qed.

Lemma total_if_elif c1 t1 c2 t2 :
  total c1 → total t1 → total c2 → total t2 → total (if_elif c1 t1 c2 t2).
Proof.
  intros H1 Ht1 H2 Ht2. unfold if_elif. apply total_bind; [done|]. intros b1.
  apply total_if; [done|]. apply total_bind; [done|]. intros b2.
  apply total_if; [done | apply total_ret].
Qed.

#[local] Hint Resolve total_append total_num total_cmp total_and total_if_elif : sig.

(** The shape of one block: it completes having appended nothing or one of
    its two messages, or it raises having appended nothing. *)
Lemma if_elif_shape c1 c2 m1 m2 :
  pure c1 → pure c2 →
  ∃ res o, (∀ signals, if_elif c1 (append m1) c2 (append m2) signals = (res, signals ++ o)) ∧
           ((res = Return tt ∧ (o = [] ∨ o = [m1] ∨ o = [m2])) ∨
            (∃ e, res = Raise e ∧ o = [])).
Proof.
  intros [r1 H1] [r2 H2]. unfold if_elif, mbind, Sig_bind, append.
  destruct r1 as [[|]|e1].
  - exists (Return tt), [m1]. split; [intros s; by rewrite H1 | naive_solver].
  - destruct r2 as [[|]|e2].
    + exists (Return tt), [m2]. split; [intros s; by rewrite H1, H2 | naive_solver].
    + exists (Return tt), []. split; [|naive_solver].
      intros s. rewrite H1, H2. by rewrite app_nil_r.
    + exists (Raise e2), []. split; [|naive_solver].
      intros s. rewrite H1, H2. by rewrite app_nil_r.
  - exists (Raise e1), []. split; [|naive_solver].
    intros s. rewrite H1. by rewrite app_nil_r.
Qed.

Lemma rule_shape r df :
  ∃ res o, (∀ signals, rule_body r df signals = (res, signals ++ o)) ∧
           ((res = Return tt ∧ (o = [] ∨ ∃ m, o = [m] ∧ m ∈ rule_messages r)) ∨
            (∃ e, res = Raise e ∧ o = [])).
Proof.
  destruct r; simpl;
    (edestruct if_elif_shape as (res & o & Hrun & Hcase);
     [| | exists res, o; split; [exact Hrun|]]; [auto with sig .. |]);
    (destruct Hcase as [[-> [->|[->| ->]]]|]; [left; split; [done|] .. | by right]);
    first [by left | right; eexists; split; [done|set_solver] ].
Qed.

Lemma rule_body_frame r df signals :
  rule_body r df signals = (outcome r df, signals ++ appended r df).
Proof.
  destruct (rule_shape r df) as (res & o & Hrun & _).
  unfold outcome, appended. by rewrite Hrun, (Hrun []).
Qed.

Lemma raises_appended r df e : raises r df e → appended r df = [].
Proof.
  unfold raises, outcome, appended.
  destruct (rule_shape r df) as (res & o & Hrun & Hcase). rewrite (Hrun []). simpl.
  intros ->. by destruct Hcase as [[? _]|(? & _ & ->)].
Qed.

Lemma appended_cases r df :
  appended r df = [] ∨ ∃ m, m ∈ rule_messages r ∧ fires r df m.
Proof.
  unfold appended, fires.
  destruct (rule_shape r df) as (res & o & Hrun & Hcase). rewrite (Hrun []). simpl.
  destruct Hcase as [[-> [->|(m & -> & Hm)]]|(e & -> & ->)]; eauto.
Qed.

Lemma fires_appended r df m : fires r df m → appended r df = [m] ∧ completes r df.
Proof. unfold fires, appended, completes, outcome. by intros ->. Qed.

Lemma completes_unit r df : completes r df ↔ ∃ a, outcome r df = Return a.
Proof. unfold completes. split; [eauto | by intros [[] ?]]. Qed.

(** ** The blocks in sequence *)

Lemma run_rules_completes rs df signals :
  Forall (λ r, completes r df) rs →
  run_rules rs df signals = (Return tt, signals ++ appended_by df rs).
Proof.
  revert signals. induction rs as [|r rs IH]; intros s Hall; simpl.
  - unfold appended_by. simpl. by rewrite app_nil_r.
  - inversion Hall as [|?? Hr Hrs]; subst.
    unfold mbind, Sig_bind. rewrite rule_body_frame, Hr, IH by done.
    unfold appended_by. simpl. by rewrite app_assoc.
Qed.

Lemma run_rules_raises pre r post df e signals :
  Forall (λ r', completes r' df) pre → raises r df e →
  run_rules (pre ++ r :: post) df signals = (Raise e, signals ++ appended_by df pre).
Proof.
  revert signals. induction pre as [|r' pre IH]; intros s Hall Hr; simpl.
  - unfold mbind, Sig_bind. rewrite rule_body_frame, Hr, (raises_appended _ _ _ Hr).
    by unfold appended_by.
  - inversion Hall as [|?? Hr' Hpre]; subst.
    unfold mbind, Sig_bind. rewrite rule_body_frame, Hr', IH by done.
    unfold appended_by. simpl. by rewrite app_assoc.
Qed.

(** Either every block completes, or there is a first one that raises. *)
Lemma first_raise df rs :
  Forall (λ r, completes r df) rs ∨
  ∃ pre r post e, rs = pre ++ r :: post ∧ Forall (λ r', completes r' df) pre ∧ raises r df e.
Proof.
  induction rs as [|r rs [IH|(pre & r' & post & e & -> & Hpre & Hr')]].
  - by left.
  - destruct (outcome r df) as [[]|e] eqn:Hr.
    + left. by constructor.
    + right. by exists [], r, rs, e.
  - destruct (outcome r df) as [[]|e0] eqn:Hr.
    + right. exists (r :: pre), r', post, e. split_and!; [done| by constructor |done].
    + right. by exists [], r, (pre ++ r' :: post), e0.
Qed.

(** ** The function as a whole *)

Lemma signals_short df :
  (pd.len df < 2)%nat → generate_trading_signals df = Return [insufficient_data].
Proof.
  intros Hlen. unfold generate_trading_signals.
  by destruct (Nat.ltb_spec (pd.len df) 2); [|lia].
Qed.

Lemma signals_completes df :
  (2 ≤ pd.len df)%nat → Forall (λ r, completes r df) rule_order →
  generate_trading_signals df = Return (or_no_signal (appended_by df rule_order)).
Proof.
  intros Hlen Hall. unfold generate_trading_signals.
  destruct (Nat.ltb_spec (pd.len df) 2); [lia|].
  unfold try_except. by rewrite run_rules_completes.
Qed.

Lemma signals_raises df pre r post e :
  (2 ≤ pd.len df)%nat → rule_order = pre ++ r :: post →
  Forall (λ r', completes r' df) pre → raises r df e →
  generate_trading_signals df = Return (appended_by df pre ++ [diagnostic e]).
Proof.
  intros Hlen Hord Hpre Hr. unfold generate_trading_signals.
  destruct (Nat.ltb_spec (pd.len df) 2); [lia|].
  unfold try_except. rewrite Hord, (run_rules_raises _ _ _ _ e) by done.
  unfold append. simpl. by destruct (appended_by df pre).
Qed.

Lemma signals_nonempty df :
  ∃ out, generate_trading_signals df = Return out ∧ out ≠ [].
Proof.
  destruct (Nat.lt_ge_cases (pd.len df) 2) as [Hlt|Hge].
  - rewrite signals_short by done. by eexists.
  - destruct (first_raise df rule_order) as [Hall|(pre & r & post & e & Hord & Hpre & Hr)].
    + rewrite signals_completes by done. eexists; split; [done|].
      by destruct (appended_by df rule_order).
    + erewrite signals_raises by done. eexists; split; [done|].
      by destruct (appended_by df pre).
Qed.

(** ** Augmented tables *)


Lemma augmented_column df c :
  augmented df → c ∈ ohlcv_columns ++ indicator_columns →
  ∃ s, pd.columns df !! c = Some s ∧ length s = pd.len df.
Proof.
  intros [Hwf Hcols] Hc. rewrite Forall_forall in Hcols.
  destruct (Hcols c Hc) as [s Hs]. exists s. split; [done|]. by apply (Hwf c s).
Qed.

Lemma iloc_negative s i :
  (- Z.of_nat (length s) ≤ i < 0)%Z →
  ∃ v, s !! Z.to_nat (Z.of_nat (length s) + i) = Some v ∧ pd.iloc s i = Return v.
Proof.
  intros Hi.
  destruct (lookup_lt_is_Some_2 s (Z.to_nat (Z.of_nat (length s) + i))) as [v Hv]; [lia|].
  exists v. split; [done|]. unfold pd.iloc.
  destruct (Z.ltb_spec i 0); [|lia].
  destruct (Z.leb_spec 0 (Z.of_nat (length s) + i)); [|lia].
  destruct (Z.ltb_spec (Z.of_nat (length s) + i) (Z.of_nat (length s))); [|lia].
  simpl. by rewrite Hv.
Qed.

Lemma augmented_at_iloc df c i :
  augmented df → (2 ≤ pd.len df)%nat → c ∈ ohlcv_columns ++ indicator_columns →
  i = (-1)%Z ∨ i = (-2)%Z → ∃ v, pd.at_iloc df c i = Return v.
Proof.
  intros Haug Hlen Hc Hi. destruct (augmented_column df c Haug Hc) as (s & Hs & Hlen').
  unfold pd.at_iloc, pd.getitem. rewrite Hs. simpl.
  destruct (iloc_negative s i) as (v & _ & ->); [lia|]. by exists v.
Qed.

Lemma total_cell df c i :
  augmented df → (2 ≤ pd.len df)%nat → c ∈ ohlcv_columns ++ indicator_columns →
  i = (-1)%Z ∨ i = (-2)%Z → total (cell df c i).
Proof.
  intros Haug Hlen Hc Hi s. destruct (augmented_at_iloc df c i) as [v Hv]; [done..|].
  exists v, s. unfold cell, expr. by rewrite Hv.
Qed.

Lemma augmented_completes df r :
  augmented df → (2 ≤ pd.len df)%nat → completes r df.
Proof.
  intros Haug Hlen. apply completes_unit.
  assert (total (rule_body r df)) as Htot.
  { destruct r; simpl;
      repeat first [ apply total_if_elif | apply total_and | apply total_cmp
                   | apply total_num | apply total_append
                   | apply total_cell; [done | done | by_computation | auto] ]. }
  destruct (Htot []) as (a & s' & Hrun). exists a. unfold outcome. by rewrite Hrun.
Qed.

Lemma augmented_signals df :
  augmented df → (2 ≤ pd.len df)%nat →
  generate_trading_signals df = Return (or_no_signal (appended_by df rule_order)).
Proof.
  intros Haug Hlen. apply signals_completes; [done|].
  apply Forall_forall. intros r _. by apply augmented_completes.
Qed.

(** ** Where a message in the output comes from *)

Lemma appended_messages r df m : m ∈ appended r df → m ∈ rule_messages r.
Proof.
  destruct (appended_cases r df) as [->|(m' & Hm' & Hf)]; [by intros ?%elem_of_nil|].
  apply fires_appended in Hf as [-> _]. by intros ->%list_elem_of_singleton.
Qed.

Lemma rule_messages_disjoint r r' m :
  m ∈ rule_messages r → m ∈ rule_messages r' → r = r'.
Proof.
  destruct r, r'; simpl; try done;
    rewrite !elem_of_cons, !elem_of_nil; intros [->|[->|[]]] [Heq|[Heq|[]]]; discriminate Heq.
Qed.

Lemma no_signal_not_rule_message r : no_signal ∉ rule_messages r.
Proof.
  destruct r; simpl; rewrite !elem_of_cons, !elem_of_nil; intros [Heq|[Heq|[]]]; discriminate Heq.
Qed.

Lemma elem_of_appended_by df rs m :
  m ∈ appended_by df rs ↔ ∃ r, r ∈ rs ∧ m ∈ appended r df.
Proof.
  unfold appended_by. rewrite list_elem_of_bind. naive_solver.
Qed.

Lemma elem_of_or_no_signal l m :
  m ∈ or_no_signal l ↔ m ∈ l ∨ (l = [] ∧ m = no_signal).
Proof.
  destruct l as [|x l]; simpl.
  - rewrite list_elem_of_singleton. set_solver.
  - naive_solver.
Qed.

Lemma rule_in_order r : r ∈ rule_order.
Proof. destruct r; by_computation. Qed.

(** On an augmented table a rule's message is in the output exactly when
    that rule fired it. *)
Lemma signal_iff_fires df out r m :
  augmented df → (2 ≤ pd.len df)%nat → generate_trading_signals df = Return out →
  m ∈ rule_messages r → (m ∈ out ↔ fires r df m).
Proof.
  intros Haug Hlen Hout Hm. rewrite augmented_signals in Hout by done.
  assert (out = or_no_signal (appended_by df rule_order)) as -> by congruence.
  rewrite elem_of_or_no_signal, elem_of_appended_by. split.
  - intros [(r' & _ & Hr')|[_ ->]].
    + assert (r' = r) as -> by eauto using rule_messages_disjoint, appended_messages.
      destruct (appended_cases r df) as [Hnil|(m' & _ & Hf)]; [rewrite Hnil in Hr'; set_solver|].
      destruct (fires_appended _ _ _ Hf) as [Happ _]. rewrite Happ in Hr'.
      by apply list_elem_of_singleton in Hr' as ->.
    + by destruct (no_signal_not_rule_message r).
  - intros Hf. left. exists r. split; [apply rule_in_order|].
    destruct (fires_appended _ _ _ Hf) as [-> _]. set_solver.
Qed.

(** ** Facts about binary64 comparisons *)

Lemma float_zero_SF : Prim2SF 0 = S754_zero false.
Proof. reflexivity. Qed.

Lemma lt_zero_not_gt x : np.lt x 0 = true → np.gt x 0 = false.
Proof.
  unfold np.lt, np.gt. rewrite !FloatAxioms.ltb_spec, float_zero_SF.
  by destruct (Prim2SF x) as [[]|[]| |[] ? ?].
Qed.

Lemma is_zero_le x : PrimFloat.is_zero x = true → np.ge 0 x = true.
Proof.
  unfold PrimFloat.is_zero, np.ge. rewrite FloatAxioms.eqb_spec, FloatAxioms.leb_spec.
  change (Prim2SF zero) with (S754_zero false). rewrite float_zero_SF.
  by destruct (Prim2SF x) as [[]|[]| |[] ? ?].
Qed.

(** ** What the MACD, KDJ and RSI blocks do with the cells they read *)

Ltac run_block :=
  simpl; unfold if_elif, and_, cmp, cell, num, expr, append;
  unfold mbind, mret, Sig_bind, Sig_ret.

Lemma macd_rule_run df h0 h1 :
  pd.at_iloc df "MACD" (-2) = Return h0 → pd.at_iloc df "MACD" (-1) = Return h1 →
  rule_body MACD_rule df [] =
    (Return tt, if np.gt h1 0 && np.ge 0 h0 then [macd_golden]
                else if np.lt h1 0 && np.le 0 h0 then [macd_dead] else []).
Proof.
  intros H0 H1. run_block. rewrite H1, H0.
  by destruct (np.gt h1 0), (np.ge 0 h0), (np.lt h1 0), (np.le 0 h0).
Qed.

Lemma kdj_rule_run df k d :
  pd.at_iloc df "K" (-1) = Return k → pd.at_iloc df "D" (-1) = Return d →
  rule_body KDJ_rule df [] =
    (Return tt, if np.lt k 20 && np.lt d 20 then [kdj_oversold]
                else if np.gt k 80 && np.gt d 80 then [kdj_overbought] else []).
Proof.
  intros Hk Hd. run_block. rewrite Hk, Hd.
  by destruct (np.lt k 20), (np.lt d 20), (np.gt k 80), (np.gt d 80).
Qed.

Lemma rsi_rule_run df rsi :
  pd.at_iloc df "RSI" (-1) = Return rsi →
  rule_body RSI_rule df [] =
    (Return tt, if np.lt rsi 20 then [rsi_oversold]
                else if np.gt rsi 80 then [rsi_overbought] else []).
Proof.
  intros Hrsi. run_block. rewrite Hrsi.
  by destruct (np.lt rsi 20), (np.gt rsi 80).
Qed.

Lemma macd_golden_iff df h0 h1 :
  pd.at_iloc df "MACD" (-2) = Return h0 → pd.at_iloc df "MACD" (-1) = Return h1 →
  fires MACD_rule df macd_golden ↔ np.ge 0 h0 = true ∧ np.gt h1 0 = true.
Proof.
  intros H0 H1. unfold fires. rewrite (macd_rule_run df h0 h1) by done.
  destruct (np.gt h1 0), (np.ge 0 h0), (np.lt h1 0), (np.le 0 h0); simpl; naive_solver.
Qed.

Lemma macd_dead_iff df h0 h1 :
  pd.at_iloc df "MACD" (-2) = Return h0 → pd.at_iloc df "MACD" (-1) = Return h1 →
  fires MACD_rule df macd_dead ↔ np.le 0 h0 = true ∧ np.lt h1 0 = true.
Proof.
  intros H0 H1. unfold fires. rewrite (macd_rule_run df h0 h1) by done.
  pose proof (lt_zero_not_gt h1) as Hasym.
  destruct (np.gt h1 0), (np.ge 0 h0), (np.lt h1 0), (np.le 0 h0); simpl; naive_solver.
Qed.

Lemma gt_80_not_lt_20 x : np.gt x 80 = true → np.lt x 20 = false.
Proof.
  unfold np.gt, np.lt. rewrite !FloatAxioms.ltb_spec.
  change (Prim2SF 80) with (S754_finite false 5629499534213120 (-46)).
  change (Prim2SF 20) with (S754_finite false 5629499534213120 (-48)).
  destruct (Prim2SF x) as [[]|[]| |[] m e]; try done.
  unfold SFltb, SFcompare.
  destruct (Z.compare_spec (-46) e), (Z.compare_spec e (-48)); try done; lia.
Qed.

Lemma rsi_oversold_iff df rsi :
  pd.at_iloc df "RSI" (-1) = Return rsi →
  fires RSI_rule df rsi_oversold ↔ np.lt rsi 20 = true.
Proof.
  intros Hrsi. unfold fires. rewrite (rsi_rule_run df rsi) by done.
  destruct (np.lt rsi 20), (np.gt rsi 80); simpl; naive_solver.
Qed.

Lemma rsi_overbought_iff df rsi :
  pd.at_iloc df "RSI" (-1) = Return rsi →
  fires RSI_rule df rsi_overbought ↔ np.gt rsi 80 = true.
Proof.
  intros Hrsi. unfold fires. rewrite (rsi_rule_run df rsi) by done.
  pose proof (gt_80_not_lt_20 rsi).
  destruct (np.lt rsi 20), (np.gt rsi 80); simpl; naive_solver.
Qed.

(** ** Order of the output *)

Lemma fired_in_order df out r1 r2 m1 m2 :
  augmented df → (2 ≤ pd.len df)%nat → generate_trading_signals df = Return out →
  rule_before r1 r2 → fires r1 df m1 → fires r2 df m2 → in_order m1 m2 out.
Proof.
  intros Haug Hlen Hout (a & b & c & Hord) Hf1 Hf2.
  rewrite augmented_signals in Hout by done.
  assert (out = or_no_signal (appended_by df rule_order)) as -> by congruence.
  destruct (fires_appended _ _ _ Hf1) as [H1 _], (fires_appended _ _ _ Hf2) as [H2 _].
  exists (appended_by df a), (appended_by df b), (appended_by df c).
  rewrite Hord. unfold appended_by.
  rewrite bind_app, bind_cons, bind_app, bind_cons, H1, H2. simpl.
  by destruct (a ≫= _).
Qed.

Lemma macd_message_first df out m :
  augmented df → (2 ≤ pd.len df)%nat → generate_trading_signals df = Return out →
  fires MACD_rule df m → ∃ rest, out = m :: rest ∧ m ∉ rest.
Proof.
  intros Haug Hlen Hout Hf. rewrite augmented_signals in Hout by done.
  destruct (fires_appended _ _ _ Hf) as [Happ _].
  exists (appended_by df [KDJ_rule; RSI_rule; BOLL_rule; DMI_rule; VR_rule; ROC_rule]). split.
  - injection Hout as <-. unfold rule_order, appended_by.
    by rewrite bind_cons, Happ.
  - rewrite elem_of_appended_by. intros (r & Hr & Hm).
    assert (m ∈ rule_messages MACD_rule) as Hm'.
    { apply (appended_messages _ df). rewrite Happ. by left. }
    apply appended_messages in Hm.
    rewrite (rule_messages_disjoint _ _ _ Hm Hm') in Hr.
    revert Hr. by_computation.
Qed.

(** ** The properties of the signal generator *)

(** C1. The rules are evaluated in the order MACD, KDJ, RSI, Bollinger, DMI, VR,
    ROC and the output keeps that order: on an augmented table with at least
    two rows, the output is what the seven rules append, one after the other
    (or the sentinel when that is nothing); two messages fired by different
    rules stand in rule order; with K = D = 15 and RSI = 10 in the last row the
    KDJ-oversold message stands before the RSI-oversold message. *)
Theorem C1_signals_in_rule_order df :
  augmented df → (2 ≤ pd.len df)%nat →
  ∃ out, generate_trading_signals df = Return out ∧
    out = or_no_signal (appended_by df [MACD_rule; KDJ_rule; RSI_rule; BOLL_rule;
                                        DMI_rule; VR_rule; ROC_rule]) ∧
    (∀ r1 r2 m1 m2, rule_before r1 r2 → fires r1 df m1 → fires r2 df m2 →
                     in_order m1 m2 out) ∧
    (pd.at_iloc df "K" (-1) = Return 15%float → pd.at_iloc df "D" (-1) = Return 15%float →
     pd.at_iloc df "RSI" (-1) = Return 10%float → in_order kdj_oversold rsi_oversold out).
Proof.
  intros Haug Hlen. eexists. split; [by apply augmented_signals|].
  split; [done|]. split.
  - intros r1 r2 m1 m2. by apply fired_in_order; [| |apply augmented_signals].
  - intros Hk Hd Hrsi.
    apply (fired_in_order df _ KDJ_rule RSI_rule); [done|done|by apply augmented_signals| | |].
    + by exists [MACD_rule], [], [BOLL_rule; DMI_rule; VR_rule; ROC_rule].
    + unfold fires. by rewrite (kdj_rule_run df 15 15).
    + by apply (rsi_oversold_iff df 10).
Qed.

(** C1 on [table_oversold], where the KDJ and the RSI rule both fire. *)
Lemma C1_witness :
  ∃ out, generate_trading_signals table_oversold = Return out ∧
    out = or_no_signal (appended_by table_oversold
            [MACD_rule; KDJ_rule; RSI_rule; BOLL_rule; DMI_rule; VR_rule; ROC_rule]) ∧
    (∀ r1 r2 m1 m2, rule_before r1 r2 → fires r1 table_oversold m1 →
                     fires r2 table_oversold m2 → in_order m1 m2 out) ∧
    (pd.at_iloc table_oversold "K" (-1) = Return 15%float →
     pd.at_iloc table_oversold "D" (-1) = Return 15%float →
     pd.at_iloc table_oversold "RSI" (-1) = Return 10%float →
     in_order kdj_oversold rsi_oversold out).
Proof.
  apply (C1_signals_in_rule_order table_oversold); [by_computation | vm_compute; lia].
Defined.

(** C2, as stated, fails when the histogram rises from exactly zero: on this
    augmented table of two rows the golden-cross message is appended although
    the previous value is not negative. *)
Lemma C2_counterexample :
  augmented table_macd_from_zero ∧ pd.len table_macd_from_zero = 2%nat ∧
  pd.at_iloc table_macd_from_zero "MACD" (-2) = Return 0%float ∧
  pd.at_iloc table_macd_from_zero "MACD" (-1) = Return 0.2%float ∧
  generate_trading_signals table_macd_from_zero = Return [macd_golden] ∧
  ¬ strict_sign_change table_macd_from_zero.
Proof.
  split_and!; [by_computation | done..|].
  intros Hclaim.
  destruct (Hclaim 0%float 0.2%float [macd_golden]) as [[Hneg _] _]; [done..|].
  destruct Hneg as [Hneg _]; [by left|]. vm_compute in Hneg. discriminate Hneg.
Qed.

(** C2, amended. On an augmented table with at least two rows the golden-cross
    message is appended exactly when the previous histogram value is at most
    zero and the latest is above zero, the dead-cross message exactly when the
    previous value is at least zero and the latest is below zero; for the values
    (-0.1, 0.2) the golden-cross message is the first element and occurs once. *)
Theorem C2_macd_crossover df h0 h1 :
  augmented df → (2 ≤ pd.len df)%nat →
  pd.at_iloc df "MACD" (-2) = Return h0 → pd.at_iloc df "MACD" (-1) = Return h1 →
  ∃ out, generate_trading_signals df = Return out ∧
    (macd_golden ∈ out ↔ np.ge 0 h0 = true ∧ np.gt h1 0 = true) ∧
    (macd_dead ∈ out ↔ np.le 0 h0 = true ∧ np.lt h1 0 = true) ∧
    (h0 = (-0.1)%float → h1 = 0.2%float →
     ∃ rest, out = macd_golden :: rest ∧ macd_golden ∉ rest).
Proof.
  intros Haug Hlen H0 H1. eexists. split; [by apply augmented_signals|].
  pose proof (augmented_signals df Haug Hlen) as Hout. split; [|split].
  - rewrite (signal_iff_fires df _ MACD_rule) by (done || by_computation).
    by apply macd_golden_iff.
  - rewrite (signal_iff_fires df _ MACD_rule) by (done || by_computation).
    by apply macd_dead_iff.
  - intros -> ->. apply (macd_message_first df); [done..|].
    by apply (macd_golden_iff df (-0.1) 0.2).
Qed.

(** C2 on [table_macd_cross], whose histogram goes from -0.1 to 0.2. *)
Lemma C2_witness :
  ∃ out, generate_trading_signals table_macd_cross = Return out ∧
    (macd_golden ∈ out ↔ np.ge 0 (-0.1) = true ∧ np.gt 0.2 0 = true) ∧
    (macd_dead ∈ out ↔ np.le 0 (-0.1) = true ∧ np.lt 0.2 0 = true) ∧
    ((-0.1)%float = (-0.1)%float → 0.2%float = 0.2%float →
     ∃ rest, out = macd_golden :: rest ∧ macd_golden ∉ rest).
Proof.
  apply (C2_macd_crossover table_macd_cross (-0.1) 0.2);
    [by_computation | vm_compute; lia | reflexivity | reflexivity].
Defined.

(** C3. On an augmented table with at least two rows on which no rule fires,
    the result is the sentinel alone; and whatever the table, the function
    returns, and returns a non-empty list. *)
Theorem C3_sentinel_when_quiet df :
  (augmented df → (2 ≤ pd.len df)%nat → (∀ r m, ¬ fires r df m) →
   generate_trading_signals df = Return [no_signal]) ∧
  (∃ out, generate_trading_signals df = Return out ∧ out ≠ []).
Proof.
  split; [|apply signals_nonempty].
  intros Haug Hlen Hquiet. rewrite augmented_signals by done.
  assert (appended_by df rule_order = []) as ->; [|done].
  apply elem_of_nil_inv. intros m (r & _ & Hm)%elem_of_appended_by.
  destruct (appended_cases r df) as [Hnil|(m' & _ & Hf)].
  - rewrite Hnil in Hm. by apply elem_of_nil in Hm.
  - by apply (Hquiet r m').
Qed.

(** C3 on [table_flat], where no rule fires. *)
Lemma C3_witness : generate_trading_signals table_flat = Return [no_signal].
Proof.
  apply (C3_sentinel_when_quiet table_flat); [by_computation | vm_compute; lia |].
  intros r m Hf. destruct r; vm_compute in Hf; discriminate Hf.
Defined.

(** C4, as stated, fails on a table without the column K: the MACD rule
    fires, the KDJ rule raises, the RSI rule after it would fire on its own,
    and its message is missing from the output. *)
Lemma C4_counterexample :
  raises KDJ_rule table_without_K (KeyError "K") ∧
  fires RSI_rule table_without_K rsi_oversold ∧
  generate_trading_signals table_without_K =
    Return [macd_golden; diagnostic (KeyError "K")] ∧
  ¬ caught_per_rule table_without_K.
Proof.
  split_and!; [done..|].
  intros Hclaim.
  assert (rsi_oversold ∈ [macd_golden; diagnostic (KeyError "K")]) as Hin.
  { apply (Hclaim KDJ_rule (KeyError "K") _ eq_refl eq_refl RSI_rule).
    - by exists [MACD_rule], [], [BOLL_rule; DMI_rule; VR_rule; ROC_rule].
    - reflexivity. }
  revert Hin. by_computation.
Qed.

(** C4, amended. One handler encloses all rules. When a rule raises and the
    rules before it completed, the function does not abort: it returns what
    the earlier rules appended followed by exactly one diagnostic message, the
    rules after the raising one are not evaluated, and the result is not
    empty. *)
Theorem C4_exception_is_caught df pre r post e :
  (2 ≤ pd.len df)%nat → rule_order = pre ++ r :: post →
  Forall (λ r', completes r' df) pre → raises r df e →
  ∃ out, generate_trading_signals df = Return out ∧
    out = appended_by df pre ++ [diagnostic e] ∧ out ≠ [].
Proof.
  intros Hlen Hord Hpre Hr. eexists. split; [by eapply signals_raises|].
  split; [done|]. by destruct (appended_by df pre).
Qed.

(** C4 on [table_without_K]: the MACD rule completes, the KDJ rule raises. *)
Lemma C4_witness :
  ∃ out, generate_trading_signals table_without_K = Return out ∧
    out = appended_by table_without_K [MACD_rule] ++ [diagnostic (KeyError "K")] ∧ out ≠ [].
Proof.
  apply (C4_exception_is_caught table_without_K [MACD_rule] KDJ_rule
           [RSI_rule; BOLL_rule; DMI_rule; VR_rule; ROC_rule] (KeyError "K"));
    [vm_compute; lia | reflexivity
    | constructor; [vm_compute; reflexivity | constructor]
    | vm_compute; reflexivity].
Defined.

(** C5, as stated, fails on a table of one row: the function returns. *)
Lemma C5_counterexample :
  pd.len table_one_row = 1%nat ∧
  generate_trading_signals table_one_row = Return [insufficient_data] ∧
  ¬ fails_with_insufficient_data table_one_row.
Proof.
  split_and!; [done..|].
  intros Hclaim. destruct Hclaim as [msg Hraise]; [vm_compute; lia|].
  vm_compute in Hraise. discriminate Hraise.
Qed.

(** C5, amended. Given a table with fewer than two rows the function raises
    nothing: it returns the list holding the insufficient-data message alone. *)
Theorem C5_too_few_rows df :
  (pd.len df < 2)%nat → generate_trading_signals df = Return [insufficient_data].
Proof. apply signals_short. Qed.

(** C5 on [table_one_row]. *)
Lemma C5_witness : generate_trading_signals table_one_row = Return [insufficient_data].
Proof. apply (C5_too_few_rows table_one_row). vm_compute. lia. Defined.

(** C9. The RSI rule compares strictly: on an augmented table with at least
    two rows whose last RSI value is exactly 20.0 neither RSI message is in the
    output; the oversold message is there exactly when RSI < 20 and the
    overbought message exactly when RSI > 80. *)
Theorem C9_rsi_strict df rsi :
  augmented df → (2 ≤ pd.len df)%nat → pd.at_iloc df "RSI" (-1) = Return rsi →
  ∃ out, generate_trading_signals df = Return out ∧
    (rsi = 20%float → (rsi_oversold ∉ out) ∧ (rsi_overbought ∉ out)) ∧
    (rsi_oversold ∈ out ↔ np.lt rsi 20 = true) ∧
    (rsi_overbought ∈ out ↔ np.gt rsi 80 = true).
Proof.
  intros Haug Hlen Hrsi. eexists. split; [by apply augmented_signals|].
  pose proof (augmented_signals df Haug Hlen) as Hout.
  assert (∀ out, generate_trading_signals df = Return out →
            (rsi_oversold ∈ out ↔ np.lt rsi 20 = true) ∧
            (rsi_overbought ∈ out ↔ np.gt rsi 80 = true)) as Hiff.
  { intros out Hout'. split.
    - rewrite (signal_iff_fires df _ RSI_rule) by (done || by_computation).
      by apply rsi_oversold_iff.
    - rewrite (signal_iff_fires df _ RSI_rule) by (done || by_computation).
      by apply rsi_overbought_iff. }
  destruct (Hiff _ Hout) as [Hlow Hhigh]. split; [|done].
  intros ->. rewrite Hlow, Hhigh. by vm_compute.
Qed.

(** C9 on [table_rsi_20], whose last RSI value is 20.0. *)
Lemma C9_witness :
  ∃ out, generate_trading_signals table_rsi_20 = Return out ∧
    (20%float = 20%float → (rsi_oversold ∉ out) ∧ (rsi_overbought ∉ out)) ∧
    (rsi_oversold ∈ out ↔ np.lt 20 20 = true) ∧
    (rsi_overbought ∈ out ↔ np.gt 20 80 = true).
Proof.
  apply (C9_rsi_strict table_rsi_20 20); [by_computation | vm_compute; lia | reflexivity].
Defined.

(** C10. The golden-cross rule also fires from exactly zero: on an augmented
    table with at least two rows whose previous histogram value is zero and
    whose latest value is above zero, the golden-cross message is appended; the
    trigger is previous <= 0 and latest > 0. *)
Theorem C10_macd_from_zero df h0 h1 :
  augmented df → (2 ≤ pd.len df)%nat →
  pd.at_iloc df "MACD" (-2) = Return h0 → pd.at_iloc df "MACD" (-1) = Return h1 →
  ∃ out, generate_trading_signals df = Return out ∧
    (PrimFloat.is_zero h0 = true → np.gt h1 0 = true → macd_golden ∈ out) ∧
    (macd_golden ∈ out ↔ np.le h0 0 = true ∧ np.gt h1 0 = true).
Proof.
  intros Haug Hlen H0 H1. eexists. split; [by apply augmented_signals|].
  pose proof (augmented_signals df Haug Hlen) as Hout.
  assert (macd_golden ∈ or_no_signal (appended_by df rule_order)
          ↔ np.le h0 0 = true ∧ np.gt h1 0 = true) as Hiff.
  { rewrite (signal_iff_fires df _ MACD_rule) by (done || by_computation).
    by apply macd_golden_iff. }
  split; [|done]. intros Hzero Hpos. apply Hiff. split; [|done].
  by apply is_zero_le.
Qed.

(** C10 on [table_macd_from_zero], whose histogram goes from 0 to 0.2. *)
Lemma C10_witness :
  ∃ out, generate_trading_signals table_macd_from_zero = Return out ∧
    (PrimFloat.is_zero 0 = true → np.gt 0.2 0 = true → macd_golden ∈ out) ∧
    (macd_golden ∈ out ↔ np.le 0 0 = true ∧ np.gt 0.2 0 = true).
Proof.
  apply (C10_macd_from_zero table_macd_from_zero 0 0.2);
    [by_computation | vm_compute; lia | reflexivity | reflexivity].
Defined.

(** * The assembler *)

(** ** Assignment of columns *)

Lemma setitem_nonempty df c a df' :
  pd.len df ≠ 0%nat → pd.setitem df c a = Return df' →
  length a = pd.len df ∧ pd.index df' = pd.index df ∧
  pd.columns df' = <[c := a]> (pd.columns df).
Proof.
  intros Hlen. unfold pd.setitem.
  rewrite (bool_decide_eq_false_2 (pd.len df = 0%nat)) by done. simpl.
  case_bool_decide as Ha; [|done]. by intros [= <-].
Qed.

Lemma assign_columns_spec df cols df' :
  pd.len df ≠ 0%nat → NoDup cols.*1 → assign_columns df cols = Return df' →
  pd.index df' = pd.index df ∧
  (∀ c a, (c, a) ∈ cols → pd.columns df' !! c = Some a ∧ length a = pd.len df) ∧
  (∀ c, c ∉ cols.*1 → pd.columns df' !! c = pd.columns df !! c).
Proof.
  intros Hlen. revert df Hlen. induction cols as [|[c a] cols IH]; intros df Hlen Hnd Hrun.
  - injection Hrun as <-. split; [done|]. split; [|done]. by intros c a ?%elem_of_nil.
  - simpl in Hrun. destruct (pd.setitem df c a) as [df1|e] eqn:Hset; [|done].
    simpl in Hrun. apply NoDup_cons in Hnd as [Hc Hnd].
    destruct (setitem_nonempty _ _ _ _ Hlen Hset) as (Ha & Hidx & Hcols).
    assert (pd.len df1 = pd.len df) as Hlen1 by (unfold pd.len; by rewrite Hidx).
    destruct (IH df1) as (Hidx' & Hin & Hout); [congruence|done|done|].
    split; [congruence|]. split.
    + intros c' a' [[= -> ->]|Hin']%elem_of_cons.
      * split; [|done]. rewrite Hout by done. rewrite Hcols. apply lookup_insert_eq.
      * destruct (Hin c' a' Hin') as [? ?]. split; [done|congruence].
    + intros c' Hc'. simpl in Hc'. apply not_elem_of_cons in Hc' as [Hne Hc'].
      rewrite Hout by done. rewrite Hcols. by apply lookup_insert_ne.
Qed.

(** ** The computation phase *)

Section Assembler.

Context {ext : Collaborators}.

Ltac split_tuple :=
  repeat match goal with p : (_ * _)%type |- _ => destruct p end.

(** Peel the first call off a chain of binds in hypothesis [H]. *)
Ltac first_call H :=
  match type of H with
  | mbind _ ?c = Return _ =>
      let E := fresh "Hcall" in
      destruct c eqn:E; [split_tuple; cbn [mbind result_bind] in H | discriminate H]
  end.

Lemma compute_indicators_inv df cols :
  compute_indicators df = Return cols →
  ∃ close open_price high low volume rsi,
    pd.getitem df "close" = Return close ∧ pd.getitem df "open" = Return open_price ∧
    pd.getitem df "high" = Return high ∧ pd.getitem df "low" = Return low ∧
    pd.getitem df "volume" = Return volume ∧
    mt.RSI MyTT close 14 = Return rsi ∧
    ("RSI", np.nan_to_num rsi 50) ∈ cols ∧
    cols.*1 = indicator_columns ∧
    Forall (λ r, r = Return tt) (indicator_calls close open_price high low volume).
Proof.
  intros H. unfold compute_indicators in H.
  do 5 first_call H. do 22 first_call H.
  injection H as <-.
  eexists _, _, _, _, _, _. split_and!; try done.
  - apply list_elem_of_In. simpl. tauto.
  - unfold indicator_calls, called.
    repeat constructor;
      match goal with
      | |- mbind _ ?c = _ => match goal with H : c = _ |- _ => by rewrite H end
      end.
Qed.

(** A call that raises makes the computation phase raise. *)
Lemma compute_indicators_raises df close open_price high low volume i e :
  pd.getitem df "close" = Return close → pd.getitem df "open" = Return open_price →
  pd.getitem df "high" = Return high → pd.getitem df "low" = Return low →
  pd.getitem df "volume" = Return volume →
  indicator_calls close open_price high low volume !! i = Some (Raise e) →
  ∃ e', compute_indicators df = Raise e'.
Proof.
  intros Hc Ho Hh Hl Hv Hi.
  destruct (compute_indicators df) as [cols|e'] eqn:Hrun; [|by eexists].
  apply compute_indicators_inv in Hrun
    as (c & o & h & l & v & rsi & Hc' & Ho' & Hh' & Hl' & Hv' & _ & _ & _ & Hall).
  assert (c = close ∧ o = open_price ∧ h = high ∧ l = low ∧ v = volume)
    as (-> & -> & -> & -> & ->) by (split_and!; congruence).
  rewrite Forall_lookup in Hall. by specialize (Hall i _ Hi).
Qed.

(** ** The assembler *)

Lemma calculate_indicators_inv self code df' :
  calculate_indicators self code = Some df' →
  ∃ df cols, data self !! code = Some df ∧
             compute_indicators df = Return cols ∧
             assign_columns df cols = Return df'.
Proof.
  unfold calculate_indicators, pd.copy. intros H.
  destruct (data self !! code) as [df|]; [|done].
  destruct (compute_indicators df) as [cols|] eqn:Hcols; [|done].
  simpl in H. destruct (assign_columns df cols) as [df''|] eqn:Hassign; [|done].
  injection H as ->. by exists df, cols.
Qed.

Lemma indicator_columns_NoDup : NoDup indicator_columns.
Proof. by_computation. Qed.

Lemma calculate_indicators_columns self code df df' :
  data self !! code = Some df → pd.len df ≠ 0%nat →
  calculate_indicators self code = Some df' →
  ∃ cols, compute_indicators df = Return cols ∧ cols.*1 = indicator_columns ∧
    pd.index df' = pd.index df ∧
    (∀ c a, (c, a) ∈ cols → pd.columns df' !! c = Some a ∧ length a = pd.len df) ∧
    (∀ c, c ∉ indicator_columns → pd.columns df' !! c = pd.columns df !! c).
Proof.
  intros Hdf Hlen (df0 & cols & Hdf0 & Hcols & Hassign)%calculate_indicators_inv.
  assert (df0 = df) as -> by congruence.
  destruct (compute_indicators_inv _ _ Hcols) as (?&?&?&?&?&?&_&_&_&_&_&_&_&Hnames&_).
  destruct (assign_columns_spec df cols df') as (Hidx & Hin & Hout); [done| |done|].
  { rewrite Hnames. apply indicator_columns_NoDup. }
  exists cols. rewrite Hnames in Hout. by split_and!.
Qed.


End Assembler.

(** ** not-a-number and [nan_to_num] *)

Lemma nan_to_num1_not_nan x : is_nan (np.nan_to_num1 50 x) = false.
Proof.
  unfold np.nan_to_num1.
  destruct (is_nan x) eqn:Hnan; [done|].
  destruct (x =? infinity)%float; [done|].
  by destruct (x =? neg_infinity)%float.
Qed.

Lemma SFcompare_refl x : x ≠ S754_nan → SFcompare x x = Some Eq.
Proof.
  destruct x as [[]|[]| |[] m e]; try done; intros _; simpl;
    by rewrite Z.compare_refl, ?Pos.compare_cont_refl.
Qed.

Lemma in_0_100_kept x : in_0_100 x = true → np.nan_to_num1 50 x = x.
Proof.
  unfold in_0_100, np.le, np.nan_to_num1, is_nan. intros [H0 H100]%andb_prop.
  rewrite !FloatAxioms.leb_spec in *. rewrite !FloatAxioms.eqb_spec.
  change (Prim2SF 0) with (S754_zero false) in H0.
  change (Prim2SF 100) with (S754_finite false 7036874417766400 (-46)) in H100.
  change (Prim2SF infinity) with (S754_infinity false).
  change (Prim2SF neg_infinity) with (S754_infinity true).
  unfold SFeqb. destruct (Prim2SF x) as [[]|[]| |[] m e] eqn:Hx; try done.
  all: rewrite SFcompare_refl by done; done.
Qed.

Lemma nan_to_num1_nan x : is_nan x = true → np.nan_to_num1 50 x = 50%float.
Proof. unfold np.nan_to_num1. by intros ->. Qed.

Lemma setitem_keeps_columns df c a df' c' :
  pd.setitem df c a = Return df' →
  c' = c ∨ is_Some (pd.columns df !! c') → is_Some (pd.columns df' !! c').
Proof.
  unfold pd.setitem. intros Hset Hc'.
  destruct (bool_decide (pd.len df = 0%nat) && negb (bool_decide (length a = 0%nat))).
  - injection Hset as <-. simpl. rewrite lookup_insert. case_decide; [done|].
    rewrite lookup_fmap. destruct Hc' as [->|[s ->]]; done.
  - case_bool_decide; [|done]. injection Hset as <-. simpl.
    rewrite lookup_insert. case_decide; [done|]. by destruct Hc' as [->|?].
Qed.

Lemma assign_columns_keeps_columns df cols df' c :
  assign_columns df cols = Return df' →
  c ∈ cols.*1 ∨ is_Some (pd.columns df !! c) → is_Some (pd.columns df' !! c).
Proof.
  revert df. induction cols as [|[c0 a] cols IH]; intros df Hrun Hc.
  - injection Hrun as <-. destruct Hc as [Hc|Hc]; [by apply elem_of_nil in Hc|done].
  - simpl in Hrun. destruct (pd.setitem df c0 a) as [df1|] eqn:Hset; [|done].
    simpl in Hrun. apply (IH df1 Hrun).
    destruct Hc as [[->|Hc]%elem_of_cons|Hc]; [right|by left|right].
    + eapply setitem_keeps_columns; eauto.
    + eapply setitem_keeps_columns; eauto.
Qed.

Section Properties.

Context {ext : Collaborators}.

Lemma calculate_indicators_complete self code df' :
  calculate_indicators self code = Some df' →
  Forall (λ c, is_Some (pd.columns df' !! c)) indicator_columns.
Proof.
  intros (df & cols & _ & Hcols & Hassign)%calculate_indicators_inv.
  destruct (compute_indicators_inv _ _ Hcols) as (?&?&?&?&?&?&_&_&_&_&_&_&_&Hnames&_).
  apply Forall_forall. intros c Hc.
  apply (assign_columns_keeps_columns df cols); [done|]. left. by rewrite Hnames.
Qed.

Lemma generate_analysis_data_returns self code :
  ∃ d, generate_analysis_data self code = Return d.
Proof.
  unfold generate_analysis_data.
  destruct (data self !! code) as [df|]; [|by eexists].
  destruct (pd.empty df); [by eexists|].
  destruct (calculate_indicators _ _) as [latest|]; [|by eexists].
  by destruct (mbind _ _); eexists.
Qed.

End Properties.

Section Shape.

Context {ext : Collaborators}.

(** C7. In a table produced by the assembler from a non-empty series the RSI
    column holds no not-a-number: it is the library's RSI array passed through
    [nan_to_num], as long as the table; and when the library's values are each
    not-a-number or within 0..100, every position holds either the computed
    value, within 0..100, or 50 in place of not-a-number. *)
Theorem C7_rsi_never_nan self code df df' :
  data self !! code = Some df → pd.len df ≠ 0%nat →
  calculate_indicators self code = Some df' →
  ∃ close rsi column,
    pd.getitem df "close" = Return close ∧ mt.RSI MyTT close 14 = Return rsi ∧
    pd.columns df' !! "RSI" = Some column ∧ column = np.nan_to_num rsi 50 ∧
    length column = pd.len df' ∧
    (∀ i x, column !! i = Some x → is_nan x = false) ∧
    (Forall (λ v, is_nan v = true ∨ in_0_100 v = true) rsi →
     ∀ i x, column !! i = Some x →
       ∃ v, rsi !! i = Some v ∧
            ((in_0_100 v = true ∧ x = v) ∨ (is_nan v = true ∧ x = 50%float))).
Proof.
  intros Hdf Hlen Hrun.
  destruct (calculate_indicators_columns self code df df' Hdf Hlen Hrun)
    as (cols & Hcols & _ & Hidx & Hin & _).
  destruct (compute_indicators_inv _ _ Hcols)
    as (close & op & hi & lo & vol & rsi & Hclose & _ & _ & _ & _ & Hrsi & Hmem & _ & _).
  destruct (Hin _ _ Hmem) as [Hcol Hlength].
  exists close, rsi, (np.nan_to_num rsi 50). split_and!; try done.
  - unfold pd.len in *. congruence.
  - unfold np.nan_to_num. intros i x (v & -> & _)%list_lookup_fmap_Some.
    apply nan_to_num1_not_nan.
  - unfold np.nan_to_num. intros Hrange i x (v & -> & Hv)%list_lookup_fmap_Some.
    exists v. split; [done|]. rewrite Forall_lookup in Hrange.
    destruct (Hrange i v Hv) as [Hnan|Hin100].
    + right. split; [done|]. by apply nan_to_num1_nan.
    + left. split; [done|]. by apply in_0_100_kept.
Qed.

(** C8. For a non-empty series accepted by the assembler the augmented table
    has the index, hence the row count, of the series; every indicator column
    is the array computed for it, as long as the series and holding a cell, a
    number or not-a-number, at every position; the other columns are those of
    the series; and the table is augmented when the series is well formed. *)
Theorem C8_same_shape self code df df' :
  data self !! code = Some df → pd.len df ≠ 0%nat →
  calculate_indicators self code = Some df' →
  pd.index df' = pd.index df ∧ pd.len df' = pd.len df ∧
  (∃ cols, compute_indicators df = Return cols ∧ cols.*1 = indicator_columns ∧
     ∀ c a, (c, a) ∈ cols →
       pd.columns df' !! c = Some a ∧ length a = pd.len df ∧
       ∀ i, (i < pd.len df)%nat → ∃ x, a !! i = Some x) ∧
  (∀ c, c ∈ indicator_columns → ∃ a, pd.columns df' !! c = Some a ∧ length a = pd.len df) ∧
  (∀ c, c ∉ indicator_columns → pd.columns df' !! c = pd.columns df !! c) ∧
  (wf_table df → augmented df').
Proof.
  intros Hdf Hlen Hrun.
  destruct (calculate_indicators_columns self code df df' Hdf Hlen Hrun)
    as (cols & Hcols & Hnames & Hidx & Hin & Hout).
  assert (pd.len df' = pd.len df) as Hlen' by (unfold pd.len; by rewrite Hidx).
  assert (∀ c, c ∈ indicator_columns →
            ∃ a, pd.columns df' !! c = Some a ∧ length a = pd.len df) as Hind.
  { intros c Hc. rewrite <- Hnames in Hc.
    apply list_elem_of_fmap in Hc as ([c' a] & -> & Hca). exists a. by apply Hin. }
  split_and!; [done|done| |done|done|].
  - exists cols. split_and!; [done|done|]. intros c a Hca.
    destruct (Hin c a Hca) as [Hc Ha]. split_and!; [done|done|].
    intros i Hi. apply lookup_lt_is_Some. by rewrite Ha.
  - intros Hwf. split.
    + intros c s Hs. rewrite Hlen'.
      destruct (decide (c ∈ indicator_columns)) as [Hc|Hc].
      * destruct (Hind c Hc) as (a & Ha & Hlength). congruence.
      * rewrite Hout in Hs by done. by apply (Hwf c s).
    + destruct (compute_indicators_inv _ _ Hcols)
        as (cl & op & hi & lo & vol & rsi & Hc & Ho & Hh & Hl & Hv & _).
      apply Forall_app. split.
      * unfold pd.getitem in *.
        repeat constructor; rewrite Hout by by_computation;
          match goal with
          | H : match pd.columns df !! ?c with _ => _ end = _ |- is_Some (pd.columns df !! ?c) =>
              by destruct (pd.columns df !! c)
          end.
      * apply Forall_forall. intros c Hc'. destruct (Hind c Hc') as (a & -> & _). by eexists.
Qed.

End Shape.

(** C7 on the first sample instrument. *)
Lemma C7_witness :
  ∃ close rsi column,
    pd.getitem sample_series "close" = Return close ∧
    mt.RSI sample_library close 14 = Return rsi ∧
    pd.columns sample_table !! "RSI" = Some column ∧ column = np.nan_to_num rsi 50 ∧
    length column = pd.len sample_table ∧
    (∀ i x, column !! i = Some x → is_nan x = false) ∧
    (Forall (λ v, is_nan v = true ∨ in_0_100 v = true) rsi →
     ∀ i x, column !! i = Some x →
       ∃ v, rsi !! i = Some v ∧
            ((in_0_100 v = true ∧ x = v) ∨ (is_nan v = true ∧ x = 50%float))).
Proof.
  apply (C7_rsi_never_nan (ext := sample_collaborators)
           sample_analyzer "sh000001" sample_series sample_table);
    [vm_compute; reflexivity | vm_compute; lia | vm_compute; reflexivity].
Defined.

(** C8 on the first sample instrument. *)
Lemma C8_witness :
  pd.index sample_table = pd.index sample_series ∧
  pd.len sample_table = pd.len sample_series ∧
  (∃ cols, compute_indicators (ext := sample_collaborators) sample_series = Return cols ∧
     cols.*1 = indicator_columns ∧
     ∀ c a, (c, a) ∈ cols →
       pd.columns sample_table !! c = Some a ∧ length a = pd.len sample_series ∧
       ∀ i, (i < pd.len sample_series)%nat → ∃ x, a !! i = Some x) ∧
  (∀ c, c ∈ indicator_columns →
     ∃ a, pd.columns sample_table !! c = Some a ∧ length a = pd.len sample_series) ∧
  (∀ c, c ∉ indicator_columns →
     pd.columns sample_table !! c = pd.columns sample_series !! c) ∧
  (wf_table sample_series → augmented sample_table).
Proof.
  apply (C8_same_shape (ext := sample_collaborators)
           sample_analyzer "sh000001" sample_series sample_table);
    [vm_compute; reflexivity | vm_compute; lia | vm_compute; reflexivity].
Defined.

(** * The other rules and the size of the output *)

(** ** Comparisons of binary64 values *)

Lemma SFltb_asym x y : SFltb x y = true → SFltb y x = false.
Proof.
  unfold SFltb, SFcompare.
  destruct x as [[]|[]| |[] m1 e1], y as [[]|[]| |[] m2 e2]; try done;
    pose proof (Pos.compare_cont_antisym m1 m2 Eq) as Hm; simpl in Hm;
    rewrite (Z.compare_antisym e1 e2), <- Hm;
    destruct (e1 ?= e2)%Z; simpl; try done;
    by destruct (Pos.compare_cont Eq m1 m2).
Qed.

Lemma gt_not_lt a b : np.gt a b = true → np.lt a b = false.
Proof. unfold np.gt, np.lt. rewrite !FloatAxioms.ltb_spec. apply SFltb_asym. Qed.

Lemma lt_not_gt a b : np.lt a b = true → np.gt a b = false.
Proof. unfold np.gt, np.lt. rewrite !FloatAxioms.ltb_spec. apply SFltb_asym. Qed.

Lemma lt_40_not_gt_160 x : np.lt x 40 = true → np.gt x 160 = false.
Proof.
  unfold np.gt, np.lt. rewrite !FloatAxioms.ltb_spec.
  change (Prim2SF 160) with (S754_finite false 5629499534213120 (-45)).
  change (Prim2SF 40) with (S754_finite false 5629499534213120 (-47)).
  destruct (Prim2SF x) as [[]|[]| |[] m e]; try done.
  unfold SFltb, SFcompare.
  destruct (Z.compare_spec e (-47)), (Z.compare_spec (-45) e); try done; lia.
Qed.

Lemma is_nan_SF x : is_nan x = true → Prim2SF x = S754_nan.
Proof.
  unfold is_nan. rewrite FloatAxioms.eqb_spec. unfold SFeqb.
  destruct (Prim2SF x) as [[]|[]| |[] m e] eqn:Hx; try done; simpl;
    by rewrite Z.compare_refl, ?Pos.compare_cont_refl.
Qed.

Lemma nan_compares_false op x y :
  op ∈ [np.gt; np.ge; np.lt; np.le] → is_nan x = true ∨ is_nan y = true → op x y = false.
Proof.
  intros Hop Hnan.
  assert (Prim2SF x = S754_nan ∨ Prim2SF y = S754_nan) as Hsf
    by (destruct Hnan; [left|right]; by apply is_nan_SF).
  repeat (apply elem_of_cons in Hop as [->|Hop]); [| | | |by apply elem_of_nil in Hop];
    unfold np.gt, np.ge, np.lt, np.le;
    rewrite ?FloatAxioms.ltb_spec, ?FloatAxioms.leb_spec;
    unfold SFltb, SFleb, SFcompare;
    destruct Hsf as [-> | ->]; try done;
    by destruct (Prim2SF _).
Qed.

Lemma nan_gt x y : is_nan x = true ∨ is_nan y = true → np.gt x y = false.
Proof. apply nan_compares_false. repeat constructor. Qed.

Lemma nan_lt x y : is_nan x = true ∨ is_nan y = true → np.lt x y = false.
Proof. apply nan_compares_false. repeat constructor. Qed.

(** ** What the other blocks do with the cells they read *)

Lemma boll_rule_run df close up low :
  pd.at_iloc df "close" (-1) = Return close → pd.at_iloc df "BOLL_UP" (-1) = Return up →
  pd.at_iloc df "BOLL_LOW" (-1) = Return low →
  rule_body BOLL_rule df [] =
    (Return tt, if np.gt close up then [boll_above]
                else if np.lt close low then [boll_below] else []).
Proof.
  intros Hc Hu Hl. run_block. rewrite Hc, Hu, Hl.
  by destruct (np.gt close up), (np.lt close low).
Qed.

Lemma dmi_rule_run df pdi1 mdi1 pdi0 mdi0 :
  pd.at_iloc df "PDI" (-1) = Return pdi1 → pd.at_iloc df "MDI" (-1) = Return mdi1 →
  pd.at_iloc df "PDI" (-2) = Return pdi0 → pd.at_iloc df "MDI" (-2) = Return mdi0 →
  rule_body DMI_rule df [] =
    (Return tt, if np.gt pdi1 mdi1 && np.le pdi0 mdi0 then [dmi_golden]
                else if np.lt pdi1 mdi1 && np.ge pdi0 mdi0 then [dmi_dead] else []).
Proof.
  intros Hp1 Hm1 Hp0 Hm0. run_block. rewrite Hp1, Hm1, Hp0, Hm0.
  by destruct (np.gt pdi1 mdi1), (np.le pdi0 mdi0), (np.lt pdi1 mdi1), (np.ge pdi0 mdi0).
Qed.

Lemma vr_rule_run df vr :
  pd.at_iloc df "VR" (-1) = Return vr →
  rule_body VR_rule df [] =
    (Return tt, if np.gt vr 160 then [vr_high] else if np.lt vr 40 then [vr_low] else []).
Proof.
  intros Hvr. run_block. rewrite Hvr. by destruct (np.gt vr 160), (np.lt vr 40).
Qed.

Lemma roc_rule_run df roc1 ma1 roc0 ma0 :
  pd.at_iloc df "ROC" (-1) = Return roc1 → pd.at_iloc df "MAROC" (-1) = Return ma1 →
  pd.at_iloc df "ROC" (-2) = Return roc0 → pd.at_iloc df "MAROC" (-2) = Return ma0 →
  rule_body ROC_rule df [] =
    (Return tt, if np.gt roc1 ma1 && np.le roc0 ma0 then [roc_up]
                else if np.lt roc1 ma1 && np.ge roc0 ma0 then [roc_down] else []).
Proof.
  intros Hr1 Hm1 Hr0 Hm0. run_block. rewrite Hr1, Hm1, Hr0, Hm0.
  by destruct (np.gt roc1 ma1), (np.le roc0 ma0), (np.lt roc1 ma1), (np.ge roc0 ma0).
Qed.

(** ** Trigger conditions of the KDJ, Bollinger, DMI, VR and ROC rules *)

(** X1. On an augmented table with at least two rows the KDJ-oversold message
    is in the output exactly when K and D of the last row are both below 20,
    and the KDJ-overbought message exactly when both are above 80. *)
Theorem kdj_rule_triggers df k d :
  augmented df → (2 ≤ pd.len df)%nat →
  pd.at_iloc df "K" (-1) = Return k → pd.at_iloc df "D" (-1) = Return d →
  ∃ out, generate_trading_signals df = Return out ∧
    (kdj_oversold ∈ out ↔ np.lt k 20 = true ∧ np.lt d 20 = true) ∧
    (kdj_overbought ∈ out ↔ np.gt k 80 = true ∧ np.gt d 80 = true).
Proof.
  intros Haug Hlen Hk Hd. eexists. split; [by apply augmented_signals|].
  pose proof (augmented_signals df Haug Hlen) as Hout.
  rewrite !(signal_iff_fires df _ KDJ_rule) by (done || by_computation).
  unfold fires. rewrite (kdj_rule_run df k d) by done.
  pose proof (gt_80_not_lt_20 k) as Hk80.
  destruct (np.lt k 20), (np.lt d 20), (np.gt k 80), (np.gt d 80); simpl; naive_solver.
Qed.

Lemma kdj_rule_triggers_witness :
  ∃ out, generate_trading_signals table_oversold = Return out ∧
    (kdj_oversold ∈ out ↔ np.lt 15 20 = true ∧ np.lt 15 20 = true) ∧
    (kdj_overbought ∈ out ↔ np.gt 15 80 = true ∧ np.gt 15 80 = true).
Proof.
  apply (kdj_rule_triggers table_oversold 15 15);
    [by_computation | vm_compute; lia | reflexivity | reflexivity].
Defined.

(** X2. On an augmented table with at least two rows the upper-band message is
    in the output exactly when the last close is above the upper band, and the
    lower-band message exactly when it is not above the upper band and is
    below the lower band. *)
Theorem boll_rule_triggers df close up low :
  augmented df → (2 ≤ pd.len df)%nat →
  pd.at_iloc df "close" (-1) = Return close → pd.at_iloc df "BOLL_UP" (-1) = Return up →
  pd.at_iloc df "BOLL_LOW" (-1) = Return low →
  ∃ out, generate_trading_signals df = Return out ∧
    (boll_above ∈ out ↔ np.gt close up = true) ∧
    (boll_below ∈ out ↔ np.gt close up = false ∧ np.lt close low = true).
Proof.
  intros Haug Hlen Hc Hu Hl. eexists. split; [by apply augmented_signals|].
  pose proof (augmented_signals df Haug Hlen) as Hout.
  rewrite !(signal_iff_fires df _ BOLL_rule) by (done || by_computation).
  unfold fires. rewrite (boll_rule_run df close up low) by done.
  destruct (np.gt close up), (np.lt close low); simpl; naive_solver.
Qed.

Lemma boll_rule_triggers_witness :
  ∃ out, generate_trading_signals table_busy = Return out ∧
    (boll_above ∈ out ↔ np.gt 60 50 = true) ∧
    (boll_below ∈ out ↔ np.gt 60 50 = false ∧ np.lt 60 50 = true).
Proof.
  apply (boll_rule_triggers table_busy 60 50 50);
    [by_computation | vm_compute; lia | reflexivity | reflexivity | reflexivity].
Defined.

(** X3. On an augmented table with at least two rows the DMI golden-cross
    message is in the output exactly when PDI is above MDI in the last row and
    was at most MDI in the row before, and the dead-cross message exactly when
    PDI is below MDI in the last row and was at least MDI in the row before. *)
Theorem dmi_rule_triggers df pdi1 mdi1 pdi0 mdi0 :
  augmented df → (2 ≤ pd.len df)%nat →
  pd.at_iloc df "PDI" (-1) = Return pdi1 → pd.at_iloc df "MDI" (-1) = Return mdi1 →
  pd.at_iloc df "PDI" (-2) = Return pdi0 → pd.at_iloc df "MDI" (-2) = Return mdi0 →
  ∃ out, generate_trading_signals df = Return out ∧
    (dmi_golden ∈ out ↔ np.gt pdi1 mdi1 = true ∧ np.le pdi0 mdi0 = true) ∧
    (dmi_dead ∈ out ↔ np.lt pdi1 mdi1 = true ∧ np.ge pdi0 mdi0 = true).
Proof.
  intros Haug Hlen Hp1 Hm1 Hp0 Hm0. eexists. split; [by apply augmented_signals|].
  pose proof (augmented_signals df Haug Hlen) as Hout.
  rewrite !(signal_iff_fires df _ DMI_rule) by (done || by_computation).
  unfold fires. rewrite (dmi_rule_run df pdi1 mdi1 pdi0 mdi0) by done.
  pose proof (lt_not_gt pdi1 mdi1) as Hasym.
  destruct (np.gt pdi1 mdi1), (np.le pdi0 mdi0), (np.lt pdi1 mdi1), (np.ge pdi0 mdi0);
    simpl; naive_solver.
Qed.

Lemma dmi_rule_triggers_witness :
  ∃ out, generate_trading_signals table_busy = Return out ∧
    (dmi_golden ∈ out ↔ np.gt 30 20 = true ∧ np.le 10 20 = true) ∧
    (dmi_dead ∈ out ↔ np.lt 30 20 = true ∧ np.ge 10 20 = true).
Proof.
  apply (dmi_rule_triggers table_busy 30 20 10 20);
    [by_computation | vm_compute; lia | reflexivity..].
Defined.

(** X4. On an augmented table with at least two rows the high-activity message
    is in the output exactly when the last VR is above 160, and the
    low-activity message exactly when it is below 40. *)
Theorem vr_rule_triggers df vr :
  augmented df → (2 ≤ pd.len df)%nat → pd.at_iloc df "VR" (-1) = Return vr →
  ∃ out, generate_trading_signals df = Return out ∧
    (vr_high ∈ out ↔ np.gt vr 160 = true) ∧
    (vr_low ∈ out ↔ np.lt vr 40 = true).
Proof.
  intros Haug Hlen Hvr. eexists. split; [by apply augmented_signals|].
  pose proof (augmented_signals df Haug Hlen) as Hout.
  rewrite !(signal_iff_fires df _ VR_rule) by (done || by_computation).
  unfold fires. rewrite (vr_rule_run df vr) by done.
  pose proof (lt_40_not_gt_160 vr) as H40.
  destruct (np.gt vr 160), (np.lt vr 40); simpl; naive_solver.
Qed.

Lemma vr_rule_triggers_witness :
  ∃ out, generate_trading_signals table_busy = Return out ∧
    (vr_high ∈ out ↔ np.gt 200 160 = true) ∧
    (vr_low ∈ out ↔ np.lt 200 40 = true).
Proof.
  apply (vr_rule_triggers table_busy 200); [by_computation | vm_compute; lia | reflexivity].
Defined.

(** X5. On an augmented table with at least two rows the momentum-up message
    is in the output exactly when ROC is above its average in the last row and
    was at most its average in the row before, and the momentum-down message
    exactly when ROC is below its average in the last row and was at least its
    average in the row before. *)
Theorem roc_rule_triggers df roc1 ma1 roc0 ma0 :
  augmented df → (2 ≤ pd.len df)%nat →
  pd.at_iloc df "ROC" (-1) = Return roc1 → pd.at_iloc df "MAROC" (-1) = Return ma1 →
  pd.at_iloc df "ROC" (-2) = Return roc0 → pd.at_iloc df "MAROC" (-2) = Return ma0 →
  ∃ out, generate_trading_signals df = Return out ∧
    (roc_up ∈ out ↔ np.gt roc1 ma1 = true ∧ np.le roc0 ma0 = true) ∧
    (roc_down ∈ out ↔ np.lt roc1 ma1 = true ∧ np.ge roc0 ma0 = true).
Proof.
  intros Haug Hlen Hr1 Hm1 Hr0 Hm0. eexists. split; [by apply augmented_signals|].
  pose proof (augmented_signals df Haug Hlen) as Hout.
  rewrite !(signal_iff_fires df _ ROC_rule) by (done || by_computation).
  unfold fires. rewrite (roc_rule_run df roc1 ma1 roc0 ma0) by done.
  pose proof (lt_not_gt roc1 ma1) as Hasym.
  destruct (np.gt roc1 ma1), (np.le roc0 ma0), (np.lt roc1 ma1), (np.ge roc0 ma0);
    simpl; naive_solver.
Qed.

Lemma roc_rule_triggers_witness :
  ∃ out, generate_trading_signals table_busy = Return out ∧
    (roc_up ∈ out ↔ np.gt 5 2 = true ∧ np.le 1 2 = true) ∧
    (roc_down ∈ out ↔ np.lt 5 2 = true ∧ np.ge 1 2 = true).
Proof.
  apply (roc_rule_triggers table_busy 5 2 1 2);
    [by_computation | vm_compute; lia | reflexivity..].
Defined.

Example signals_busy :
  generate_trading_signals table_busy = Return [boll_above; dmi_golden; vr_high; roc_up].
Proof. reflexivity. Qed.

(** ** Size of the output *)

Lemma appended_length r df : (length (appended r df) ≤ 1)%nat.
Proof.
  destruct (appended_cases r df) as [->|(m & _ & Hf)]; [simpl; lia|].
  destruct (fires_appended _ _ _ Hf) as [-> _]. simpl. lia.
Qed.

Lemma appended_NoDup r df : NoDup (appended r df).
Proof.
  destruct (appended_cases r df) as [->|(m & _ & Hf)]; [constructor|].
  destruct (fires_appended _ _ _ Hf) as [-> _]. apply NoDup_singleton.
Qed.

Lemma appended_by_length df rs : (length (appended_by df rs) ≤ length rs)%nat.
Proof.
  unfold appended_by. induction rs as [|r rs IH]; [done|].
  rewrite bind_cons, length_app. pose proof (appended_length r df). simpl. lia.
Qed.

Lemma appended_by_NoDup df rs : NoDup rs → NoDup (appended_by df rs).
Proof.
  intros Hnd. unfold appended_by. apply NoDup_bind; [|auto using appended_NoDup|done].
  intros r1 r2 m _ _ H1 H2. eauto using rule_messages_disjoint, appended_messages.
Qed.

Lemma diagnostic_not_rule_message e r : diagnostic e ∉ rule_messages r.
Proof.
  destruct r; simpl; rewrite !elem_of_cons, !elem_of_nil;
    intros [Heq|[Heq|[]]]; discriminate Heq.
Qed.

Lemma diagnostic_not_appended e df rs : diagnostic e ∉ appended_by df rs.
Proof.
  intros (r & _ & Hm%appended_messages)%elem_of_appended_by.
  by apply (diagnostic_not_rule_message e r).
Qed.

Lemma rule_order_NoDup : NoDup rule_order.
Proof. by_computation. Qed.

(** X6. Whatever the table, the function returns between one and seven
    messages and no message twice. *)
Theorem signals_few_and_distinct df :
  ∃ out, generate_trading_signals df = Return out ∧
         (1 ≤ length out ≤ 7)%nat ∧ NoDup out.
Proof.
  destruct (Nat.lt_ge_cases (pd.len df) 2) as [Hlt|Hge].
  { rewrite signals_short by done. eexists. split; [done|]. split; [simpl; lia|].
    apply NoDup_singleton. }
  destruct (first_raise df rule_order) as [Hall|(pre & r & post & e & Hord & Hpre & Hr)].
  - rewrite signals_completes by done. eexists. split; [done|].
    pose proof (appended_by_length df rule_order) as Hlen.
    pose proof (appended_by_NoDup df rule_order rule_order_NoDup) as Hnd.
    destruct (appended_by df rule_order) as [|m l]; simpl in *.
    + split; [lia|apply NoDup_singleton].
    + split; [lia|done].
  - erewrite signals_raises by done. eexists. split; [done|].
    pose proof (appended_by_length df pre) as Hlen.
    assert (length pre < 7)%nat as Hpre7.
    { apply (f_equal length) in Hord. rewrite length_app in Hord. simpl in Hord. lia. }
    rewrite length_app. simpl. split; [lia|].
    apply NoDup_app. split_and!.
    + apply appended_by_NoDup. pose proof rule_order_NoDup as Hnd.
      rewrite Hord in Hnd. by apply NoDup_app in Hnd as [? _].
    + intros m Hm ->%list_elem_of_singleton. by apply (diagnostic_not_appended e df pre).
    + apply NoDup_singleton.
Qed.

(** ** Only the last two rows count *)

Lemma same_last_rows_rule df1 df2 r :
  same_last_rows df1 df2 → rule_body r df1 = rule_body r df2.
Proof.
  intros Hsame. unfold same_last_rows in Hsame. rewrite Forall_forall in Hsame.
  assert (∀ c, c ∈ signal_columns →
            cell df1 c (-1) = cell df2 c (-1) ∧ cell df1 c (-2) = cell df2 c (-2)) as Hcell.
  { intros c Hc. destruct (Hsame c Hc) as [H1 H2]. unfold cell. by rewrite H1, H2. }
  destruct r; simpl;
    repeat match goal with
           | |- context [cell df1 ?c _] =>
               let Ha := fresh in
               let Hb := fresh in
               destruct (Hcell c) as [Ha Hb]; [by_computation|];
               rewrite ?Ha, ?Hb; clear Ha Hb
           end; reflexivity.
Qed.

Lemma same_last_rows_run df1 df2 rs :
  same_last_rows df1 df2 → run_rules rs df1 = run_rules rs df2.
Proof.
  intros Hsame. induction rs as [|r rs IH]; [done|].
  simpl. by rewrite IH, (same_last_rows_rule df1 df2 r).
Qed.

(** X7. The function reads nothing but the last two rows of twelve columns:
    two tables of at least two rows each that agree there, cell for cell and
    error for error, give the same result. *)
Theorem signals_read_last_two_rows df1 df2 :
  (2 ≤ pd.len df1)%nat → (2 ≤ pd.len df2)%nat → same_last_rows df1 df2 →
  generate_trading_signals df1 = generate_trading_signals df2.
Proof.
  intros H1 H2 Hsame. unfold generate_trading_signals.
  destruct (Nat.ltb_spec (pd.len df1) 2); [lia|].
  destruct (Nat.ltb_spec (pd.len df2) 2); [lia|].
  by rewrite (same_last_rows_run df1 df2).
Qed.

Lemma signals_read_last_two_rows_witness :
  generate_trading_signals table_oversold = generate_trading_signals table_oversold_longer.
Proof.
  apply (signals_read_last_two_rows table_oversold table_oversold_longer);
    [vm_compute; lia | vm_compute; lia |].
  repeat (constructor; [split; vm_compute; reflexivity|]). constructor.
Defined.

(** ** Undefined indicators *)

Lemma undefined_at_last_nan df c :
  undefined_at_last df c = true → ∃ x, pd.at_iloc df c (-1) = Return x ∧ is_nan x = true.
Proof.
  unfold undefined_at_last. destruct (pd.at_iloc df c (-1)) as [x|]; [|done]. by exists x.
Qed.

Ltac nan_cell df Hnan c x Hx Hxnan :=
  destruct (undefined_at_last_nan df c) as (x & Hx & Hxnan);
  [rewrite Forall_forall in Hnan; apply Hnan; by_computation|].

Ltac any_cell df Haug Hlen c i x Hx :=
  destruct (augmented_at_iloc df c i Haug Hlen) as [x Hx]; [by_computation | auto |].

Lemma undefined_rule_quiet df r rsi :
  augmented df → (2 ≤ pd.len df)%nat →
  Forall (λ c, undefined_at_last df c = true) unfilled_columns →
  pd.at_iloc df "RSI" (-1) = Return rsi → np.lt rsi 20 = false → np.gt rsi 80 = false →
  appended r df = [].
Proof.
  intros Haug Hlen Hnan Hrsi Hlt Hgt. unfold appended. destruct r.
  - nan_cell df Hnan "MACD" h1 H1 Hn1. any_cell df Haug Hlen "MACD" (-2)%Z h0 H0.
    rewrite (macd_rule_run df h0 h1) by done. simpl.
    rewrite (nan_gt h1 0), (nan_lt h1 0) by auto. reflexivity.
  - nan_cell df Hnan "K" k Hk Hkn. nan_cell df Hnan "D" d Hd Hdn.
    rewrite (kdj_rule_run df k d) by done. simpl.
    rewrite (nan_lt k 20), (nan_gt k 80) by auto. reflexivity.
  - rewrite (rsi_rule_run df rsi) by done. simpl. by rewrite Hlt, Hgt.
  - any_cell df Haug Hlen "close" (-1)%Z c Hc.
    nan_cell df Hnan "BOLL_UP" up Hup Hupn. nan_cell df Hnan "BOLL_LOW" low Hlow Hlown.
    rewrite (boll_rule_run df c up low) by done. simpl.
    rewrite (nan_gt c up), (nan_lt c low) by auto. reflexivity.
  - nan_cell df Hnan "PDI" p1 Hp1 Hp1n. nan_cell df Hnan "MDI" m1 Hm1 Hm1n.
    any_cell df Haug Hlen "PDI" (-2)%Z p0 Hp0. any_cell df Haug Hlen "MDI" (-2)%Z m0 Hm0.
    rewrite (dmi_rule_run df p1 m1 p0 m0) by done. simpl.
    rewrite (nan_gt p1 m1), (nan_lt p1 m1) by auto. reflexivity.
  - nan_cell df Hnan "VR" x Hx Hxn. rewrite (vr_rule_run df x) by done. simpl.
    rewrite (nan_gt x 160), (nan_lt x 40) by auto. reflexivity.
  - nan_cell df Hnan "ROC" r1 Hr1 Hr1n. nan_cell df Hnan "MAROC" a1 Ha1 Ha1n.
    any_cell df Haug Hlen "ROC" (-2)%Z r0 Hr0. any_cell df Haug Hlen "MAROC" (-2)%Z a0 Ha0.
    rewrite (roc_rule_run df r1 a1 r0 a0) by done. simpl.
    rewrite (nan_gt r1 a1), (nan_lt r1 a1) by auto. reflexivity.
Qed.

(** X8. Indicators that are not yet defined raise nothing and fire nothing: on
    an augmented table with at least two rows whose last row holds
    not-a-number in MACD, K, D, the two bands, PDI, MDI, VR, ROC and MAROC, and
    an RSI that is neither below 20 nor above 80 (such as the 50 that the
    assembler stores for an undefined RSI), the result is the sentinel alone. *)
Theorem signals_of_undefined_indicators df rsi :
  augmented df → (2 ≤ pd.len df)%nat →
  Forall (λ c, undefined_at_last df c = true) unfilled_columns →
  pd.at_iloc df "RSI" (-1) = Return rsi → np.lt rsi 20 = false → np.gt rsi 80 = false →
  generate_trading_signals df = Return [no_signal].
Proof.
  intros Haug Hlen Hnan Hrsi Hlt Hgt. rewrite augmented_signals by done.
  unfold appended_by, rule_order. rewrite !bind_cons.
  by rewrite !(undefined_rule_quiet df _ rsi) by done.
Qed.

Lemma signals_of_undefined_indicators_witness :
  generate_trading_signals table_undefined = Return [no_signal].
Proof.
  apply (signals_of_undefined_indicators table_undefined 50);
    [by_computation | vm_compute; lia | by_computation | reflexivity..].
Defined.

(** ** A table without indicators *)

(** X9. A table of at least two rows without the column MACD, such as a raw
    price table, gives the diagnostic for the missing key MACD and nothing
    else: the first block raises and the handler ends the evaluation. *)
Theorem signals_without_indicators df :
  (2 ≤ pd.len df)%nat → pd.columns df !! "MACD" = None →
  generate_trading_signals df = Return [diagnostic (KeyError "MACD")].
Proof.
  intros Hlen Hmacd.
  apply (signals_raises df [] MACD_rule
           [KDJ_rule; RSI_rule; BOLL_rule; DMI_rule; VR_rule; ROC_rule]);
    [done | done | constructor |].
  unfold raises, outcome. run_block. unfold pd.at_iloc, pd.getitem. by rewrite Hmacd.
Qed.

Lemma signals_without_indicators_witness :
  generate_trading_signals table_raw = Return [diagnostic (KeyError "MACD")].
Proof.
  apply (signals_without_indicators table_raw); [vm_compute; lia | reflexivity].
Defined.

(** * Names and fetching *)

(** ** Names of instruments *)

Lemma by_code_absent (l : list (string * string)) (m : gmap string string) code :
  code ∉ l.*2 → foldl (λ m kv, <[kv.2 := kv.1]> m) m l !! code = m !! code.
Proof.
  revert m. induction l as [|[n c] l IH]; intros m Hc; [done|]. simpl in *.
  apply not_elem_of_cons in Hc as [Hne Hc]. rewrite IH by done. by apply lookup_insert_ne.
Qed.

(** X10. The name of a code is the name of its last entry in [stock_names]:
    with the names of the instruments given in any order, a code that occurs
    is mapped back to its name. *)
Theorem get_stock_name_of_listed self name code before after :
  stock_names self = before ++ (name, code) :: after → code ∉ after.*2 →
  get_stock_name self code = name.
Proof.
  intros Hnames Hlast. unfold get_stock_name. rewrite Hnames, foldl_app. simpl.
  rewrite by_code_absent by done. by rewrite lookup_insert_eq.
Qed.

Lemma get_stock_name_of_listed_witness :
  get_stock_name sample_analyzer "sz000001" = "平安银行".
Proof.
  apply (get_stock_name_of_listed sample_analyzer "平安银行" "sz000001"
           [("上证指数", "sh000001")] []); [reflexivity | by_computation].
Defined.

(** X11. A code that no entry of [stock_names] carries is its own name. *)
Theorem get_stock_name_of_unlisted self code :
  code ∉ stock_codes self → get_stock_name self code = code.
Proof.
  intros Hc. unfold get_stock_name, stock_codes in *. by rewrite by_code_absent.
Qed.

Lemma get_stock_name_of_unlisted_witness :
  get_stock_name sample_analyzer "sz002640" = "sz002640".
Proof. apply (get_stock_name_of_unlisted sample_analyzer "sz002640"). by_computation. Defined.

(** ** Fetching *)

Section FetchProperties.

Context (get_price : string → result (option pd.DataFrame)).

Lemma index_getitem_nonempty df :
  pd.empty df = false →
  (∃ t, index_getitem df 0 = Return t) ∧ (∃ t, index_getitem df (-1) = Return t).
Proof.
  unfold pd.empty. intros [Hlen _]%orb_false_elim. apply bool_decide_eq_false in Hlen.
  unfold index_getitem, pd.len in *. split.
  - destruct (pd.index df) as [|t l] eqn:Hidx; [done|]. simpl.
    destruct (Z.ltb_spec 0 (Z.pos (Pos.of_succ_nat (length l)))); [|lia]. by exists t.
  - simpl.
    destruct (Z.leb_spec 0 (Z.of_nat (length (pd.index df)) + -1)); [|lia].
    destruct (Z.ltb_spec (Z.of_nat (length (pd.index df)) + -1)
                (Z.of_nat (length (pd.index df)))); [|lia]. simpl.
    destruct (lookup_lt_is_Some_2 (pd.index df)
                (Z.to_nat (Z.of_nat (length (pd.index df)) + -1))) as [t ->]; [lia|].
    by exists t.
Qed.

Lemma fetch_one_data self code :
  data (fetch_one get_price self code) =
    match usable get_price code with
    | Some df => <[code := df]> (data self)
    | None => data self
    end.
Proof.
  unfold fetch_one, usable. destruct (get_price code) as [[df|]|e]; simpl; try done.
  destruct (pd.empty df) eqn:Hempty; [done|].
  destruct (index_getitem_nonempty df Hempty) as [[t0 ->] [t1 ->]]. done.
Qed.

Lemma fetch_one_names self code :
  stock_names (fetch_one get_price self code) = stock_names self ∧
  llm (fetch_one get_price self code) = llm self.
Proof.
  unfold fetch_one. by destruct (mbind _ _) as [[?|]|].
Qed.

Lemma fetch_codes_names self codes :
  stock_names (foldl (fetch_one get_price) self codes) = stock_names self ∧
  llm (foldl (fetch_one get_price) self codes) = llm self.
Proof.
  revert self. induction codes as [|c codes IH]; intros self; [by split|]. simpl.
  destruct (fetch_one_names self c) as [Hn Hl].
  destruct (IH (fetch_one get_price self c)) as [IHn IHl]. split; congruence.
Qed.

Lemma fetch_codes_data self codes code :
  data (foldl (fetch_one get_price) self codes) !! code =
    if bool_decide (code ∈ codes) then
      match usable get_price code with Some df => Some df | None => data self !! code end
    else data self !! code.
Proof.
  revert self. induction codes as [|c codes IH]; intros self; [done|]. simpl.
  rewrite IH, fetch_one_data.
  destruct (decide (code = c)) as [->|Hne].
  - rewrite (bool_decide_eq_true_2 (c ∈ c :: codes)) by (by left).
    destruct (usable get_price c) as [df|]; [rewrite lookup_insert_eq|]; by case_bool_decide.
  - assert (match usable get_price c with
            | Some df => <[c:=df]> (data self)
            | None => data self
            end !! code = data self !! code) as ->.
    { destruct (usable get_price c); [by apply lookup_insert_ne|done]. }
    case_bool_decide as Hin.
    + by rewrite bool_decide_eq_true_2 by (by right).
    + rewrite bool_decide_eq_false_2; [done|]. by intros [?|?]%elem_of_cons.
Qed.

(** X12. [fetch_data] treats every instrument on its own: afterwards a listed
    code holds the source's answer when that is a non-empty table, and holds
    what it held before when the source raised, answered [None] or answered
    an empty table; the entries of unlisted codes are untouched. *)
Theorem fetch_data_per_instrument self code :
  data (fetch_data get_price self) !! code =
    if bool_decide (code ∈ stock_codes self) then
      match usable get_price code with
      | Some df => Some df
      | None => data self !! code
      end
    else data self !! code.
Proof. apply fetch_codes_data. Qed.

Lemma usable_nonempty code df : usable get_price code = Some df → pd.empty df = false.
Proof.
  unfold usable. destruct (get_price code) as [[df'|]|]; try done.
  destruct (pd.empty df') eqn:He; [done|]. by intros [= <-].
Qed.

(** X13. [fetch_data] stores no empty table: when no stored series is empty
    before, none is afterwards, and each has at least one row; the names and
    the narrative generator are left as they were. *)
Theorem fetch_data_stores_no_empty_series self :
  map_Forall (λ _ df, pd.empty df = false) (data self) →
  map_Forall (λ _ df, pd.empty df = false ∧ pd.len df ≠ 0%nat) (data (fetch_data get_price self)) ∧
  stock_names (fetch_data get_price self) = stock_names self ∧
  llm (fetch_data get_price self) = llm self.
Proof.
  intros Hinv. split.
  - intros code df Hdf. unfold fetch_data in Hdf. rewrite fetch_codes_data in Hdf.
    assert (pd.empty df = false) as Hne.
    { case_bool_decide; [destruct (usable get_price code) as [df'|] eqn:Hu|].
      - injection Hdf as <-. by eapply usable_nonempty.
      - by apply (Hinv code).
      - by apply (Hinv code). }
    split; [done|]. unfold pd.empty in Hne.
    apply orb_false_elim in Hne as [Hlen _]. by apply bool_decide_eq_false in Hlen.
  - apply fetch_codes_names.
Qed.

End FetchProperties.

Lemma fetch_data_stores_no_empty_series_witness :
  map_Forall (λ _ df, pd.empty df = false ∧ pd.len df ≠ 0%nat)
    (data (fetch_data sample_get_price fresh_analyzer)) ∧
  stock_names (fetch_data sample_get_price fresh_analyzer) = stock_names fresh_analyzer ∧
  llm (fetch_data sample_get_price fresh_analyzer) = llm fresh_analyzer.
Proof.
  apply (fetch_data_stores_no_empty_series sample_get_price fresh_analyzer).
  apply map_Forall_empty.
Defined.

Example fetch_data_sample :
  data (fetch_data sample_get_price fresh_analyzer) = {[ "sh000001" := sample_series ]}.
Proof. vm_compute. reflexivity. Qed.

(** * Edges of the assembler *)

Section AssemblerEdges.

Context {ext : Collaborators}.

Lemma compute_indicators_missing_column df c :
  c ∈ ohlcv_columns → pd.columns df !! c = None → ∃ e, compute_indicators df = Raise e.
Proof.
  intros Hc Hnone.
  destruct (compute_indicators df) as [cols|e] eqn:Hrun; [|by eexists].
  apply compute_indicators_inv in Hrun
    as (cl & op & hi & lo & vol & rsi & Hcl & Hop & Hhi & Hlo & Hvol & _).
  unfold pd.getitem in *.
  repeat (apply elem_of_cons in Hc as [->|Hc]); [..|by apply elem_of_nil in Hc];
    by rewrite Hnone in *.
Qed.

(** X14. Without data for the code, or with one of the five price columns
    missing from its series, the assembler returns no table. *)
Theorem calculate_indicators_without_prices self code :
  (data self !! code = None ∨
   ∃ df c, data self !! code = Some df ∧ c ∈ ohlcv_columns ∧ pd.columns df !! c = None) →
  calculate_indicators self code = None.
Proof.
  unfold calculate_indicators, pd.copy. intros [-> | (df & c & -> & Hc & Hnone)]; [done|].
  by destruct (compute_indicators_missing_column df c Hc Hnone) as [e ->].
Qed.

Lemma calculate_indicators_augmented self code df latest :
  data self !! code = Some df → wf_table df → pd.len df ≠ 0%nat →
  calculate_indicators self code = Some latest →
  augmented latest ∧ pd.index latest = pd.index df ∧
  Forall (λ c, ∃ s, pd.columns df !! c = Some s ∧ pd.columns latest !! c = Some s) ohlcv_columns.
Proof.
  intros Hdf Hwf Hlen Hrun.
  destruct (calculate_indicators_columns self code df latest Hdf Hlen Hrun)
    as (cols & Hcols & Hnames & Hidx & Hin & Hout).
  assert (pd.len latest = pd.len df) as Hlen' by (unfold pd.len; by rewrite Hidx).
  assert (∀ c, c ∈ indicator_columns →
            ∃ a, pd.columns latest !! c = Some a ∧ length a = pd.len df) as Hind.
  { intros c Hc. rewrite <- Hnames in Hc.
    apply list_elem_of_fmap in Hc as ([c' a] & -> & Hca). exists a. by apply Hin. }
  assert (Forall (λ c, ∃ s, pd.columns df !! c = Some s ∧ pd.columns latest !! c = Some s)
            ohlcv_columns) as Hohlcv.
  { destruct (compute_indicators_inv _ _ Hcols)
      as (cl & op & hi & lo & vol & rsi & Hc & Ho & Hh & Hl & Hv & _).
    unfold pd.getitem in *.
    repeat constructor; rewrite Hout by by_computation;
      match goal with
      | H : match pd.columns df !! ?c with _ => _ end = _
        |- ∃ s, pd.columns df !! ?c = Some s ∧ _ =>
          destruct (pd.columns df !! c) as [s|]; [by exists s | done]
      end. }
  split_and!; [|done|done]. split.
  - intros c s Hs. rewrite Hlen'.
    destruct (decide (c ∈ indicator_columns)) as [Hc|Hc].
    + destruct (Hind c Hc) as (a & Ha & Hlength). congruence.
    + rewrite Hout in Hs by done. by apply (Hwf c s).
  - apply Forall_app. split.
    + eapply Forall_impl; [exact Hohlcv|]. intros c (s & _ & ->). by eexists.
    + apply Forall_forall. intros c Hc'. destruct (Hind c Hc') as (a & -> & _). by eexists.
Qed.

Lemma insufficient_not_rule_message r : insufficient_data ∉ rule_messages r.
Proof.
  destruct r; simpl; rewrite !elem_of_cons, !elem_of_nil; intros [Heq|[Heq|[]]]; discriminate Heq.
Qed.

(** X15. The signal generator never meets its exception handler on a table
    built by the assembler: for a well-formed stored series of at least two
    rows, the signals of the assembler's table are what the seven rules
    append, or the sentinel; no diagnostic message and no insufficient-data
    message is among them. *)
Theorem signals_of_assembled_table self code df latest :
  data self !! code = Some df → wf_table df → (2 ≤ pd.len df)%nat →
  calculate_indicators self code = Some latest →
  generate_trading_signals latest = Return (or_no_signal (appended_by latest rule_order)) ∧
  (∀ e, diagnostic e ∉ or_no_signal (appended_by latest rule_order)) ∧
  insufficient_data ∉ or_no_signal (appended_by latest rule_order).
Proof.
  intros Hdf Hwf Hlen Hrun.
  destruct (calculate_indicators_augmented self code df latest) as (Haug & Hidx & _);
    [done | done | lia | done |].
  assert (2 ≤ pd.len latest)%nat as Hlen' by (unfold pd.len in *; by rewrite Hidx).
  split; [by apply augmented_signals|]. split.
  - intros e [Hm|[_ Hm]]%elem_of_or_no_signal.
    + by apply (diagnostic_not_appended e latest rule_order).
    + discriminate Hm.
  - intros [Hm|[_ Hm]]%elem_of_or_no_signal.
    + apply elem_of_appended_by in Hm as (r & _ & Hm%appended_messages).
      by apply (insufficient_not_rule_message r).
    + discriminate Hm.
Qed.

End AssemblerEdges.

Lemma calculate_indicators_without_prices_witness :
  calculate_indicators (ext := sample_collaborators) sample_analyzer_no_volume "sh000001" = None.
Proof.
  apply (calculate_indicators_without_prices (ext := sample_collaborators)).
  right. exists (drop_column "volume" sample_series), "volume".
  split_and!; [reflexivity | by_computation | reflexivity].
Defined.

Lemma signals_of_assembled_table_witness :
  generate_trading_signals sample_table =
    Return (or_no_signal (appended_by sample_table rule_order)) ∧
  (∀ e, diagnostic e ∉ or_no_signal (appended_by sample_table rule_order)) ∧
  insufficient_data ∉ or_no_signal (appended_by sample_table rule_order).
Proof.
  apply (signals_of_assembled_table (ext := sample_collaborators)
           sample_analyzer "sh000001" sample_series sample_table);
    [vm_compute; reflexivity | by_computation | vm_compute; lia | vm_compute; reflexivity].
Defined.

(** * The snapshot at its edges *)

(** ** Reading cells of a well-formed table *)

Lemma wf_at_iloc df c s i :
  wf_table df → pd.columns df !! c = Some s → (- Z.of_nat (pd.len df) ≤ i < 0)%Z →
  ∃ v, pd.at_iloc df c i = Return v.
Proof.
  intros Hwf Hs Hi. unfold pd.at_iloc, pd.getitem. rewrite Hs. simpl.
  destruct (iloc_negative s i) as (v & _ & ->); [|by exists v].
  by rewrite (Hwf c s Hs).
Qed.

Lemma wf_at_iloc_too_short df c s i :
  wf_table df → pd.columns df !! c = Some s → (i < - Z.of_nat (pd.len df))%Z →
  pd.at_iloc df c i = Raise (IndexError "single positional indexer is out-of-bounds").
Proof.
  intros Hwf Hs Hi. unfold pd.at_iloc, pd.getitem. rewrite Hs. simpl.
  unfold pd.iloc. rewrite (Hwf c s Hs).
  destruct (Z.ltb_spec i 0); [|lia].
  by destruct (Z.leb_spec 0 (Z.of_nat (pd.len df) + i)); [lia|].
Qed.

(** ** Conversion to an integer *)

Lemma SF_nan_is_nan x : Prim2SF x = S754_nan → is_nan x = true.
Proof. intros Hx. unfold is_nan. by rewrite FloatAxioms.eqb_spec, Hx. Qed.

Lemma int_of_nan x :
  is_nan x = true → int x = Raise (ValueError "cannot convert float NaN to integer").
Proof. intros Hx%is_nan_SF. unfold int. by rewrite Hx. Qed.

Lemma int_of_finite x : is_finite x = true → ∃ n, int x = Return n.
Proof.
  unfold is_finite, is_infinity, int. intros Hfin.
  destruct (Prim2SF x) as [s|s| |s m e] eqn:Hx; [by eexists| | |by eexists].
  - rewrite FloatAxioms.eqb_spec, FloatAxioms.abs_spec, Hx in Hfin.
    change (Prim2SF infinity) with (S754_infinity false) in Hfin. simpl in Hfin.
    by rewrite orb_true_r in Hfin.
  - by rewrite (SF_nan_is_nan x Hx) in Hfin.
Qed.

(** ** The snapshot *)

Section Snapshot.

Context {ext : Collaborators}.

Lemma family_returns df entries :
  Forall (λ lc, ∃ v, pd.at_iloc df lc.2 (-1) = Return v) entries →
  ∃ d, family df entries = Return d ∧ d.*1 = entries.*1.
Proof.
  induction entries as [|[label c] entries IH]; intros Hall; [by eexists|].
  apply Forall_cons in Hall as [[v Hv] Hall]. destruct (IH Hall) as (d & Hd & Hkeys).
  simpl in *. unfold latest_2f. rewrite Hv. simpl. rewrite Hd. simpl.
  eexists. split; [done|]. rewrite !fmap_cons. simpl. by f_equal.
Qed.

Lemma families_returns df fs :
  Forall (λ f, Forall (λ lc, ∃ v, pd.at_iloc df lc.2 (-1) = Return v) f.2) fs →
  ∃ d, families df fs = Return d ∧ layout d = (λ f, (f.1, f.2.*1)) <$> fs.
Proof.
  induction fs as [|[name entries] fs IH]; intros Hall; [by eexists|].
  apply Forall_cons in Hall as [Hentries Hall]. destruct (IH Hall) as (d & Hd & Hlayout).
  destruct (family_returns df entries Hentries) as (d0 & Hd0 & Hkeys).
  simpl in *. rewrite Hd0. simpl. rewrite Hd. simpl.
  eexists. split; [done|]. unfold layout in *. rewrite !fmap_cons. simpl. by f_equal; [f_equal|].
Qed.

Lemma augmented_families df :
  augmented df → (2 ≤ pd.len df)%nat →
  ∃ d, families df indicator_families = Return d ∧
       layout d = (λ f, (f.1, f.2.*1)) <$> indicator_families.
Proof.
  intros Haug Hlen. apply families_returns.
  assert (Forall (λ f : string * list (string * string),
                    Forall (λ lc, lc.2 ∈ ohlcv_columns ++ indicator_columns) f.2)
            indicator_families) as Hcols by by_computation.
  eapply Forall_impl; [exact Hcols|]. intros f Hf.
  eapply Forall_impl; [exact Hf|]. intros lc Hlc. simpl in *.
  apply augmented_at_iloc; auto.
Qed.

Lemma nonempty_series df s :
  pd.len df ≠ 0%nat → pd.columns df !! "close" = Some s → pd.empty df = false.
Proof.
  intros Hlen Hs. unfold pd.empty. rewrite bool_decide_eq_false_2 by done. simpl.
  apply bool_decide_eq_false_2. intros Hempty. by rewrite Hempty, lookup_empty in Hs.
Qed.

(** What the assembler's success tells about the stored series. *)
Lemma assembled_series self code df latest :
  data self !! code = Some df → wf_table df → pd.len df ≠ 0%nat →
  calculate_indicators self code = Some latest →
  augmented latest ∧ pd.len latest = pd.len df ∧ pd.empty df = false ∧
  Forall (λ c, ∀ i, (- Z.of_nat (pd.len df) ≤ i < 0)%Z → ∃ v, pd.at_iloc df c i = Return v)
    ohlcv_columns ∧
  Forall (λ c, ∀ i, (i < - Z.of_nat (pd.len df))%Z →
                pd.at_iloc df c i =
                  Raise (IndexError "single positional indexer is out-of-bounds"))
    ohlcv_columns.
Proof.
  intros Hdf Hwf Hlen Hrun.
  destruct (calculate_indicators_augmented self code df latest Hdf Hwf Hlen Hrun)
    as (Haug & Hidx & Hohlcv).
  split_and!; [done| unfold pd.len; by rewrite Hidx | | |].
  - rewrite Forall_forall in Hohlcv.
    destruct (Hohlcv "close") as (s & Hs & _); [by_computation|]. by eapply nonempty_series.
  - eapply Forall_impl; [exact Hohlcv|]. intros c (s & Hs & _) i Hi. by eapply wf_at_iloc.
  - eapply Forall_impl; [exact Hohlcv|]. intros c (s & Hs & _) i Hi.
    by eapply wf_at_iloc_too_short.
Qed.

Ltac price_cell Hcells c i v Hv :=
  let H := fresh in
  pose proof Hcells as H; rewrite Forall_forall in H;
  destruct (H c ltac:(by_computation) i ltac:(lia)) as [v Hv]; clear H.

(** X16. A complete snapshot.  For a well-formed stored series of at least two
    rows whose last volume is finite, when the assembler succeeds and no
    narrative generator is configured, every read and conversion succeeds: the
    snapshot has the six basic entries, the six indicator families with their
    26 labels, and as advice the signals of the assembler's table. *)
Theorem generate_analysis_data_complete self code df latest volume :
  data self !! code = Some df → wf_table df → (2 ≤ pd.len df)%nat →
  calculate_indicators self code = Some latest → llm self = None →
  pd.at_iloc df "volume" (-1) = Return volume → is_finite volume = true →
  ∃ basic indicators signals,
    generate_analysis_data self code =
      Return [("基础数据", PDict basic); ("技术指标", PDict indicators);
              ("技术分析建议", PList (PStr <$> signals))] ∧
    basic.*1 = ["股票代码"; "最新收盘价"; "涨跌幅"; "最高价"; "最低价"; "成交量"] ∧
    layout indicators = (λ f, (f.1, f.2.*1)) <$> indicator_families ∧
    generate_trading_signals latest = Return signals.
Proof.
  intros Hdf Hwf Hlen Hrun Hllm Hvol Hfin.
  destruct (assembled_series self code df latest) as (Haug & Hlen' & Hempty & Hcells & _);
    [done | done | lia | done |].
  price_cell Hcells "close" (-1)%Z c1 Hc1. price_cell Hcells "close" (-2)%Z c2 Hc2.
  price_cell Hcells "high" (-1)%Z h Hh. price_cell Hcells "low" (-1)%Z l Hl.
  destruct (int_of_finite volume Hfin) as [n Hn].
  destruct (augmented_families latest) as (inds & Hinds & Hlayout); [done|lia|].
  assert (generate_trading_signals latest =
            Return (or_no_signal (appended_by latest rule_order))) as Hsig
    by (apply augmented_signals; [done|lia]).
  eexists _, inds, _. split.
  { unfold generate_analysis_data. rewrite Hdf, Hempty, Hrun.
    unfold build_analysis_data, add_ai_analysis.
    rewrite Hc1, Hc2, Hh, Hl, Hvol. cbn [mbind result_bind].
    rewrite Hn. cbn [mbind result_bind]. rewrite Hinds. cbn [mbind result_bind].
    rewrite Hsig. cbn [mbind result_bind mret result_ret]. by rewrite Hllm. }
  split_and!; [reflexivity | done | exact Hsig].
Qed.

(** X17. A stored series of a single row never reaches the signal generator:
    when the assembler succeeds on it, reading the close of the day before
    raises, and the snapshot is the placeholder reporting that positional
    index error. *)
Theorem generate_analysis_data_one_row self code df latest :
  data self !! code = Some df → wf_table df → pd.len df = 1%nat →
  calculate_indicators self code = Some latest →
  generate_analysis_data self code =
    Return (analysis_error self code
              (IndexError "single positional indexer is out-of-bounds")).
Proof.
  intros Hdf Hwf Hlen Hrun.
  destruct (assembled_series self code df latest) as (_ & _ & Hempty & Hcells & Hshort);
    [done | done | lia | done |].
  price_cell Hcells "close" (-1)%Z c1 Hc1.
  rewrite Forall_forall in Hshort.
  pose proof (Hshort "close" ltac:(by_computation) (-2)%Z ltac:(lia)) as Hc2.
  unfold generate_analysis_data. rewrite Hdf, Hempty, Hrun.
  unfold build_analysis_data. rewrite Hc1, Hc2. reflexivity.
Qed.

(** X18. A last volume that is not-a-number costs the whole snapshot: for a
    well-formed stored series of at least two rows, although the assembler
    succeeds, the conversion of the volume to an integer raises and the
    snapshot is the placeholder reporting it. *)
Theorem generate_analysis_data_nan_volume self code df latest volume :
  data self !! code = Some df → wf_table df → (2 ≤ pd.len df)%nat →
  calculate_indicators self code = Some latest →
  pd.at_iloc df "volume" (-1) = Return volume → is_nan volume = true →
  generate_analysis_data self code =
    Return (analysis_error self code (ValueError "cannot convert float NaN to integer")).
Proof.
  intros Hdf Hwf Hlen Hrun Hvol Hnan.
  destruct (assembled_series self code df latest) as (_ & _ & Hempty & Hcells & _);
    [done | done | lia | done |].
  price_cell Hcells "close" (-1)%Z c1 Hc1. price_cell Hcells "close" (-2)%Z c2 Hc2.
  price_cell Hcells "high" (-1)%Z h Hh. price_cell Hcells "low" (-1)%Z l Hl.
  unfold generate_analysis_data. rewrite Hdf, Hempty, Hrun.
  unfold build_analysis_data. rewrite Hc1, Hc2, Hh, Hl, Hvol. cbn [mbind result_bind].
  rewrite (int_of_nan volume Hnan). reflexivity.
Qed.

End Snapshot.

Lemma generate_analysis_data_complete_witness :
  ∃ basic indicators signals,
    generate_analysis_data (ext := sample_collaborators) sample_analyzer "sh000001" =
      Return [("基础数据", PDict basic); ("技术指标", PDict indicators);
              ("技术分析建议", PList (PStr <$> signals))] ∧
    basic.*1 = ["股票代码"; "最新收盘价"; "涨跌幅"; "最高价"; "最低价"; "成交量"] ∧
    layout indicators = (λ f, (f.1, f.2.*1)) <$> indicator_families ∧
    generate_trading_signals sample_table = Return signals.
Proof.
  apply (generate_analysis_data_complete (ext := sample_collaborators)
           sample_analyzer "sh000001" sample_series sample_table 1000);
    [vm_compute; reflexivity | by_computation | vm_compute; lia | vm_compute; reflexivity
    | reflexivity | vm_compute; reflexivity | reflexivity].
Defined.

Lemma generate_analysis_data_one_row_witness :
  generate_analysis_data (ext := sample_collaborators) sample_analyzer_edges "sz000001" =
    Return (analysis_error sample_analyzer_edges "sz000001"
              (IndexError "single positional indexer is out-of-bounds")).
Proof.
  apply (generate_analysis_data_one_row (ext := sample_collaborators)
           sample_analyzer_edges "sz000001" sample_series_one_row sample_table_one_row);
    [vm_compute; reflexivity | by_computation | reflexivity | vm_compute; reflexivity].
Defined.

Lemma generate_analysis_data_nan_volume_witness :
  generate_analysis_data (ext := sample_collaborators) sample_analyzer_edges "sz002640" =
    Return (analysis_error sample_analyzer_edges "sz002640"
              (ValueError "cannot convert float NaN to integer")).
Proof.
  apply (generate_analysis_data_nan_volume (ext := sample_collaborators)
           sample_analyzer_edges "sz002640" sample_series_nan_volume
           sample_table_nan_volume nan);
    [vm_compute; reflexivity | by_computation | vm_compute; lia | vm_compute; reflexivity
    | vm_compute; reflexivity | reflexivity].
Defined.

(** * Keys of the snapshot and the entries of the report *)

(** ** Keys of the snapshot *)

Lemma dict_set_keys d k v : ∃ extra, (dict_set d k v).*1 = d.*1 ++ extra.
Proof.
  induction d as [|[k' v'] d [extra IH]]; simpl.
  - by exists [k].
  - case_bool_decide as Hk.
    + exists []. simpl. by rewrite app_nil_r, Hk.
    + exists extra. rewrite !fmap_cons. simpl. by rewrite IH.
Qed.

Lemma dict_update_keys d other : ∃ extra, (dict_update d other).*1 = d.*1 ++ extra.
Proof.
  unfold dict_update. revert d. induction other as [|[k v] other IH]; intros d; simpl.
  - exists []. by rewrite app_nil_r.
  - destruct (IH (dict_set d k v)) as [extra Hextra].
    destruct (dict_set_keys d k v) as [extra' Hextra'].
    exists (extra' ++ extra). by rewrite Hextra, Hextra', app_assoc.
Qed.

Section Keys.

Context {ext : Collaborators}.

Ltac next_bind H :=
  match type of H with
  | mbind _ ?c = Return _ =>
      destruct c; [cbn [mbind result_bind] in H | discriminate H]
  | (let _ := _ in _) = Return _ => cbv zeta in H
  end.

Lemma build_analysis_data_keys code df latest analysis_data :
  build_analysis_data code df latest = Return analysis_data →
  analysis_data.*1 = snapshot_keys.
Proof.
  unfold build_analysis_data. intros H. repeat next_bind H. by injection H as <-.
Qed.

(** X19. [generate_analysis_data] raises nothing, and its snapshot always
    begins with the three entries that the report generators index by key;
    without a narrative generator these are its only entries. *)
Theorem generate_analysis_data_keys self code :
  ∃ d, generate_analysis_data self code = Return d ∧
       take 3 d.*1 = snapshot_keys ∧
       (llm self = None → d.*1 = snapshot_keys).
Proof.
  unfold generate_analysis_data.
  destruct (data self !! code) as [df|]; [|by eexists].
  destruct (pd.empty df); [by eexists|].
  destruct (calculate_indicators self code) as [latest|]; [|by eexists].
  destruct (build_analysis_data code df latest) as [a|e] eqn:Hbuild; [|by eexists].
  cbn [mbind result_bind mret result_ret]. eexists. split; [done|].
  pose proof (build_analysis_data_keys _ _ _ _ Hbuild) as Hkeys.
  unfold add_ai_analysis. split.
  - destruct (llm self) as [analyzer|]; [|by rewrite Hkeys].
    destruct (request_analysis analyzer df latest) as [[[|kv api]|]|]; try by rewrite Hkeys.
    destruct (dict_update_keys a (kv :: api)) as [extra ->]. by rewrite Hkeys.
  - by intros ->.
Qed.

(** ** A narrative generator that gives nothing *)

Lemma calculate_indicators_without_llm self code :
  calculate_indicators (without_llm self) code = calculate_indicators self code.
Proof. done. Qed.

(** X20. A narrative generator that raises, answers [None] or answers an empty
    dictionary changes nothing: the snapshot is the one built without any
    narrative generator. *)
Theorem generate_analysis_data_silent_llm self analyzer code :
  llm self = Some analyzer →
  (∀ df latest, data self !! code = Some df → calculate_indicators self code = Some latest →
                silent (request_analysis analyzer df latest) = true) →
  generate_analysis_data self code = generate_analysis_data (without_llm self) code.
Proof.
  intros Hllm Hsilent. unfold generate_analysis_data.
  rewrite calculate_indicators_without_llm.
  change (data (without_llm self)) with (data self).
  change (get_stock_name (without_llm self) code) with (get_stock_name self code).
  destruct (data self !! code) as [df|] eqn:Hdf; [|done].
  destruct (pd.empty df); [done|].
  destruct (calculate_indicators self code) as [latest|] eqn:Hrun; [|done].
  destruct (build_analysis_data code df latest) as [a|e]; [|done].
  cbn [mbind result_bind mret result_ret]. unfold add_ai_analysis. rewrite Hllm. simpl.
  specialize (Hsilent df latest eq_refl eq_refl).
  by destruct (request_analysis analyzer df latest) as [[[|kv api]|]|].
Qed.

End Keys.

Lemma generate_analysis_data_silent_llm_witness :
  generate_analysis_data (ext := sample_collaborators) sample_analyzer_edges "sh000001" =
  generate_analysis_data (ext := sample_collaborators)
    (without_llm sample_analyzer_edges) "sh000001".
Proof.
  apply (generate_analysis_data_silent_llm (ext := sample_collaborators)
           sample_analyzer_edges failing_llm "sh000001"); [reflexivity|].
  intros df latest _ _. reflexivity.
Defined.

(** * Colouring of table values *)

Example percent_char : String percent EmptyString = "%".
Proof. reflexivity. Qed.

Lemma list_ascii_of_string_app s1 s2 :
  String.list_ascii_of_string (s1 +:+ s2) =
    String.list_ascii_of_string s1 ++ String.list_ascii_of_string s2.
Proof. induction s1 as [|a s1 IH]; [done|]. simpl. by rewrite IH. Qed.

Lemma lstrip_chars_none c l : Forall (λ a, Ascii.eqb a c = false) l → lstrip_chars c l = l.
Proof. destruct 1 as [|a l Ha _]; [done|]. simpl. by rewrite Ha. Qed.

Lemma contains_false c s :
  contains c s = false → Forall (λ a, Ascii.eqb a c = false) (String.list_ascii_of_string s).
Proof.
  unfold contains. intros Hnone. apply Forall_forall. intros a Ha%list_elem_of_In.
  destruct (Ascii.eqb a c) eqn:Heq; [|done].
  apply Ascii.eqb_eq in Heq as ->.
  assert (existsb (Ascii.eqb c) (String.list_ascii_of_string s) = true) as Hex; [|congruence].
  apply existsb_exists. exists c. split; [done|apply Ascii.eqb_refl].
Qed.

(** A text without [c], followed by [c], is given back by [strip]. *)
Lemma strip_trailing c s :
  contains c s = false →
  strip c (s +:+ String c EmptyString) = s ∧ contains c (s +:+ String c EmptyString) = true.
Proof.
  intros Hall%contains_false. unfold contains, strip.
  rewrite list_ascii_of_string_app. simpl. split.
  - rewrite <- (String.string_of_list_ascii_of_string s) at 2. f_equal.
    destruct (String.list_ascii_of_string s) as [|a l] eqn:Hl.
    + simpl. by rewrite Ascii.eqb_refl.
    + inversion Hall as [|? ? Ha Hl']; subst.
      change ((a :: l) ++ [c]) with (a :: (l ++ [c])).
      cbn [lstrip_chars]. rewrite Ha.
      change (a :: (l ++ [c])) with ((a :: l) ++ [c]).
      rewrite rev_app_distr. simpl rev at 1. cbn [app lstrip_chars].
      rewrite Ascii.eqb_refl. change (rev l ++ [a]) with (rev (a :: l)).
      rewrite lstrip_chars_none, rev_involutive; [done|].
      apply Forall_forall. intros x Hx%list_elem_of_In%in_rev%list_elem_of_In.
      rewrite Forall_forall in Hall. by apply Hall.
  - rewrite existsb_app. simpl. by rewrite Ascii.eqb_refl, orb_true_r.
Qed.

Section ValueClassProperties.

Context (py_float : string → result float).

(** X22. A percentage is coloured by the sign of the number read back from
    its text: for a text without a percent sign followed by one, the class is
    positive, negative or neutral as [float] of the text is above, below or
    neither above nor below zero, and neutral when [float] rejects the text
    with a [ValueError]; a string without a percent sign is always neutral,
    whatever number it spells. *)
Theorem get_value_class_of_percentage s :
  contains percent s = false →
  _get_value_class py_float (VStr s) = Return "neutral" ∧
  (∀ x, py_float s = Return x →
        _get_value_class py_float (VStr (s +:+ "%")) =
          Return (if np.gt x 0 then "positive"
                  else if np.lt x 0 then "negative" else "neutral")) ∧
  (∀ msg, py_float s = Raise (ValueError msg) →
          _get_value_class py_float (VStr (s +:+ "%")) = Return "neutral").
Proof.
  intros Hs. destruct (strip_trailing percent s Hs) as [Hstrip Hin].
  change (String percent EmptyString) with "%" in *.
  unfold _get_value_class. split_and!.
  - by rewrite Hs.
  - intros x Hx. by rewrite Hin, Hstrip, Hx.
  - intros msg Hraise. by rewrite Hin, Hstrip, Hraise.
Qed.

End ValueClassProperties.

Lemma get_value_class_of_percentage_witness :
  _get_value_class sample_py_float (VStr "-1.25") = Return "neutral" ∧
  (∀ x, sample_py_float "-1.25" = Return x →
        _get_value_class sample_py_float (VStr ("-1.25" +:+ "%")) =
          Return (if np.gt x 0 then "positive"
                  else if np.lt x 0 then "negative" else "neutral")) ∧
  (∀ msg, sample_py_float "-1.25" = Raise (ValueError msg) →
          _get_value_class sample_py_float (VStr ("-1.25" +:+ "%")) = Return "neutral").
Proof.
  apply (get_value_class_of_percentage sample_py_float "-1.25"). reflexivity.
Defined.

Example get_value_class_samples :
  _get_value_class sample_py_float (VStr "-1.25%") = Return "negative" ∧
  _get_value_class sample_py_float (VStr "0.00%") = Return "neutral" ∧
  _get_value_class sample_py_float (VStr "n/a%") = Return "neutral" ∧
  _get_value_class sample_py_float (VStr "%-1.25%%") = Return "negative" ∧
  _get_value_class sample_py_float (VFloat 3) = Return "positive" ∧
  _get_value_class sample_py_float (VFloat nan) = Return "neutral" ∧
  _get_value_class sample_py_float VNone = Return "neutral".
Proof. repeat split; reflexivity. Qed.

(** ** The entry point without data *)

Section RunProperties.

Context (get_price : string → result (option pd.DataFrame)).
Context (generate_html_report : StockAnalyzer → result string).
Context (make_output_dir : string → result unit).
Context (write_report : string → string → result unit).

Lemma fetch_one_unusable self code :
  usable get_price code = None → fetch_one get_price self code = self.
Proof.
  unfold usable, fetch_one. destruct (get_price code) as [[df|]|e]; simpl; try done.
  by destruct (pd.empty df).
Qed.

Lemma fetch_codes_unusable self codes :
  Forall (λ code, usable get_price code = None) codes →
  foldl (fetch_one get_price) self codes = self.
Proof.
  induction 1 as [|code codes Hcode _ IH]; [done|]. simpl. by rewrite fetch_one_unusable.
Qed.

(** X23. When the source gives no usable answer for any listed instrument (it
    raises, answers [None] or answers an empty table each time), [run_analysis]
    on an analyzer without data returns [None] and leaves the analyzer as it
    was, whatever the report generator and the file system would do. *)
Theorem run_analysis_without_usable_data self output_path :
  data self = ∅ → Forall (λ code, usable get_price code = None) (stock_codes self) →
  run_analysis get_price generate_html_report make_output_dir write_report self output_path =
    (self, Return None).
Proof.
  intros Hfresh Hnone. unfold run_analysis, fetch_data.
  rewrite fetch_codes_unusable by done. by rewrite Hfresh, bool_decide_eq_true_2.
Qed.

End RunProperties.

Lemma run_analysis_without_usable_data_witness :
  run_analysis unreachable_get_price (λ _, Return "<html></html>") (λ _, Return tt)
    (λ _ _, Return tt) fresh_analyzer "public/index.html" = (fresh_analyzer, Return None).
Proof.
  apply (run_analysis_without_usable_data unreachable_get_price (λ _, Return "<html></html>")
           (λ _, Return tt) (λ _ _, Return tt) fresh_analyzer "public/index.html");
    [reflexivity | by repeat constructor].
Defined.

(** * The loop of the report *)

(** ** Reading a dictionary after a merge *)

Lemma dict_get_cons k0 v0 d k :
  dict_get ((k0, v0) :: d) k = if decide (k0 = k) then Some v0 else dict_get d k.
Proof.
  unfold dict_get. cbn. case_decide; [done|].
  by destruct (list_find _ d) as [[i kv]|].
Qed.

Lemma dict_get_set d k' v' k :
  dict_get (dict_set d k' v') k = if decide (k' = k) then Some v' else dict_get d k.
Proof.
  induction d as [|[k0 v0] d IH]; [by rewrite <- dict_get_cons|].
  cbn [dict_set]. case_bool_decide as Hk0.
  - subst k0. rewrite !dict_get_cons. by case_decide.
  - rewrite !dict_get_cons, IH. repeat case_decide; congruence.
Qed.

Lemma dict_get_update_ne d api k :
  k ∉ api.*1 → dict_get (dict_update d api) k = dict_get d k.
Proof.
  unfold dict_update. revert d. induction api as [|[k' v'] api IH]; intros d Hk; [done|].
  rewrite fmap_cons in Hk. apply not_elem_of_cons in Hk as [Hne Hk]. simpl in *.
  rewrite IH, dict_get_set by done. by case_decide.
Qed.

Lemma dict_get_update_inv d api k v :
  dict_get (dict_update d api) k = Some v → dict_get d k = Some v ∨ (k, v) ∈ api.
Proof.
  unfold dict_update. revert d. induction api as [|[k' v'] api IH]; intros d Hv; [by left|].
  simpl in Hv. apply IH in Hv as [Hv|Hv]; [|right; by right].
  rewrite dict_get_set in Hv. case_decide as Hk; [|by left].
  injection Hv as <-. subst k'. right. by left.
Qed.

(** ** Snapshots that the templates can read *)

Section Entries.

Context {ext : Collaborators}.
Context (py_float : string → result float).

Lemma get_value_class_returns value :
  raises_only_value_error py_float → ∃ class, _get_value_class py_float value = Return class.
Proof.
  intros Hfloat. unfold _get_value_class. destruct value as [s|n|x|]; simpl; try by eexists.
  destruct (contains percent s); [|by eexists].
  destruct (py_float (strip percent s)) as [x|e] eqn:Hx; simpl; [by eexists|].
  rewrite (Hfloat _ _ Hx). by eexists.
Qed.

Lemma table_rows_returns d :
  raises_only_value_error py_float →
  ∃ rows, table_rows py_float d = Return rows ∧ shown rows = d.
Proof.
  intros Hfloat. induction d as [|[k v] d (rows & Hrows & Hshown)]; [by exists []|].
  simpl. unfold _generate_table_row.
  assert (∃ class, match v with
                   | PStr s => _get_value_class py_float (VStr s)
                   | _ => Return "neutral"
                   end = Return class) as [class ->].
  { destruct v; [by apply get_value_class_returns|by eexists..]. }
  simpl. rewrite Hrows. simpl. eexists. split; [done|].
  unfold shown in *. rewrite fmap_cons. simpl. by rewrite Hshown.
Qed.

Lemma indicator_sections_returns sections :
  raises_only_value_error py_float →
  Forall (λ kv, ∃ rows, kv.2 = PDict rows) sections →
  ∃ rendered, indicator_sections py_float sections = Return rendered ∧
              rendered.*1 = sections.*1.
Proof.
  intros Hfloat.
  induction 1 as [|[name v] sections [d Hd] _ (rendered & Hrun & Hnames)]; [by exists []|].
  simpl in *. subst v. simpl.
  destruct (table_rows_returns d Hfloat) as (rows & -> & _). simpl. rewrite Hrun. simpl.
  eexists. split; [done|]. rewrite !fmap_cons. simpl. by rewrite Hnames.
Qed.

Lemma render_stock_returns code stock_name analysis_data chart_base64 :
  raises_only_value_error py_float → renderable analysis_data →
  ∃ basic_data sections signals ai_analysis,
    render_stock py_float code stock_name analysis_data chart_base64 =
      Return (Analysed code stock_name basic_data sections signals ai_analysis chart_base64) ∧
    dict_get analysis_data "基础数据" = Some (PDict (shown basic_data)) ∧
    dict_get analysis_data "技术分析建议" = Some signals.
Proof.
  intros Hfloat ([basic Hbasic] & (indicators & Hind & Hdicts) & [signals Hsignals] & Hai).
  unfold render_stock, dict_getitem. rewrite Hbasic, Hind, Hsignals. simpl.
  destruct (table_rows_returns basic Hfloat) as (rows & -> & Hshown). simpl.
  destruct (indicator_sections_returns indicators Hfloat Hdicts) as (rendered & -> & _). simpl.
  destruct (dict_get analysis_data "AI分析结果") as [v|] eqn:Hv.
  - destruct (Hai v eq_refl) as [sections ->]. simpl.
    eexists _, _, _, _. split_and!; [done| by rewrite Hshown | done].
  - simpl. eexists _, _, _, _. split_and!; [done| by rewrite Hshown | done].
Qed.

Lemma failure_snapshot_renderable basic advice : renderable (failure_snapshot basic advice).
Proof.
  unfold renderable, failure_snapshot. split_and!.
  - by eexists.
  - eexists. split; [reflexivity|constructor].
  - by eexists.
  - intros v Hv. discriminate Hv.
Qed.

Lemma families_dicts df fs d :
  families df fs = Return d → Forall (λ kv, ∃ rows, kv.2 = PDict rows) d.
Proof.
  revert d. induction fs as [|[name entries] fs IH]; intros d Hd.
  - injection Hd as <-. constructor.
  - simpl in Hd. destruct (family df entries) as [d0|]; [|done]. simpl in Hd.
    destruct (families df fs) as [rest|]; [|done]. simpl in Hd. injection Hd as <-.
    constructor; [by eexists|by apply IH].
Qed.

Ltac next_read H :=
  match type of H with
  | mbind _ ?c = Return _ =>
      let Heq := fresh "Hread" in
      destruct c eqn:Heq; [cbn [mbind result_bind] in H | discriminate H]
  | (let _ := _ in _) = Return _ => cbv zeta in H
  end.

Lemma build_analysis_data_renderable code df latest analysis_data :
  build_analysis_data code df latest = Return analysis_data →
  renderable analysis_data ∧ analysis_data.*1 = snapshot_keys.
Proof.
  unfold build_analysis_data. intros H. repeat next_read H. injection H as <-.
  split; [|done]. unfold renderable. split_and!.
  - by eexists.
  - eexists. split; [reflexivity|]. by eapply families_dicts.
  - by eexists.
  - intros v Hv. discriminate Hv.
Qed.

Lemma merged_renderable d api_result :
  renderable d → d.*1 = snapshot_keys → keeps_layout api_result →
  renderable (dict_update d api_result).
Proof.
  intros ([basic Hbasic] & (indicators & Hind & Hdicts) & [signals Hsignals] & Hai) Hkeys Hkeep.
  assert (∀ k, k ∈ snapshot_keys → k ∉ api_result.*1) as Hfresh.
  { intros k Hk ([k' v] & -> & Hin)%list_elem_of_fmap.
    unfold keeps_layout in Hkeep. rewrite Forall_forall in Hkeep.
    by destruct (Hkeep _ Hin) as [Hnot _]. }
  unfold renderable. rewrite !dict_get_update_ne by (apply Hfresh; by_computation).
  split_and!; [by eexists | by eexists | by eexists |].
  intros v [Hv|Hv]%dict_get_update_inv; [by apply Hai|].
  unfold keeps_layout in Hkeep. rewrite Forall_forall in Hkeep.
  destruct (Hkeep _ Hv) as [_ Hdict]. by apply Hdict.
Qed.

Lemma generate_analysis_data_renderable self code analysis_data :
  narrative_keeps_layout self →
  generate_analysis_data self code = Return analysis_data → renderable analysis_data.
Proof.
  intros Hllm. unfold generate_analysis_data.
  destruct (data self !! code) as [df|];
    [|intros [= <-]; apply failure_snapshot_renderable].
  destruct (pd.empty df); [intros [= <-]; apply failure_snapshot_renderable|].
  destruct (calculate_indicators self code) as [latest|];
    [|intros [= <-]; apply failure_snapshot_renderable].
  destruct (build_analysis_data code df latest) as [a|e] eqn:Hbuild;
    [|intros [= <-]; apply failure_snapshot_renderable].
  cbn [mbind result_bind mret result_ret]. intros [= <-].
  destruct (build_analysis_data_renderable _ _ _ _ Hbuild) as [Hrender Hkeys].
  unfold add_ai_analysis. destruct (llm self) as [analyzer|] eqn:Hanalyzer; [|done].
  destruct (request_analysis analyzer df latest) as [[[|kv api]|]|] eqn:Hanswer; try done.
  apply merged_renderable; [done|done|]. by eapply Hllm.
Qed.

(** ** The loop over the instruments *)

Lemma stock_contents_app self l1 l2 :
  stock_contents py_float self (l1 ++ l2) =
    (s1 ← stock_contents py_float self l1; s2 ← stock_contents py_float self l2;
     mret (s1 ++ s2)).
Proof.
  induction l1 as [|code l1 IH]; simpl.
  - by destruct (stock_contents py_float self l2).
  - destruct (if bool_decide _ then _ else _) as [content|]; [|done]. simpl.
    rewrite IH. destruct (stock_contents py_float self l1) as [s1|]; [|done]. simpl.
    by destruct (stock_contents py_float self l2).
Qed.

(** With a narrative generator that keeps the layout, the loop raises nothing
    and gives every code its entry, in order. *)
Lemma stock_contents_entries self codes :
  raises_only_value_error py_float → narrative_keeps_layout self →
  ∃ contents, stock_contents py_float self codes = Return contents ∧
              Forall2 (content_of py_float self) codes contents.
Proof.
  intros Hfloat Hllm. induction codes as [|code codes (contents & Hrun & Hall)]; [by eexists|].
  simpl. rewrite Hrun. case_bool_decide as Hdata.
  - destruct Hdata as [df Hdf].
    destruct (generate_analysis_data_returns self code) as [d Hd]. rewrite Hd. simpl.
    destruct (render_stock_returns code (get_stock_name self code) d (plot_analysis self code))
      as (basic_data & sections & signals & ai & Hrender & _ & Hsignals);
      [done | by eapply generate_analysis_data_renderable|].
    rewrite Hrender. simpl. eexists. split; [done|]. constructor; [|done].
    unfold content_of. rewrite Hdf. by exists d, basic_data, sections, signals, ai.
  - apply eq_None_not_Some in Hdata. simpl.
    eexists. split; [done|]. constructor; [|done]. unfold content_of. by rewrite Hdata.
Qed.

(** X21. Fetching and reporting compose instrument by instrument.  Let
    [float] raise nothing but [ValueError], and let the narrative generator,
    if there is one, keep the layout of the snapshot: its answers leave the
    three entries of the snapshot alone and bring a dictionary as their own
    section.  Then, after [fetch_data] on an analyzer without data, the loop
    of [generate_html_report] raises nothing and gives every listed
    instrument one entry, in listing order: the analysed entry, filled from
    the snapshot and the chart of the fetched series, exactly when the source
    answered with a non-empty table, and the fetch-failed entry when it
    raised, answered [None] or answered an empty table. *)
Theorem report_entries_after_fetch get_price self :
  raises_only_value_error py_float → data self = ∅ → narrative_keeps_layout self →
  ∃ contents,
    stock_contents py_float (fetch_data get_price self)
      (stock_codes (fetch_data get_price self)) = Return contents ∧
    Forall2 (entry_after_fetch py_float get_price self) (stock_codes self) contents.
Proof.
  intros Hfloat Hfresh Hllm.
  destruct (fetch_codes_names get_price self (stock_codes self)) as [Hnames Hsame].
  fold (fetch_data get_price self) in Hnames, Hsame.
  assert (stock_codes (fetch_data get_price self) = stock_codes self) as Hcodes
    by (unfold stock_codes; by rewrite Hnames).
  assert (∀ code, get_stock_name (fetch_data get_price self) code = get_stock_name self code)
    as Hname by (intros code; unfold get_stock_name; by rewrite Hnames).
  assert (narrative_keeps_layout (fetch_data get_price self)) as Hllm'.
  { unfold narrative_keeps_layout. rewrite Hsame. exact Hllm. }
  destruct (stock_contents_entries (fetch_data get_price self) (stock_codes self) Hfloat Hllm')
    as (contents & Hrun & Hall).
  exists contents. rewrite Hcodes. split; [done|].
  apply Forall2_same_length_lookup. apply Forall2_same_length_lookup in Hall as [Hlen Hall].
  split; [done|]. intros i code content Hcode Hcontent.
  specialize (Hall i code content Hcode Hcontent).
  apply list_elem_of_lookup_2 in Hcode.
  pose proof (fetch_codes_data get_price self (stock_codes self) code) as Hdata.
  fold (fetch_data get_price self) in Hdata.
  rewrite bool_decide_eq_true_2, Hfresh, lookup_empty in Hdata by done.
  unfold entry_after_fetch. pose proof Hall as Hcontent_of. unfold content_of in Hall.
  destruct (usable get_price code) as [df|]; rewrite Hdata in Hall.
  - split_and!; [done|done|].
    destruct Hall as (d & basic_data & sections & signals & ai & _ & _ & -> & _).
    rewrite Hname. by eexists _, _, _, _.
  - by rewrite <- Hname.
Qed.

(** C6. The assembler is atomic per instrument.  When one indicator call
    raises, it returns no table; the instrument's snapshot is then the
    placeholder whose status and advice report the failed computation and
    which holds no indicator; its chart is missing; and the loop of the report
    is not left: it fills the instrument's entry from the placeholder, after
    the entries of the instruments before, and goes on with the instruments
    after, whose outcome is what it is without the failing one.  A table that
    the assembler does return has every indicator column. *)
Theorem C6_assembler_atomic self code df close open_price high low volume i e :
  raises_only_value_error py_float →
  data self !! code = Some df → pd.empty df = false →
  pd.getitem df "close" = Return close → pd.getitem df "open" = Return open_price →
  pd.getitem df "high" = Return high → pd.getitem df "low" = Return low →
  pd.getitem df "volume" = Return volume →
  indicator_calls close open_price high low volume !! i = Some (Raise e) →
  calculate_indicators self code = None ∧
  generate_analysis_data self code =
    Return [("基础数据", PDict [("股票代码", PStr code);
                              ("股票名称", PStr (get_stock_name self code));
                              ("数据状态", PStr "技术指标计算失败")]);
            ("技术指标", PDict []);
            ("技术分析建议", PList [PStr "技术指标计算失败"])] ∧
  plot_analysis self code = None ∧
  (∃ basic_data,
     shown basic_data = [("股票代码", PStr code);
                         ("股票名称", PStr (get_stock_name self code));
                         ("数据状态", PStr "技术指标计算失败")] ∧
     ∀ before after contents_before,
       stock_contents py_float self before = Return contents_before →
       stock_contents py_float self (before ++ code :: after) =
         (contents_after ← stock_contents py_float self after;
          mret (contents_before ++
                Analysed code (get_stock_name self code) basic_data []
                  (PList [PStr "技术指标计算失败"]) [] None
                :: contents_after))) ∧
  (∀ code' df', calculate_indicators self code' = Some df' →
     Forall (λ c, is_Some (pd.columns df' !! c)) indicator_columns).
Proof.
  intros Hfloat Hdf Hempty Hc Ho Hh Hl Hv Hi.
  assert (calculate_indicators self code = None) as Hnone.
  { unfold calculate_indicators, pd.copy. rewrite Hdf.
    by destruct (compute_indicators_raises df _ _ _ _ _ i e Hc Ho Hh Hl Hv Hi) as [e' ->]. }
  assert (plot_analysis self code = None) as Hplot
    by (unfold plot_analysis; by rewrite Hdf, Hnone).
  assert (generate_analysis_data self code =
            Return [("基础数据", PDict [("股票代码", PStr code);
                                      ("股票名称", PStr (get_stock_name self code));
                                      ("数据状态", PStr "技术指标计算失败")]);
                    ("技术指标", PDict []);
                    ("技术分析建议", PList [PStr "技术指标计算失败"])]) as Hgad.
  { unfold generate_analysis_data. by rewrite Hdf, Hempty, Hnone. }
  split_and!; [done|done|done| |apply calculate_indicators_complete].
  destruct (table_rows_returns [("股票代码", PStr code);
                                ("股票名称", PStr (get_stock_name self code));
                                ("数据状态", PStr "技术指标计算失败")] Hfloat)
    as (basic_data & Hrows & Hshown).
  exists basic_data. split; [done|]. intros before after contents_before Hbefore.
  rewrite stock_contents_app, Hbefore. cbn [mbind result_bind stock_contents].
  rewrite bool_decide_eq_true_2 by (by rewrite Hdf).
  rewrite Hgad, Hplot. cbn [mbind result_bind].
  unfold render_stock, dict_getitem.
  change (dict_get _ "基础数据") with
    (Some (PDict [("股票代码", PStr code); ("股票名称", PStr (get_stock_name self code));
                  ("数据状态", PStr "技术指标计算失败")])).
  cbn [mbind result_bind items]. rewrite Hrows. cbn [mbind result_bind].
  by destruct (stock_contents py_float self after).
Qed.

(** A key that an answer of the narrative generator carries holds the
    answer's value after the merge. *)
Lemma dict_get_update_elem d api k v :
  NoDup api.*1 → (k, v) ∈ api → dict_get (dict_update d api) k = Some v.
Proof.
  unfold dict_update. revert d. induction api as [|[k' v'] api IH]; intros d Hnd Hin.
  - by apply elem_of_nil in Hin.
  - rewrite fmap_cons in Hnd. apply NoDup_cons in Hnd as [Hfresh Hnd]. simpl in *.
    apply elem_of_cons in Hin as [[= -> ->]|Hin]; [|by apply IH].
    fold (dict_update (dict_set d k' v') api).
    rewrite dict_get_update_ne, dict_get_set by done. by case_decide.
Qed.

(** X24. The report does not survive a narrative answer that writes over the
    basic data.  When the snapshot of an instrument is built and the answer of
    the narrative generator carries, under the key of the basic data, a value
    that is no dictionary, the loop of [generate_html_report] raises the
    [AttributeError] of [items] at that instrument: the entries of the
    instruments before are lost and the instruments after are not reached. *)
Theorem stock_contents_overwritten_basic_data
    self code df latest analysis_data analyzer api_result v e :
  data self !! code = Some df → pd.empty df = false →
  calculate_indicators self code = Some latest →
  build_analysis_data code df latest = Return analysis_data →
  llm self = Some analyzer →
  request_analysis analyzer df latest = Return (Some api_result) →
  NoDup api_result.*1 → ("基础数据", v) ∈ api_result → items v = Raise e →
  generate_analysis_data self code = Return (dict_update analysis_data api_result) ∧
  ∀ before after contents_before,
    stock_contents py_float self before = Return contents_before →
    stock_contents py_float self (before ++ code :: after) = Raise e.
Proof.
  intros Hdf Hempty Hrun Hbuild Hllm Hanswer Hnd Hin Hitems.
  assert (generate_analysis_data self code = Return (dict_update analysis_data api_result))
    as Hgad.
  { unfold generate_analysis_data. rewrite Hdf, Hempty, Hrun, Hbuild.
    cbn [mbind result_bind mret result_ret]. unfold add_ai_analysis. rewrite Hllm, Hanswer.
    destruct api_result as [|kv api]; [by apply elem_of_nil in Hin|done]. }
  split; [done|]. intros before after contents_before Hbefore.
  rewrite stock_contents_app, Hbefore. cbn [mbind result_bind stock_contents].
  rewrite bool_decide_eq_true_2 by (by rewrite Hdf).
  rewrite Hgad. cbn [mbind result_bind]. unfold render_stock, dict_getitem.
  rewrite (dict_get_update_elem analysis_data api_result "基础数据" v Hnd Hin).
  cbn [mbind result_bind].
  by rewrite Hitems.
Qed.

End Entries.

Lemma sample_py_float_raises : raises_only_value_error sample_py_float.
Proof.
  intros s e. unfold sample_py_float. repeat case_bool_decide; try done.
  by intros [= <-].
Qed.

Lemma narrating_llm_keeps_layout : narrative_keeps_layout (fresh_analyzer_with narrating_llm).
Proof.
  intros analyzer df latest api [= <-] [= <-].
  repeat constructor; [by_computation | by eexists].
Qed.

Lemma report_entries_after_fetch_witness :
  ∃ contents,
    stock_contents (ext := sample_collaborators) sample_py_float
      (fetch_data sample_get_price (fresh_analyzer_with narrating_llm))
      (stock_codes (fetch_data sample_get_price (fresh_analyzer_with narrating_llm))) =
      Return contents ∧
    Forall2 (entry_after_fetch (ext := sample_collaborators) sample_py_float sample_get_price
               (fresh_analyzer_with narrating_llm))
      (stock_codes (fresh_analyzer_with narrating_llm)) contents.
Proof.
  apply (report_entries_after_fetch (ext := sample_collaborators) sample_py_float
           sample_get_price (fresh_analyzer_with narrating_llm));
    [apply sample_py_float_raises | reflexivity | apply narrating_llm_keeps_layout].
Defined.

Example report_entries_sample :
  ∃ basic_data sections signals,
    stock_contents (ext := sample_collaborators) sample_py_float
      (fetch_data sample_get_price (fresh_analyzer_with narrating_llm))
      (stock_codes (fetch_data sample_get_price (fresh_analyzer_with narrating_llm))) =
    Return [Analysed "sh000001" "上证指数" basic_data sections signals
              [("趋势分析", PStr "震荡上行")] (Some "iVBORw0KGgo=");
            FetchFailed "sz000001" "平安银行"; FetchFailed "sz002640" "跨境通"].
Proof. eexists _, _, _. vm_compute. reflexivity. Qed.

Example report_lost_sample :
  stock_contents (ext := sample_collaborators) sample_py_float
    (fetch_data sample_get_price (fresh_analyzer_with overwriting_llm))
    (stock_codes (fetch_data sample_get_price (fresh_analyzer_with overwriting_llm))) =
  Raise (AttributeError "'str' object has no attribute 'items'").
Proof. vm_compute. reflexivity. Qed.

Lemma stock_contents_overwritten_basic_data_witness :
  generate_analysis_data (ext := sample_collaborators) overwritten_analyzer "sh000001" =
    Return (dict_update sample_snapshot [("基础数据", PStr "y")]) ∧
  ∀ before after contents_before,
    stock_contents (ext := sample_collaborators) sample_py_float overwritten_analyzer before =
      Return contents_before →
    stock_contents (ext := sample_collaborators) sample_py_float overwritten_analyzer
      (before ++ "sh000001" :: after) =
    Raise (AttributeError "'str' object has no attribute 'items'").
Proof.
  apply (stock_contents_overwritten_basic_data (ext := sample_collaborators) sample_py_float
           overwritten_analyzer "sh000001" sample_series sample_table sample_snapshot
           overwriting_llm [("基础数据", PStr "y")] (PStr "y")
           (AttributeError "'str' object has no attribute 'items'"));
    [vm_compute; reflexivity | reflexivity | vm_compute; reflexivity | vm_compute; reflexivity
    | reflexivity | reflexivity | by_computation | constructor | reflexivity].
Defined.

(** C6 on the second sample instrument, whose high series makes DMI raise. *)
Lemma C6_witness :
  calculate_indicators (ext := sample_collaborators) sample_analyzer "sz000001" = None ∧
  generate_analysis_data (ext := sample_collaborators) sample_analyzer "sz000001" =
    Return [("基础数据", PDict [("股票代码", PStr "sz000001");
                              ("股票名称", PStr (get_stock_name sample_analyzer "sz000001"));
                              ("数据状态", PStr "技术指标计算失败")]);
            ("技术指标", PDict []);
            ("技术分析建议", PList [PStr "技术指标计算失败"])] ∧
  plot_analysis (ext := sample_collaborators) sample_analyzer "sz000001" = None ∧
  (∃ basic_data,
     shown basic_data = [("股票代码", PStr "sz000001");
                         ("股票名称", PStr (get_stock_name sample_analyzer "sz000001"));
                         ("数据状态", PStr "技术指标计算失败")] ∧
     ∀ before after contents_before,
       stock_contents (ext := sample_collaborators) sample_py_float sample_analyzer before =
         Return contents_before →
       stock_contents (ext := sample_collaborators) sample_py_float sample_analyzer
         (before ++ "sz000001" :: after) =
         (contents_after ← stock_contents (ext := sample_collaborators) sample_py_float
                             sample_analyzer after;
          mret (contents_before ++
                Analysed "sz000001" (get_stock_name sample_analyzer "sz000001") basic_data []
                  (PList [PStr "技术指标计算失败"]) [] None
                :: contents_after))) ∧
  (∀ code' df',
     calculate_indicators (ext := sample_collaborators) sample_analyzer code' = Some df' →
     Forall (λ c, is_Some (pd.columns df' !! c)) indicator_columns).
Proof.
  apply (C6_assembler_atomic (ext := sample_collaborators) sample_py_float
           sample_analyzer "sz000001" sample_series_bad
           sample_close sample_close (nan :: replicate 15 12%float)
           ((λ x, (x - 0.5)%float) <$> sample_close) (replicate 16 1000%float)
           16 (ValueError "high holds not-a-number"));
    [apply sample_py_float_raises | vm_compute; reflexivity..].
Defined.
